(** * prepare_to_import_ninja: Level-1 ticks to per-contract Tick Replay files

    A shallow embedding of [src/prepare_to_import_ninja.py] and the proofs of
    the properties stated about it.

    - Python [str] values are lists of Unicode code points ([pystr]).
    - The built-ins the program calls ([str.strip], [str.isdigit], [int],
      [decimal.Decimal], [datetime.date], [re.match], [csv.reader]) are
      embedded with the behaviour of CPython 3.11 (Unicode 14.0 tables,
      64-bit libmpdec limits).
    - Exceptions are values of [exn]; code that may raise returns [res].
    - The file system is an oracle ([Env]) for opening and reading day
      files and for opening output files; a write to an open output file,
      its flush and its close are taken to succeed.  What the run does to
      the outside is recorded as a trace of events. *)

From Stdlib Require Import ZArith NArith QArith Qpower List Bool Lia String Ascii.
Import ListNotations.

(* ====================================================================== *)
(** * Python strings *)
(* ====================================================================== *)

Module PyStr.

Local Open Scope N_scope.

(** A code point; a [str] is a sequence of them. *)
Definition char := N.
Definition pystr := list char.

(** ASCII literal of the development: the code points of an 8-bit string. *)
Definition py (s : string) : pystr := map N_of_ascii (list_ascii_of_string s).

Definition char_eqb : char -> char -> bool := N.eqb.

Fixpoint str_eqb (a b : pystr) : bool :=
  match a, b with
  | [], [] => true
  | x :: a', y :: b' => char_eqb x y && str_eqb a' b'
  | _, _ => false
  end.

Definition in_range (c : char) (r : N * N) : bool :=
  (fst r <=? c) && (c <=? snd r).

Definition in_ranges (t : list (N * N)) (c : char) : bool :=
  existsb (in_range c) t.

(** [Py_UNICODE_ISSPACE]: the characters [str.strip()] removes. *)
Definition space_ranges : list (N * N) :=
  [(9, 13); (28, 32); (133, 133); (160, 160); (5760, 5760); (8192, 8202);
   (8232, 8233); (8239, 8239); (8287, 8287); (12288, 12288)].

(** General category Nd: what [int], [Decimal] and the regex class [\d]
    accept as a decimal digit.  Every run starts at a digit zero. *)
Definition decimal_ranges : list (N * N) :=
  [(48, 57); (1632, 1641); (1776, 1785); (1984, 1993); (2406, 2415); (2534, 2543);
   (2662, 2671); (2790, 2799); (2918, 2927); (3046, 3055); (3174, 3183); (3302, 3311);
   (3430, 3439); (3558, 3567); (3664, 3673); (3792, 3801); (3872, 3881); (4160, 4169);
   (4240, 4249); (6112, 6121); (6160, 6169); (6470, 6479); (6608, 6617); (6784, 6793);
   (6800, 6809); (6992, 7001); (7088, 7097); (7232, 7241); (7248, 7257); (42528, 42537);
   (43216, 43225); (43264, 43273); (43472, 43481); (43504, 43513); (43600, 43609); (44016, 44025);
   (65296, 65305); (66720, 66729); (68912, 68921); (69734, 69743); (69872, 69881); (69942, 69951);
   (70096, 70105); (70384, 70393); (70736, 70745); (70864, 70873); (71248, 71257); (71360, 71369);
   (71472, 71481); (71904, 71913); (72016, 72025); (72784, 72793); (73040, 73049); (73120, 73129);
   (92768, 92777); (92864, 92873); (93008, 93017); (120782, 120831); (123200, 123209); (123632, 123641);
   (125264, 125273); (130032, 130041)].

(** Numeric_Type Digit or Decimal: the characters of [str.isdigit]. *)
Definition digit_ranges : list (N * N) :=
  [(48, 57); (178, 179); (185, 185); (1632, 1641); (1776, 1785); (1984, 1993);
   (2406, 2415); (2534, 2543); (2662, 2671); (2790, 2799); (2918, 2927); (3046, 3055);
   (3174, 3183); (3302, 3311); (3430, 3439); (3558, 3567); (3664, 3673); (3792, 3801);
   (3872, 3881); (4160, 4169); (4240, 4249); (4969, 4977); (6112, 6121); (6160, 6169);
   (6470, 6479); (6608, 6618); (6784, 6793); (6800, 6809); (6992, 7001); (7088, 7097);
   (7232, 7241); (7248, 7257); (8304, 8304); (8308, 8313); (8320, 8329); (9312, 9320);
   (9332, 9340); (9352, 9360); (9450, 9450); (9461, 9469); (9471, 9471); (10102, 10110);
   (10112, 10120); (10122, 10130); (42528, 42537); (43216, 43225); (43264, 43273); (43472, 43481);
   (43504, 43513); (43600, 43609); (44016, 44025); (65296, 65305); (66720, 66729); (68160, 68163);
   (68912, 68921); (69216, 69224); (69714, 69722); (69734, 69743); (69872, 69881); (69942, 69951);
   (70096, 70105); (70384, 70393); (70736, 70745); (70864, 70873); (71248, 71257); (71360, 71369);
   (71472, 71481); (71904, 71913); (72016, 72025); (72784, 72793); (73040, 73049); (73120, 73129);
   (92768, 92777); (92864, 92873); (93008, 93017); (120782, 120831); (123200, 123209); (123632, 123641);
   (125264, 125273); (127232, 127242); (130032, 130041)].

Definition isspace (c : char) : bool := in_ranges space_ranges c.
Definition isdecimal (c : char) : bool := in_ranges decimal_ranges c.
Definition isdigit_char (c : char) : bool := in_ranges digit_ranges c.

(** The characters ['0'..'9']. *)
Definition is_ascii_digit (c : char) : bool := (48 <=? c) && (c <=? 57).

(** [Py_UNICODE_TODECIMAL]: the value of a decimal digit. *)
Definition todecimal (c : char) : option N :=
  match find (in_range c) decimal_ranges with
  | Some r => Some ((c - fst r) mod 10)
  | None => None
  end.

(** [str.isdigit()]: every character is a digit and there is at least one. *)
Definition isdigit (s : pystr) : bool :=
  match s with
  | [] => false
  | _ => forallb isdigit_char s
  end.

Fixpoint lstrip (s : pystr) : pystr :=
  match s with
  | c :: r => if isspace c then lstrip r else s
  | [] => []
  end.

Definition rstrip (s : pystr) : pystr := rev (lstrip (rev s)).

(** [str.strip()] without argument. *)
Definition strip (s : pystr) : pystr := rstrip (lstrip s).

(** Slice [s[a:b]] for [0 <= a <= b]. *)
Definition slice (a b : nat) (s : pystr) : pystr := firstn (b - a) (skipn a s).

End PyStr.
Export PyStr.

(* ====================================================================== *)
(** * Exceptions and results *)
(* ====================================================================== *)

(** The exception classes the program can meet; all derive from
    [Exception], which is what [main] catches. *)
Inductive exn : Type :=
| ValueError
| InvalidOperation
| OverflowError
| OSError
| UnicodeDecodeError
| CsvError.

Inductive res (A : Type) : Type :=
| Ok (a : A)
| Raise (e : exn).
Arguments Ok {A} a.
Arguments Raise {A} e.

Definition rbind {A B : Type} (m : res A) (k : A -> res B) : res B :=
  match m with
  | Ok a => k a
  | Raise e => Raise e
  end.

(** An [option] result whose [None] stands for the exception [e]. *)
Definition or_raise {A : Type} (e : exn) (o : option A) : res A :=
  match o with
  | Some a => Ok a
  | None => Raise e
  end.

Declare Scope res_scope.
Delimit Scope res_scope with res.
Notation "x <- m ;; k" := (rbind m (fun x => k))
  (at level 61, m at next level, right associativity) : res_scope.
Notation "' pat <- m ;; k" := (rbind m (fun x => match x with pat => k end))
  (at level 61, pat pattern, m at next level, right associativity) : res_scope.

(* ====================================================================== *)
(** * The built-in [int(str)] *)
(* ====================================================================== *)

Module PyInt.

Local Open Scope N_scope.

(** [_PyUnicode_TransformDecimalAndSpaceToASCII]: an ASCII string is
    returned as it is; otherwise spaces become [' '], decimal digits their
    ASCII digit, and the first other character ['?'], where the result
    ends. *)
Fixpoint transform (s : pystr) : pystr :=
  match s with
  | [] => []
  | c :: r =>
      if c <? 127 then c :: transform r
      else if isspace c then 32 :: transform r
      else match todecimal c with
           | Some d => (48 + d) :: transform r
           | None => [63]
           end
  end.

Definition to_ascii (s : pystr) : pystr :=
  if forallb (fun c => c <? 128) s then s else transform s.

(** [Py_ISSPACE]: the C locale's white space. *)
Definition c_isspace (c : char) : bool :=
  ((9 <=? c) && (c <=? 13)) || (c =? 32).

Fixpoint skip_c_space (s : pystr) : pystr :=
  match s with
  | c :: r => if c_isspace c then skip_c_space r else s
  | [] => []
  end.

(** The digit scan of [PyLong_FromString]: digits with single underscores
    between them.  Returns the digit values and the unread rest, [None]
    on a doubled or trailing underscore. *)
Fixpoint scan_digits (prev_us : bool) (acc : list N) (s : pystr)
  : option (list N * pystr) :=
  match s with
  | c :: r =>
      if is_ascii_digit c then scan_digits false (acc ++ [c - 48]) r
      else if c =? 95 then
        if prev_us then None else scan_digits true acc r
      else if prev_us then None else Some (acc, s)
  | [] => if prev_us then None else Some (acc, [])
  end.

Definition digits_value (ds : list N) : N :=
  fold_left (fun v d => 10 * v + d) ds 0.

(** [sys.int_info.default_max_str_digits]. *)
Definition max_str_digits : nat := 4300.

(** [int(s)] in base 10; [None] stands for [ValueError]. *)
Definition py_int (s : pystr) : option Z :=
  let a := skip_c_space (to_ascii s) in
  let '(neg, b) :=
    match a with
    | 43 :: r => (false, r)
    | 45 :: r => (true, r)
    | _ => (false, a)
    end in
  match b with
  | 95 :: _ => None
  | _ =>
      match scan_digits false [] b with
      | None => None
      | Some (ds, rest) =>
          match ds with
          | [] => None
          | _ =>
              if Nat.ltb max_str_digits (List.length ds) then None
              else
                match skip_c_space rest with
                | [] =>
                    let v := Z.of_N (digits_value ds) in
                    Some (if neg then (- v)%Z else v)
                | _ => None
                end
          end
      end
  end.

End PyInt.
Export PyInt.

(* ====================================================================== *)
(** * Parsing utilities *)
(* ====================================================================== *)

Definition TYPE_BID : Z := 0.
Definition TYPE_ASK : Z := 1.
Definition TYPE_LAST : Z := 2.

(** A row of the csv reader and the tuple the parser returns. *)
Definition row := list pystr.
Definition parsed := (pystr * Z * Z * pystr * pystr)%type.

(** [campos[i]]; the parser only indexes below the checked length. *)
Definition field (campos : row) (i : nat) : pystr := nth i campos [].

Definition parse_line_fields (campos : row) : option parsed :=
  if negb ((List.length campos =? 5)%nat || (List.length campos =? 7)%nat) then None
  else
    let timestamp_raw := strip (field campos 0) in
    if negb (List.length timestamp_raw =? 20)%nat || negb (isdigit timestamp_raw)
    then None
    else
      match py_int (field campos 1) with
      | None => None
      | Some level =>
          match py_int (field campos 2) with
          | None => None
          | Some dato_tipo =>
              let price_str := strip (field campos 3) in
              let volume_str := strip (field campos 4) in
              Some (timestamp_raw, level, dato_tipo, price_str, volume_str)
          end
      end.

(** ['YYYYMMDDhhmmssffffff'] to date, time and a 7-digit fraction. *)
Definition ts20_to_nt_parts (ts20 : pystr) : pystr * pystr * pystr :=
  let fecha := slice 0 8 ts20 in
  let hora := slice 8 14 ts20 in
  let micros6 := slice 14 20 ts20 in
  let frac7 := micros6 ++ py "0" in
  (fecha, hora, frac7).

(* ====================================================================== *)
(** * The built-in [decimal.Decimal] *)
(* ====================================================================== *)

Module PyDecimal.

(** A [Decimal]: a finite number [(-1)^neg * coeff * 10^exp], an infinity
    or a NaN (quiet or signalling, with its payload). *)
Inductive decimal : Type :=
| DFin (neg : bool) (coeff : N) (exp : Z)
| DInf (neg : bool)
| DNaN (neg : bool) (signaling : bool) (payload : N).

Local Open Scope N_scope.

(** [numeric_as_ascii] after the white space is stripped: underscores are
    dropped, Unicode spaces and decimal digits become ASCII, and any other
    character outside 1..127 empties the whole string. *)
Fixpoint numeric_as_ascii (s : pystr) : option pystr :=
  match s with
  | [] => Some []
  | c :: r =>
      if c =? 95 then numeric_as_ascii r
      else
        let keep (a : char) := option_map (cons a) (numeric_as_ascii r) in
        if (0 <? c) && (c <=? 127) then keep c
        else if isspace c then keep 32
        else match todecimal c with
             | Some d => keep (48 + d)
             | None => None
             end
  end.

(** Leading ASCII digits of [s], as values, and what follows them. *)
Fixpoint take_digits (s : pystr) : list N * pystr :=
  match s with
  | c :: r =>
      if is_ascii_digit c then
        let '(ds, rest) := take_digits r in ((c - 48) :: ds, rest)
      else ([], s)
  | [] => ([], [])
  end.

(** [_mpd_strneq]: [s] starts with the lower-case word [w] in any case. *)
Fixpoint strneq (w s : pystr) : option pystr :=
  match w, s with
  | [], _ => Some s
  | l :: w', c :: s' =>
      if (c =? l) || (c =? l - 32) then strneq w' s' else None
  | _ :: _, [] => None
  end.

Definition take_sign (s : pystr) : bool * pystr :=
  match s with
  | 43 :: r => (false, r)
  | 45 :: r => (true, r)
  | _ => (false, s)
  end.

(** Limits of the 64-bit libmpdec. *)
Definition MAX_PREC : Z := 999999999999999999.
Definition MAX_EMAX : Z := 999999999999999999.
Definition MIN_ETINY : Z := -1999999999999999997.

(** Number of decimal digits of a coefficient (1 for zero). *)
Definition ndigits (c : N) : Z :=
  Z.of_nat (Decimal.nb_digits (N.to_uint c)).

(** The exact constructor converts under the maximal context and refuses
    every result that was rounded or clamped: the adjusted exponent must not
    exceed [MAX_EMAX] and the exponent must not fall below [MIN_ETINY]. *)
Definition exact_finite (neg : bool) (coeff : N) (exp : Z) : option decimal :=
  if ((exp + ndigits coeff - 1 <=? MAX_EMAX) && (MIN_ETINY <=? exp))%Z
  then Some (DFin neg coeff exp) else None.

(** NaN payload: digits up to the end of the string. *)
Definition scan_payload (s : pystr) : option N :=
  match take_digits s with
  | (ds, []) =>
      let v := digits_value ds in
      if (ndigits v <=? MAX_PREC)%Z then Some v else None
  | _ => None
  end.

(** Coefficient, optional fraction and optional exponent of a finite
    numeral ([scan_dpoint_exp] and [strtoexp]). *)
Definition scan_dpoint_exp (s : pystr) : option (list N * list N * Z) :=
  let '(ip, r1) := take_digits s in
  let '(fp, r2) :=
    match r1 with
    | 46 :: r => take_digits r
    | _ => ([], r1)
    end in
  match ip ++ fp with
  | [] => None
  | _ =>
      match r2 with
      | [] => Some (ip, fp, 0%Z)
      | c :: r3 =>
          if (c =? 101) || (c =? 69) then
            let '(eneg, r4) := take_sign r3 in
            match take_digits r4 with
            | (d :: ds, []) =>
                let e := Z.of_N (digits_value (d :: ds)) in
                Some (ip, fp, if eneg then (- e)%Z else e)
            | _ => None
            end
          else None
      end
  end.

(** [mpd_qset_string] on the ASCII form: sign, then a NaN, an infinity or
    a finite numeral. *)
Definition set_string (s : pystr) : option decimal :=
  let '(neg, r) := take_sign s in
  match strneq (py "nan") r with
  | Some p => option_map (DNaN neg false) (scan_payload p)
  | None =>
      match strneq (py "snan") r with
      | Some p => option_map (DNaN neg true) (scan_payload p)
      | None =>
          match strneq (py "inf") r with
          | Some [] => Some (DInf neg)
          | Some t =>
              match strneq (py "inity") t with
              | Some [] => Some (DInf neg)
              | _ => None
              end
          | None =>
              match scan_dpoint_exp r with
              | Some (ip, fp, e) =>
                  let coeff := digits_value (ip ++ fp) in
                  let fracdigits := Z.of_nat (List.length fp) in
                  if (MAX_PREC <? fracdigits)%Z || (MAX_PREC <? ndigits coeff)%Z
                  then None
                  else exact_finite neg coeff (e - fracdigits)
              | None => None
              end
          end
      end
  end.

(** [Decimal(s)] for a [str]; [None] stands for [InvalidOperation]. *)
Definition Decimal (s : pystr) : option decimal :=
  match numeric_as_ascii (strip s) with
  | Some a => set_string a
  | None => None
  end.

(** ** Comparison *)

Local Open Scope Z_scope.

Definition signed (neg : bool) (c : N) : Z :=
  if neg then - Z.of_N c else Z.of_N c.

(** Exact comparison of the values; [None] when an operand is a NaN. *)
Definition dec_compare (a b : decimal) : option comparison :=
  match a, b with
  | DNaN _ _ _, _ | _, DNaN _ _ _ => None
  | DInf na, DInf nb =>
      Some (match na, nb with
            | true, false => Lt
            | false, true => Gt
            | _, _ => Eq
            end)
  | DInf na, DFin _ _ _ => Some (if na then Lt else Gt)
  | DFin _ _ _, DInf nb => Some (if nb then Gt else Lt)
  | DFin na ca ea, DFin nb cb eb =>
      let m := Z.min ea eb in
      Some (signed na ca * 10 ^ (ea - m) ?= signed nb cb * 10 ^ (eb - m))
  end.

(** [a > b] and [a < b] under the default context, which traps
    [InvalidOperation]: an ordering comparison with a NaN raises. *)
Definition dec_gt (a b : decimal) : res bool :=
  match dec_compare a b with
  | Some Gt => Ok true
  | Some _ => Ok false
  | None => Raise InvalidOperation
  end.

Definition dec_lt (a b : decimal) : res bool :=
  match dec_compare a b with
  | Some Lt => Ok true
  | Some _ => Ok false
  | None => Raise InvalidOperation
  end.

(** The order of the values: [a <= b] as exact decimals. *)
Definition dec_le (a b : decimal) : Prop :=
  dec_compare a b = Some Lt \/ dec_compare a b = Some Eq.

(** The value of a finite decimal as a rational number. *)
Definition dec_Q (neg : bool) (coeff : N) (exp : Z) : Q :=
  (inject_Z (signed neg coeff) * (10 # 1) ^ exp)%Q.

End PyDecimal.
Export PyDecimal.

(* ====================================================================== *)
(** * The built-in [datetime.date] *)
(* ====================================================================== *)

Module PyDate.

Local Open Scope Z_scope.

Record date : Type := Date { year : Z; month : Z; day : Z }.

Definition MINYEAR : Z := 1.
Definition MAXYEAR : Z := 9999.
Definition _MAXORDINAL : Z := 3652059.

Definition _is_leap (y : Z) : bool :=
  (y mod 4 =? 0) && (negb (y mod 100 =? 0) || (y mod 400 =? 0)).

Definition _DAYS_IN_MONTH (m : Z) : Z :=
  nth (Z.to_nat m) [-1; 31; 28; 31; 30; 31; 30; 31; 31; 30; 31; 30; 31] 0.

Definition _DAYS_BEFORE_MONTH (m : Z) : Z :=
  nth (Z.to_nat m) [-1; 0; 31; 59; 90; 120; 151; 181; 212; 243; 273; 304; 334] 0.

Definition _days_before_year (y0 : Z) : Z :=
  let y := y0 - 1 in
  y * 365 + y / 4 - y / 100 + y / 400.

Definition _days_in_month (y m : Z) : Z :=
  if (m =? 2) && _is_leap y then 29 else _DAYS_IN_MONTH m.

Definition _days_before_month (y m : Z) : Z :=
  _DAYS_BEFORE_MONTH m + (if (2 <? m) && _is_leap y then 1 else 0).

Definition _ymd2ord (y m d : Z) : Z :=
  _days_before_year y + _days_before_month y m + d.

Definition _DI400Y : Z := 146097.
Definition _DI100Y : Z := 36524.
Definition _DI4Y : Z := 1461.

Definition _ord2ymd (n0 : Z) : Z * Z * Z :=
  let n := n0 - 1 in
  let n400 := n / _DI400Y in
  let n := n mod _DI400Y in
  let y := n400 * 400 + 1 in
  let n100 := n / _DI100Y in
  let n := n mod _DI100Y in
  let n4 := n / _DI4Y in
  let n := n mod _DI4Y in
  let n1 := n / 365 in
  let n := n mod 365 in
  let y := y + n100 * 100 + n4 * 4 + n1 in
  if (n1 =? 4) || (n100 =? 4) then (y - 1, 12, 31)
  else
    let leapyear := (n1 =? 3) && (negb (n4 =? 24) || (n100 =? 3)) in
    let m := Z.shiftr (n + 50) 5 in
    let preceding := _DAYS_BEFORE_MONTH m + (if (2 <? m) && leapyear then 1 else 0) in
    if n <? preceding then
      let m' := m - 1 in
      let preceding' :=
        preceding - (_DAYS_IN_MONTH m' + (if (m' =? 2) && leapyear then 1 else 0)) in
      (y, m', n - preceding' + 1)
    else (y, m, n - preceding + 1).

(** [_check_date_fields]. *)
Definition valid_ymd (y m d : Z) : bool :=
  (MINYEAR <=? y) && (y <=? MAXYEAR) && (1 <=? m) && (m <=? 12)
  && (1 <=? d) && (d <=? _days_in_month y m).

Definition valid_date (d : date) : Prop :=
  valid_ymd (year d) (month d) (day d) = true.

(** A value that fits a C [int]. *)
Definition c_int (n : Z) : bool := (-2147483648 <=? n) && (n <=? 2147483647).

(** The constructor [date(y, m, d)]: the three arguments are converted
    to C [int] first, which raises [OverflowError], and then checked. *)
Definition new_date (y m d : Z) : res date :=
  if negb (c_int y && c_int m && c_int d) then Raise OverflowError
  else if valid_ymd y m d then Ok (Date y m d) else Raise ValueError.

Definition toordinal (d : date) : Z := _ymd2ord (year d) (month d) (day d).

Definition fromordinal (n : Z) : date :=
  let '(y, m, d) := _ord2ymd n in Date y m d.

(** Monday is 0, Friday is 4. *)
Definition weekday (d : date) : Z := (toordinal d + 6) mod 7.

(** [d + timedelta(days=k)]. *)
Definition add_days (d : date) (k : Z) : res date :=
  let o := toordinal d + k in
  if (0 <? o) && (o <=? _MAXORDINAL) then Ok (fromordinal o)
  else Raise OverflowError.

(** [a < b]: the comparison of the triples (year, month, day). *)
Definition ltb (a b : date) : bool :=
  (year a <? year b)
  || ((year a =? year b)
      && ((month a <? month b)
          || ((month a =? month b) && (day a <? day b)))).

End PyDate.

(* ====================================================================== *)
(** * Rollover and front contract *)
(* ====================================================================== *)

Local Open Scope Z_scope.

Local Open Scope res_scope.

Definition second_friday (year month : Z) : res PyDate.date :=
  d0 <- PyDate.new_date year month 1 ;;
  (* Monday=0...Friday=4 *)
  let offset := (4 - PyDate.weekday d0) mod 7 in
  first_friday <- PyDate.add_days d0 offset ;;
  PyDate.add_days first_friday 7.

Record ContractKey : Type := { symbol : pystr; month : Z; year : Z }.

Definition ContractKey_eqb (a b : ContractKey) : bool :=
  str_eqb (symbol a) (symbol b) && (month a =? month b) && (year a =? year b).

(** Decimal digits of a natural number. *)
Fixpoint uint_to_str (u : Decimal.uint) : pystr :=
  match u with
  | Decimal.Nil => []
  | Decimal.D0 r => 48%N :: uint_to_str r
  | Decimal.D1 r => 49%N :: uint_to_str r
  | Decimal.D2 r => 50%N :: uint_to_str r
  | Decimal.D3 r => 51%N :: uint_to_str r
  | Decimal.D4 r => 52%N :: uint_to_str r
  | Decimal.D5 r => 53%N :: uint_to_str r
  | Decimal.D6 r => 54%N :: uint_to_str r
  | Decimal.D7 r => 55%N :: uint_to_str r
  | Decimal.D8 r => 56%N :: uint_to_str r
  | Decimal.D9 r => 57%N :: uint_to_str r
  end.

Definition zfill (w : nat) (s : pystr) : pystr :=
  repeat 48%N (w - List.length s) ++ s.

(** The format [{n:02d}]: sign first, then zeros up to width 2. *)
Definition format_02d (n : Z) : pystr :=
  let ds := uint_to_str (N.to_uint (Z.abs_N n)) in
  if n <? 0 then 45%N :: zfill 1 ds else zfill 2 ds.

Definition label (ck : ContractKey) : pystr :=
  format_02d (month ck) ++ py "-" ++ format_02d (year ck mod 100).

(** The name of the contract's file inside the output directory. *)
Definition outfile_name (ck : ContractKey) : pystr :=
  symbol ck ++ py " " ++ label ck ++ py ".Last.txt".

Definition front_contract_for_date (d : PyDate.date) : res (Z * Z) :=
  r_mar <- second_friday (PyDate.year d) 3 ;;
  r_jun <- second_friday (PyDate.year d) 6 ;;
  r_sep <- second_friday (PyDate.year d) 9 ;;
  r_dec <- second_friday (PyDate.year d) 12 ;;
  if PyDate.ltb d r_mar then Ok (3, PyDate.year d)
  else if PyDate.ltb d r_jun then Ok (6, PyDate.year d)
  else if PyDate.ltb d r_sep then Ok (9, PyDate.year d)
  else if PyDate.ltb d r_dec then Ok (12, PyDate.year d)
  else Ok (3, PyDate.year d + 1).

(* ====================================================================== *)
(** * Regular expressions as backtracking matchers *)
(* ====================================================================== *)

Module Regex.

(** A matcher returns, in the order the backtracking engine tries them,
    what it produced and the unread rest of the subject. *)
Definition matcher (A : Type) : Type := pystr -> list (A * pystr).

Definition mret {A : Type} (a : A) : matcher A := fun s => [(a, s)].

Definition mbind {A B : Type} (m : matcher A) (k : A -> matcher B) : matcher B :=
  fun s => flat_map (fun '(a, r) => k a r) (m s).

(** One character of a class. *)
Definition cls (p : char -> bool) : matcher char :=
  fun s =>
    match s with
    | c :: r => if p c then [(c, r)] else []
    | [] => []
    end.

(** A literal text. *)
Fixpoint lit (w : pystr) : matcher unit :=
  match w with
  | [] => mret tt
  | l :: w' => mbind (cls (N.eqb l)) (fun _ => lit w')
  end.

(** Greedy [p+]: the longest run first, then each shorter one. *)
Fixpoint plus (p : char -> bool) (s : pystr) : list (pystr * pystr) :=
  match s with
  | c :: r =>
      if p c then map (fun '(m, rest) => (c :: m, rest)) (plus p r) ++ [([c], r)]
      else []
  | [] => []
  end.

(** [p{n}]. *)
Fixpoint times (n : nat) (p : char -> bool) : matcher pystr :=
  match n with
  | O => mret []
  | S n' => mbind (cls p) (fun c => mbind (times n' p) (fun m => mret (c :: m)))
  end.

(** [$] without MULTILINE: the end of the subject, or just before a
    newline that ends it. *)
Definition eol : matcher unit :=
  fun s =>
    match s with
    | [] => [(tt, [])]
    | [c] => if (c =? 10)%N then [(tt, s)] else []
    | _ => []
    end.

(** [pattern.match(s)]: the first way to match at the start of [s]. *)
Definition re_match {A : Type} (m : matcher A) (s : pystr) : option A :=
  match m s with
  | (a, _) :: _ => Some a
  | [] => None
  end.

End Regex.

(* ====================================================================== *)
(** * Inference from paths *)
(* ====================================================================== *)

(** A [pathlib] path: whether it has a root, and its components. *)
Record path : Type := { anchored : bool; parts : list pystr }.

(** [p.name]: the last component, or the empty string. *)
Definition name (p : path) : pystr := List.last (parts p) [].

(** [p.parent]: the path without its last component; a path without
    components is its own parent. *)
Definition parent (p : path) : path :=
  {| anchored := anchored p; parts := removelast (parts p) |}.

Definition path_eqb (a b : path) : bool :=
  Bool.eqb (anchored a) (anchored b)
  && (fix go (x y : list pystr) : bool :=
        match x, y with
        | [], [] => true
        | u :: x', v :: y' => str_eqb u v && go x' y'
        | _, _ => false
        end) (parts a) (parts b).

(** The class [[A-Za-z0-9]]. *)
Definition is_alnum_ascii (c : char) : bool :=
  (((65 <=? c) && (c <=? 90)) || ((97 <=? c) && (c <=? 122))
   || ((48 <=? c) && (c <=? 57)))%N.

(** [^([A-Za-z0-9]+)_T[12]_\d{6}$]; the result is group 1. *)
Definition _RE_FOLDER : Regex.matcher pystr :=
  Regex.mbind (Regex.plus is_alnum_ascii) (fun g =>
  Regex.mbind (Regex.lit (py "_T")) (fun _ =>
  Regex.mbind (Regex.cls (fun c => (c =? 49) || (c =? 50))%N) (fun _ =>
  Regex.mbind (Regex.lit (py "_")) (fun _ =>
  Regex.mbind (Regex.times 6 isdecimal) (fun _ =>
  Regex.mbind Regex.eol (fun _ =>
  Regex.mret g)))))).

(** [^(\d{8})\.csv$]; the result is group 1. *)
Definition _RE_FILE_DATE : Regex.matcher pystr :=
  Regex.mbind (Regex.times 8 isdecimal) (fun g =>
  Regex.mbind (Regex.lit (py ".csv")) (fun _ =>
  Regex.mbind Regex.eol (fun _ =>
  Regex.mret g))).

(** [if forced_symbol:] is the truth value of an [Optional[str]]: [None]
    and the empty string are both false. *)
Definition infer_symbol_from_path (csv_path : path) (forced_symbol : option pystr)
  : res pystr :=
  match forced_symbol with
  | Some (c :: f) => Ok (c :: f)
  | _ =>
      match Regex.re_match _RE_FOLDER (name (parent csv_path)) with
      | Some g => Ok g
      | None =>
          match Regex.re_match _RE_FOLDER (name (parent (parent csv_path))) with
          | Some g => Ok g
          | None => Raise ValueError
          end
      end
  end.

Definition infer_trade_date_from_filename (csv_path : path) : res PyDate.date :=
  match Regex.re_match _RE_FILE_DATE (name csv_path) with
  | None => Raise ValueError
  | Some yyyymmdd =>
      y <- or_raise ValueError (py_int (slice 0 4 yyyymmdd)) ;;
      m <- or_raise ValueError (py_int (slice 4 6 yyyymmdd)) ;;
      d <- or_raise ValueError (py_int (slice 6 8 yyyymmdd)) ;;
      PyDate.new_date y m d
  end.

(* ====================================================================== *)
(** * Clamp of bid and ask around the last price *)
(* ====================================================================== *)

Definition clamp_bbo_with_last (last_str bid_str ask_str : pystr)
  : res (pystr * pystr * bool * bool) :=
  match Decimal last_str, Decimal bid_str, Decimal ask_str with
  | Some d_last, Some d_bid, Some d_ask =>
      bid_gt <- dec_gt d_bid d_last ;;
      let '(bid_out, clamp_bid) :=
        if bid_gt then (last_str, true) else (bid_str, false) in
      ask_lt <- dec_lt d_ask d_last ;;
      let '(ask_out, clamp_ask) :=
        if ask_lt then (last_str, true) else (ask_str, false) in
      Ok (bid_out, ask_out, clamp_bid, clamp_ask)
  | _, _, _ => Ok (bid_str, ask_str, false, false)
  end.

(* ====================================================================== *)
(** * The csv reader *)
(* ====================================================================== *)

(** [csv.reader(fp, delimiter=';', quoting=csv.QUOTE_MINIMAL)]: the
    character automaton of the reader for this dialect (the double quote
    as quote character, doubled inside a quoted field; no escape character;
    not strict). *)
Module Csv.

Inductive pstate : Type :=
| START_RECORD
| START_FIELD
| IN_FIELD
| IN_QUOTED_FIELD
| QUOTE_IN_QUOTED_FIELD
| EAT_CRNL.

Record reader : Type :=
  { state : pstate; fields : list pystr; field : pystr }.

Definition delimiter : char := 59%N.
Definition quotechar : char := 34%N.

(** [csv.field_size_limit()]. *)
Definition field_limit : N := 131072.

Definition parse_reset : reader :=
  {| state := START_RECORD; fields := []; field := [] |}.

Definition parse_add_char (r : reader) (c : char) : res reader :=
  if (field_limit <=? N.of_nat (List.length (field r)))%N then Raise CsvError
  else Ok {| state := state r; fields := fields r; field := field r ++ [c] |}.

Definition parse_save_field (r : reader) : reader :=
  {| state := state r; fields := fields r ++ [field r]; field := [] |}.

Definition set_state (s : pstate) (r : reader) : reader :=
  {| state := s; fields := fields r; field := field r |}.

Definition is_newline (c : char) : bool := ((c =? 10) || (c =? 13))%N.

(** The end of a field at a line end: [c] is [None] at the end of the
    line object and a newline character otherwise. *)
Definition end_of_line (r : reader) (c : option char) : reader :=
  set_state (match c with None => START_RECORD | Some _ => EAT_CRNL end)
            (parse_save_field r).

Definition start_field (r : reader) (c : option char) : res reader :=
  match c with
  | None => Ok (end_of_line r c)
  | Some ch =>
      if is_newline ch then Ok (end_of_line r c)
      else if (ch =? quotechar)%N then Ok (set_state IN_QUOTED_FIELD r)
      else if (ch =? delimiter)%N then Ok (parse_save_field r)
      else r' <- parse_add_char r ch ;; Ok (set_state IN_FIELD r')
  end.

Definition parse_process_char (r : reader) (c : option char) : res reader :=
  match state r with
  | START_RECORD =>
      match c with
      | None => Ok r
      | Some ch =>
          if is_newline ch then Ok (set_state EAT_CRNL r)
          else start_field (set_state START_FIELD r) c
      end
  | START_FIELD => start_field r c
  | IN_FIELD =>
      match c with
      | None => Ok (end_of_line r c)
      | Some ch =>
          if is_newline ch then Ok (end_of_line r c)
          else if (ch =? delimiter)%N
          then Ok (set_state START_FIELD (parse_save_field r))
          else parse_add_char r ch
      end
  | IN_QUOTED_FIELD =>
      match c with
      | None => Ok r
      | Some ch =>
          if (ch =? quotechar)%N then Ok (set_state QUOTE_IN_QUOTED_FIELD r)
          else parse_add_char r ch
      end
  | QUOTE_IN_QUOTED_FIELD =>
      match c with
      | None => Ok (end_of_line r c)
      | Some ch =>
          if (ch =? quotechar)%N
          then r' <- parse_add_char r ch ;; Ok (set_state IN_QUOTED_FIELD r')
          else if (ch =? delimiter)%N
          then Ok (set_state START_FIELD (parse_save_field r))
          else if is_newline ch then Ok (end_of_line r c)
          else r' <- parse_add_char r ch ;; Ok (set_state IN_FIELD r')
      end
  | EAT_CRNL =>
      match c with
      | None => Ok (set_state START_RECORD r)
      | Some ch => if is_newline ch then Ok r else Raise CsvError
      end
  end.

(** One line object: its characters, then the end-of-line mark. *)
Fixpoint process_line (r : reader) (line : pystr) : res reader :=
  match line with
  | [] => parse_process_char r None
  | c :: line' => r' <- parse_process_char r (Some c) ;; process_line r' line'
  end.

Definition is_start_record (s : pstate) : bool :=
  match s with START_RECORD => true | _ => false end.

Definition is_in_quoted (s : pstate) : bool :=
  match s with IN_QUOTED_FIELD => true | _ => false end.

(** The rows the reader yields from the lines, and the exception that
    ends the iteration, if any.  When the lines end because the file
    object raised ([failed]), the record being read is dropped; when
    they end with the file, a record left open is yielded as it is. *)
Fixpoint records (failed : bool) (r : reader) (lines : list pystr)
  : list (list pystr) * option exn :=
  match lines with
  | [] =>
      if failed then ([], None)
      else if negb (List.length (field r) =? 0)%nat || is_in_quoted (state r)
      then ([fields (parse_save_field r)], None)
      else ([], None)
  | l :: ls =>
      match process_line r l with
      | Raise e => ([], Some e)
      | Ok r' =>
          if is_start_record (state r') then
            let '(rs, e) := records failed parse_reset ls in (fields r' :: rs, e)
          else records failed r' ls
      end
  end.

(** The lines of a text file opened with an empty [newline]: each ends
    after LF, CR or CR LF, which it keeps. *)
Fixpoint readlines (cur : pystr) (s : pystr) : list pystr :=
  match s with
  | [] => match cur with [] => [] | _ => [cur] end
  | c :: r =>
      if (c =? 10)%N then (cur ++ [c]) :: readlines [] r
      else if (c =? 13)%N then
        match r with
        | d :: r' =>
            if (d =? 10)%N then (cur ++ [c; d]) :: readlines [] r'
            else (cur ++ [c]) :: readlines [] r
        | [] => [cur ++ [c]]
        end
      else readlines (cur ++ [c]) r
  end.

Definition ends_with_lf (l : pystr) : bool :=
  match rev l with
  | c :: _ => (c =? 10)%N
  | [] => false
  end.

(** The line objects the file delivers.  When reading stops with an
    error, the file has delivered only the lines it saw the end of: a
    last line without terminator, or one that ends with a CR that may
    still be followed by LF, is held back waiting for more text. *)
Definition lines_delivered (failed : bool) (text : pystr) : list pystr :=
  let ls := readlines [] text in
  if failed && negb (ends_with_lf (last ls [])) then removelast ls else ls.

Definition reader_rows (failed : bool) (text : pystr)
  : list (list pystr) * option exn :=
  records failed parse_reset (lines_delivered failed text).

End Csv.

Definition is_nil {A : Type} (l : list A) : bool :=
  match l with [] => true | _ => false end.

(** What reading a day file gives: the text decoded and, if reading
    stopped early, the exception that stopped it. *)
Record file_content : Type := { text : pystr; read_error : option exn }.

(** The rows [iter_csv_lineas] yields (empty rows are skipped), followed
    by the exception that ends the iteration, if any. *)
Definition iter_csv_lineas (fp : file_content) : list row * option exn :=
  let failed := match read_error fp with Some _ => true | None => false end in
  let '(rs, e) := Csv.reader_rows failed (text fp) in
  (filter (fun campos => negb (is_nil campos)) rs,
   match e with Some _ => e | None => read_error fp end).

(* ====================================================================== *)
(** * Per-contract state and the processing of one row *)
(* ====================================================================== *)

(** The dict [{"last": ..., "bid": ..., "ask": ...}] of one contract. *)
Record bbo : Type :=
  { st_last : option pystr; st_bid : option pystr; st_ask : option pystr }.

Definition empty_bbo : bbo :=
  {| st_last := None; st_bid := None; st_ask := None |}.

Definition set_bid (v : pystr) (st : bbo) : bbo :=
  {| st_last := st_last st; st_bid := Some v; st_ask := st_ask st |}.
Definition set_ask (v : pystr) (st : bbo) : bbo :=
  {| st_last := st_last st; st_bid := st_bid st; st_ask := Some v |}.
Definition set_last (v : pystr) (st : bbo) : bbo :=
  {| st_last := Some v; st_bid := st_bid st; st_ask := st_ask st |}.

(** The counters of one file. *)
Record counters : Type :=
  { total_lineas : nat;
    lineas_validas : nat;
    l1_total : nat;
    l1_trades_emitidos : nat;
    clamps_aplicados : nat }.

Definition zero_counters : counters :=
  {| total_lineas := 0; lineas_validas := 0; l1_total := 0;
     l1_trades_emitidos := 0; clamps_aplicados := 0 |}.

Definition incr_total (c : counters) : counters :=
  {| total_lineas := S (total_lineas c); lineas_validas := lineas_validas c;
     l1_total := l1_total c; l1_trades_emitidos := l1_trades_emitidos c;
     clamps_aplicados := clamps_aplicados c |}.
Definition incr_validas (c : counters) : counters :=
  {| total_lineas := total_lineas c; lineas_validas := S (lineas_validas c);
     l1_total := l1_total c; l1_trades_emitidos := l1_trades_emitidos c;
     clamps_aplicados := clamps_aplicados c |}.
Definition incr_l1 (c : counters) : counters :=
  {| total_lineas := total_lineas c; lineas_validas := lineas_validas c;
     l1_total := S (l1_total c); l1_trades_emitidos := l1_trades_emitidos c;
     clamps_aplicados := clamps_aplicados c |}.
Definition incr_emitidos (c : counters) : counters :=
  {| total_lineas := total_lineas c; lineas_validas := lineas_validas c;
     l1_total := l1_total c; l1_trades_emitidos := S (l1_trades_emitidos c);
     clamps_aplicados := clamps_aplicados c |}.
Definition incr_clamps (c : counters) : counters :=
  {| total_lineas := total_lineas c; lineas_validas := lineas_validas c;
     l1_total := l1_total c; l1_trades_emitidos := l1_trades_emitidos c;
     clamps_aplicados := S (clamps_aplicados c) |}.

(** The values the output f-string is filled with. *)
Record tick : Type :=
  { t_fecha : pystr; t_hora : pystr; t_frac7 : pystr;
    t_price : pystr; t_bid : pystr; t_ask : pystr; t_volume : pystr }.

(** The line written:
    [{fecha} {hora} {frac7};{price_str};{bid_out};{ask_out};{volume_str}\n]. *)
Definition render (t : tick) : pystr :=
  t_fecha t ++ py " " ++ t_hora t ++ py " " ++ t_frac7 t ++ py ";"
  ++ t_price t ++ py ";" ++ t_bid t ++ py ";" ++ t_ask t ++ py ";"
  ++ t_volume t ++ [10%N].

(** The body of the loop over the rows of a file, from the contract's
    state and the counters so far: the new state, and either the new
    counters with the tick written, if any, or the exception raised. *)
Definition loop_body (campos : row) (st : bbo) (c : counters)
  : bbo * res (counters * option tick) :=
  let c := incr_total c in
  match parse_line_fields campos with
  | None => (st, Ok (c, None))
  | Some (ts20, level, tipo, price_str, volume_str) =>
      let c := incr_validas c in
      if negb (level =? 1) then (st, Ok (c, None))
      else
        let c := incr_l1 c in
        let '(fecha, hora, frac7) := ts20_to_nt_parts ts20 in
        if tipo =? TYPE_BID then (set_bid price_str st, Ok (c, None))
        else if tipo =? TYPE_ASK then (set_ask price_str st, Ok (c, None))
        else if tipo =? TYPE_LAST then
          let st := set_last price_str st in
          match st_bid st, st_ask st with
          | Some bid, Some ask =>
              match clamp_bbo_with_last price_str bid ask with
              | Raise e => (st, Raise e)
              | Ok (bid_out, ask_out, did_cb, did_ca) =>
                  let c := if did_cb || did_ca then incr_clamps c else c in
                  (st, Ok (incr_emitidos c,
                           Some {| t_fecha := fecha; t_hora := hora;
                                   t_frac7 := frac7; t_price := price_str;
                                   t_bid := bid_out; t_ask := ask_out;
                                   t_volume := volume_str |}))
              end
          | _, _ => (st, Ok (c, None))
          end
        else (st, Ok (c, None))
  end.

Definition opt_list {A : Type} (o : option A) : list A :=
  match o with Some a => [a] | None => [] end.

(** The loop over the rows: the final state of the contract, the ticks
    written in order, and the counters or the exception that left the
    loop (what was written before it stays written). *)
Fixpoint run_rows (rows : list row) (st : bbo) (c : counters)
  : bbo * list tick * res counters :=
  match rows with
  | [] => (st, [], Ok c)
  | campos :: rest =>
      match loop_body campos st c with
      | (st', Raise e) => (st', [], Raise e)
      | (st', Ok (c', t)) =>
          let '(st'', ts, r) := run_rows rest st' c' in
          (st'', opt_list t ++ ts, r)
      end
  end.

(* ====================================================================== *)
(** * Writers per contract, the file system and the run *)
(* ====================================================================== *)

(** [ContractWriters]: the two dicts, in insertion order.  The handle of
    a contract is represented by the path it was opened on. *)
Record ContractWriters : Type :=
  { handles : list (ContractKey * path);
    state : list (ContractKey * bbo) }.

Definition new_ContractWriters : ContractWriters :=
  {| handles := []; state := [] |}.

(** The run totals of [main]. *)
Record totals : Type :=
  { total_archivos : nat;
    sum_lineas : nat;
    total_validas : nat;
    total_l1 : nat;
    total_trades_emitidos : nat;
    total_clamps : nat }.

(** What the run does to the outside, in order. *)
Inductive event : Type :=
| EvOpen (ck : ContractKey) (file : path)
| EvWrite (ck : ContractKey) (s : pystr)
| EvFlush (ck : ContractKey)
| EvClose (ck : ContractKey)
| EvOk (csv_path : path) (ck : ContractKey) (c : counters)
| EvWarn (csv_path : path) (e : exn)
| EvInfo
| EvSummary (t : totals).

Record world : Type := { writers : ContractWriters; trace : list event }.

(** The file system as the run meets it: what opening and reading a day
    file gives, and whether creating the output directory and opening a
    contract file for append fails. *)
Record Env : Type :=
  { open_read : path -> res file_content;
    open_append : path -> option exn }.

(** Computations on the world that may raise; the world changed before a
    raise stays changed. *)
Definition M (A : Type) : Type := world -> world * res A.

Definition ret {A : Type} (a : A) : M A := fun w => (w, Ok a).

Definition bind {A B : Type} (m : M A) (k : A -> M B) : M B :=
  fun w =>
    match m w with
    | (w', Ok a) => k a w'
    | (w', Raise e) => (w', Raise e)
    end.

Definition lift {A : Type} (r : res A) : M A := fun w => (w, r).

Definition emit (ev : event) : M unit :=
  fun w => ({| writers := writers w; trace := trace w ++ [ev] |}, Ok tt).

Declare Scope M_scope.
Delimit Scope M_scope with M.
Notation "x <- m ;; k" := (bind m (fun x => k))
  (at level 61, m at next level, right associativity) : M_scope.
Notation "' pat <- m ;; k" := (bind m (fun x => match x with pat => k end))
  (at level 61, pat pattern, m at next level, right associativity) : M_scope.
Notation "m ;;; k" := (bind m (fun _ => k))
  (at level 61, right associativity) : M_scope.

Fixpoint lookup {V : Type} (ck : ContractKey) (d : list (ContractKey * V)) : option V :=
  match d with
  | [] => None
  | (k, v) :: d' => if ContractKey_eqb ck k then Some v else lookup ck d'
  end.

(** [d[ck] = v]: an existing key keeps its place, a new one goes last. *)
Fixpoint store {V : Type} (ck : ContractKey) (v : V) (d : list (ContractKey * V))
  : list (ContractKey * V) :=
  match d with
  | [] => [(ck, v)]
  | (k, v') :: d' =>
      if ContractKey_eqb ck k then (k, v) :: d' else (k, v') :: store ck v d'
  end.

Definition split_on (sep : char) (s : pystr) : list pystr :=
  let '(cur, acc) :=
    fold_right (fun c '(cur, acc) =>
                  if (c =? sep)%N then ([], cur :: acc) else (c :: cur, acc))
               ([], []) s in
  cur :: acc.

(** [p / s] for POSIX paths: the components of [s] are appended, empty and
    dot components left out; a text that starts with a slash replaces [p]. *)
Definition joinpath (p : path) (s : pystr) : path :=
  let comps :=
    filter (fun x => negb (is_nil x || str_eqb x (py "."))) (split_on 47%N s) in
  match s with
  | 47%N :: _ => {| anchored := true; parts := comps |}
  | _ => {| anchored := anchored p; parts := parts p ++ comps |}
  end.

Definition outfile (ck : ContractKey) (out_dir : path) : path :=
  joinpath out_dir (outfile_name ck).

Section Run.

Variable env : Env.

Local Open Scope M_scope.

Definition get_writer (ck : ContractKey) (out_dir : path) : M path :=
  fun w =>
    match lookup ck (handles (writers w)) with
    | Some fp => (w, Ok fp)
    | None =>
        let f := outfile ck out_dir in
        match open_append env f with
        | Some e => (w, Raise e)
        | None =>
            ({| writers := {| handles := store ck f (handles (writers w));
                              state := state (writers w) |};
                trace := trace w ++ [EvOpen ck f] |}, Ok f)
        end
    end.

Definition put_state (ck : ContractKey) (st : bbo) : M unit :=
  fun w =>
    ({| writers := {| handles := handles (writers w);
                      state := store ck st (state (writers w)) |};
        trace := trace w |}, Ok tt).

Definition get_state (ck : ContractKey) : M bbo :=
  fun w =>
    match lookup ck (state (writers w)) with
    | Some st => (w, Ok st)
    | None => (put_state ck empty_bbo ;;; ret empty_bbo) w
    end.

Fixpoint write_all (ck : ContractKey) (ts : list tick) : M unit :=
  match ts with
  | [] => ret tt
  | t :: ts' => emit (EvWrite ck (render t)) ;;; write_all ck ts'
  end.

(** [st] is the dict stored in [writers.state]: what the loop assigns to
    it is in the store whether the loop ends or raises. *)
Definition export_csv_day_to_contract_last_allformat
  (csv_path : path) (out_dir : path) (forced_symbol : option pystr) : M counters :=
  symbol <- lift (infer_symbol_from_path csv_path forced_symbol) ;;
  trading_day <- lift (infer_trade_date_from_filename csv_path) ;;
  '(c_month, c_year) <- lift (front_contract_for_date trading_day) ;;
  let ck := {| symbol := symbol; month := c_month; year := c_year |} in
  fout <- get_writer ck out_dir ;;
  st <- get_state ck ;;
  fin <- lift (open_read env csv_path) ;;
  let '(rows, stop) := iter_csv_lineas fin in
  let '(st', ticks, r) := run_rows rows st zero_counters in
  put_state ck st' ;;;
  write_all ck ticks ;;;
  c <- lift r ;;
  lift (match stop with Some e => Raise e | None => Ok tt end) ;;;
  emit (EvOk csv_path ck c) ;;;
  ret c.

(** [ContractWriters.close]: every handle is flushed and closed, in the
    order the handles were opened, and both dicts are cleared. *)
Definition close (w : world) : world :=
  {| writers := new_ContractWriters;
     trace := trace w
              ++ flat_map (fun h => [EvFlush (fst h); EvClose (fst h)])
                          (handles (writers w)) |}.

Definition zero_totals : totals :=
  {| total_archivos := 0; sum_lineas := 0; total_validas := 0;
     total_l1 := 0; total_trades_emitidos := 0; total_clamps := 0 |}.

Definition count_file (t : totals) : totals :=
  {| total_archivos := S (total_archivos t); sum_lineas := sum_lineas t;
     total_validas := total_validas t; total_l1 := total_l1 t;
     total_trades_emitidos := total_trades_emitidos t;
     total_clamps := total_clamps t |}.

Definition add_counters (t : totals) (c : counters) : totals :=
  {| total_archivos := total_archivos t;
     sum_lineas := sum_lineas t + total_lineas c;
     total_validas := total_validas t + lineas_validas c;
     total_l1 := total_l1 t + l1_total c;
     total_trades_emitidos := total_trades_emitidos t + l1_trades_emitidos c;
     total_clamps := total_clamps t + clamps_aplicados c |}.

(** The [for] loop of [main] with its [try]/[except Exception]. *)
Fixpoint main_loop (csv_paths : list path) (out_dir : path)
    (forced_symbol : option pystr) (t : totals) (w : world) : world * totals :=
  match csv_paths with
  | [] => (w, t)
  | csv_path :: rest =>
      let t := count_file t in
      match export_csv_day_to_contract_last_allformat
              csv_path out_dir forced_symbol w with
      | (w', Ok c) => main_loop rest out_dir forced_symbol (add_counters t c) w'
      | (w', Raise e) =>
          main_loop rest out_dir forced_symbol t
                    {| writers := writers w'; trace := trace w' ++ [EvWarn csv_path e] |}
      end
  end.

(** [main] after the arguments are parsed and the day files discovered. *)
Definition main (csv_paths : list path) (out_dir : path)
    (forced_symbol : option pystr) : world :=
  match csv_paths with
  | [] => {| writers := new_ContractWriters; trace := [EvInfo] |}
  | _ =>
      let '(w, t) :=
        main_loop csv_paths out_dir forced_symbol zero_totals
                  {| writers := new_ContractWriters; trace := [] |} in
      let w' := close w in
      {| writers := writers w'; trace := trace w' ++ [EvSummary t] |}
  end.

End Run.

(* ====================================================================== *)
(** * Definitions used to state the properties *)
(* ====================================================================== *)

(** A timestamp made of exactly 20 ASCII digits. *)
Definition ascii_ts20 (s : pystr) : bool :=
  (List.length s =? 20)%nat && forallb is_ascii_digit s.

(** Twenty ARABIC-INDIC DIGIT ZERO (U+0660). *)
Definition arabic_ts20 : pystr := repeat 1632%N 20.

(** The Level-1 event a row carries: its type and price. *)
Definition l1_event (campos : row) : option (Z * pystr) :=
  match parse_line_fields campos with
  | Some (_, level, tipo, price_str, _) =>
      if level =? 1 then Some (tipo, price_str) else None
  | None => None
  end.

Definition is_bid_row (campos : row) : bool :=
  match l1_event campos with
  | Some (tipo, _) => tipo =? TYPE_BID
  | None => false
  end.

Definition is_ask_row (campos : row) : bool :=
  match l1_event campos with
  | Some (tipo, _) => tipo =? TYPE_ASK
  | None => false
  end.

Definition is_nan (d : decimal) : bool :=
  match d with DNaN _ _ _ => true | _ => false end.

(** A tick is ordered when its bid, price and ask, read as decimals,
    satisfy bid <= price <= ask. *)
Definition tick_ordered (t : tick) : Prop :=
  forall dp db da,
    Decimal (t_price t) = Some dp ->
    Decimal (t_bid t) = Some db ->
    Decimal (t_ask t) = Some da ->
    dec_le db dp /\ dec_le dp da.

(** [r] is the first Friday on or after the 1st of the month, plus seven
    days: the second Friday of the month. *)
Definition first_friday_plus_7 (y m : Z) (r : PyDate.date) : Prop :=
  exists k,
    1 <= k <= 7
    /\ PyDate.weekday (PyDate.Date y m k) = 4
    /\ (forall j, 1 <= j < k -> PyDate.weekday (PyDate.Date y m j) <> 4)
    /\ PyDate.add_days (PyDate.Date y m k) 7 = Ok r
    /\ r = PyDate.Date y m (k + 7).

Definition date_eqb (a b : PyDate.date) : bool :=
  (PyDate.year a =? PyDate.year b) && (PyDate.month a =? PyDate.month b)
  && (PyDate.day a =? PyDate.day b).

(** The ordinal of a day converts back to the day. *)
Definition roundtrip_ok (y m d : Z) : bool :=
  date_eqb (PyDate.fromordinal (PyDate._ymd2ord y m d)) (PyDate.Date y m d).

(** The first fourteen days of the four roll months of one year. *)
Definition check_base_year (y : Z) : bool :=
  forallb (fun m =>
             forallb (roundtrip_ok y m) [1; 2; 3; 4; 5; 6; 7; 8; 9; 10; 11; 12; 13; 14])
          [3; 6; 9; 12].

(** [f] holds of every integer from 1 to [n]. *)
Fixpoint all_upto (n : nat) (f : Z -> bool) : bool :=
  match n with
  | O => true
  | S n' => f (Z.of_nat n) && all_upto n' f
  end.

(** The months in which the front contract rolls. *)
Definition roll_month (m : Z) : Prop := m = 3 \/ m = 6 \/ m = 9 \/ m = 12.

(** The folder naming pattern in words: an alphanumeric symbol, [_T1_] or
    [_T2_], six decimal digits, and at most one final newline. *)
Definition folder_pattern (dirname sym : pystr) : Prop :=
  exists (t : char) (d6 nl : pystr),
    dirname = sym ++ py "_T" ++ [t] ++ py "_" ++ d6 ++ nl
    /\ sym <> []
    /\ forallb is_alnum_ascii sym = true
    /\ (t = 49 \/ t = 50)%N
    /\ List.length d6 = 6%nat
    /\ forallb isdecimal d6 = true
    /\ (nl = [] \/ nl = [10%N]).

(** The world after more events. *)
Definition add_events (evs : list event) (w : world) : world :=
  {| writers := writers w; trace := trace w ++ evs |}.

(** The world after the state of a contract is stored. *)
Definition with_state (ck : ContractKey) (st : bbo) (w : world) : world :=
  {| writers := {| handles := handles (writers w);
                   state := store ck st (state (writers w)) |};
     trace := trace w |}.

Definition writes_of (ck : ContractKey) (ts : list tick) : list event :=
  map (fun t => EvWrite ck (render t)) ts.

(** The contracts whose file was opened, in the order of the trace. *)
Definition opened (tr : list event) : list ContractKey :=
  flat_map (fun ev => match ev with EvOpen ck _ => [ck] | _ => [] end) tr.

(** The day files whose outcome was reported, success or failure, in the
    order of the trace. *)
Definition file_outcomes (tr : list event) : list path :=
  flat_map (fun ev => match ev with
                      | EvOk p _ _ => [p]
                      | EvWarn p _ => [p]
                      | _ => []
                      end) tr.

(** The events of [releaseAll] for the handles of the given contracts. *)
Definition release_all (cks : list ContractKey) : list event :=
  flat_map (fun ck => [EvFlush ck; EvClose ck]) cks.

(** The events of the processing of files: no flush, close or summary. *)
Definition is_file_event (ev : event) : bool :=
  match ev with
  | EvOpen _ _ | EvWrite _ _ | EvOk _ _ _ | EvWarn _ _ => true
  | _ => false
  end.

(** The handles dict holds exactly the contracts opened so far. *)
Definition handles_opened (w : world) : Prop :=
  map fst (handles (writers w)) = opened (trace w).

(** What a step does to the world: it appends events of the processing
    of files, and the handles dict keeps holding the contracts opened. *)
Definition file_step (w w' : world) (evs : list event) : Prop :=
  trace w' = trace w ++ evs
  /\ (handles_opened w -> handles_opened w')
  /\ forallb is_file_event evs = true.

(** The file name and the text of every write of a trace, in order. *)
Definition written (tr : list event) : list (pystr * pystr) :=
  flat_map (fun ev => match ev with
                      | EvWrite ck s => [(outfile_name ck, s)]
                      | _ => []
                      end) tr.

(** The scenario of three lines: a bid, an ask and a trade above the ask. *)
Module Scenario.

Definition folder : pystr := py "ES_T2_202401".
Definition file : pystr := py "20240101.csv".

Definition csv_path (root : bool) (dirs : list pystr) : path :=
  {| anchored := root; parts := dirs ++ [folder; file] |}.

Definition content : file_content :=
  {| text := py "20240101093000123456;1;0;5000.00;10" ++ [10%N]
             ++ py "20240101093000223456;1;1;5000.25;7" ++ [10%N]
             ++ py "20240101093000323456;1;2;5000.50;3" ++ [10%N];
     read_error := None |}.

Definition ck : ContractKey := {| symbol := py "ES"; month := 3; year := 2024 |}.

(** The line the scenario is expected to write, and the line written. *)
Definition expected_line : pystr :=
  py "20240101 093000 3234560;5000.50;5000.00;5000.25;3" ++ [10%N].
Definition written_line : pystr :=
  py "20240101 093000 3234560;5000.50;5000.00;5000.50;3" ++ [10%N].

Definition file_counters : counters :=
  {| total_lineas := 3; lineas_validas := 3; l1_total := 3;
     l1_trades_emitidos := 1; clamps_aplicados := 1 |}.

Definition run_totals : totals :=
  {| total_archivos := 1; sum_lineas := 3; total_validas := 3; total_l1 := 3;
     total_trades_emitidos := 1; total_clamps := 1 |}.

(** A file system that holds the day file and lets every file open. *)
Definition env : Env :=
  {| open_read := fun p =>
       if path_eqb p (csv_path true [py "data"]) then Ok content else Raise OSError;
     open_append := fun _ => None |}.

Definition out_dir : path := {| anchored := true; parts := [py "out"] |}.

(** The same day file in a file system where reading any other file
    stops on a decoding error and nothing else differs. *)
Definition env_other : Env :=
  {| open_read := fun p =>
       if path_eqb p (csv_path true [py "data"]) then Ok content
       else Ok {| text := py "x"; read_error := Some UnicodeDecodeError |};
     open_append := fun _ => None |}.

(** Three files that fail, followed by the day file: a bad file name, a
    folder that gives no symbol, and a file that cannot be opened. *)
Definition bad_name : path :=
  {| anchored := true; parts := [py "data"; folder; py "2024-01-01.csv"] |}.
Definition no_symbol : path :=
  {| anchored := true; parts := [py "data"; file] |}.
Definition missing : path :=
  {| anchored := true; parts := [py "data"; folder; py "20240102.csv"] |}.

Definition four_files : list path :=
  [bad_name; no_symbol; missing; csv_path true [py "data"]].

End Scenario.

(* ====================================================================== *)
(** * Definitions used to state further properties *)
(* ====================================================================== *)

(** What a row with a Level-1 event does to the state of the contract. *)
Definition apply_event (ev : option (Z * pystr)) (st : bbo) : bbo :=
  match ev with
  | Some (tipo, price_str) =>
      if tipo =? TYPE_BID then set_bid price_str st
      else if tipo =? TYPE_ASK then set_ask price_str st
      else if tipo =? TYPE_LAST then set_last price_str st
      else st
  | None => st
  end.

(** The price of the last Level-1 row of type [tipo], or [init] if there
    is none. *)
Fixpoint last_price_of (tipo : Z) (rows : list row) (init : option pystr)
  : option pystr :=
  match rows with
  | [] => init
  | campos :: rest =>
      last_price_of tipo rest
        (match l1_event campos with
         | Some (t, price_str) => if t =? tipo then Some price_str else init
         | None => init
         end)
  end.

Definition is_some {A : Type} (o : option A) : bool :=
  match o with Some _ => true | None => false end.

(** The rows the parser decodes, and those of Level 1 among them. *)
Definition count_valid (rows : list row) : nat :=
  List.length (filter (fun campos => is_some (parse_line_fields campos)) rows).
Definition count_l1 (rows : list row) : nat :=
  List.length (filter (fun campos => is_some (l1_event campos)) rows).

(** The prices of the Level-1 rows of type [tipo], in order. *)
Definition l1_prices (tipo : Z) (rows : list row) : list pystr :=
  flat_map (fun campos =>
              match l1_event campos with
              | Some (t, price_str) => if t =? tipo then [price_str] else []
              | None => []
              end) rows.

(** The text written for a side of the market is the trade price, the
    price of a Level-1 row of that side, or what was stored before. *)
Definition side_source (tipo : Z) (rows : list row) (before : option pystr)
    (price out : pystr) : Prop :=
  out = price \/ In out (l1_prices tipo rows) \/ before = Some out.

(** A trade row that meets a NaN: it is decoded as a Level-1 trade, both
    sides are stored, the three texts parse and one of them is a NaN. *)
Definition nan_trade (campos : row) (st : bbo) : Prop :=
  exists ts price_str volume_str bid ask dp db da,
    parse_line_fields campos = Some (ts, 1, TYPE_LAST, price_str, volume_str)
    /\ st_bid st = Some bid /\ st_ask st = Some ask
    /\ Decimal price_str = Some dp /\ Decimal bid = Some db
    /\ Decimal ask = Some da
    /\ is_nan dp || is_nan db || is_nan da = true.

(** The months since year 0 of a (month, year) pair, to compare contracts
    and dates by month. *)
Definition month_index (c : Z * Z) : Z := 12 * snd c + fst c.

(** [a <= b] on dates, as [not (b < a)]. *)
Definition date_le (a b : PyDate.date) : Prop := PyDate.ltb b a = false.

(** The two ASCII digits of a number from 0 to 99. *)
Definition two_digits (n : Z) : pystr :=
  [Z.to_N (48 + n / 10); Z.to_N (48 + n mod 10)].

Definition check_two_digits (n : Z) : bool :=
  str_eqb (format_02d n) (two_digits n).

(** A text without the path separator. *)
Definition no_slash (s : pystr) : bool := forallb (fun c => negb (c =? 47)%N) s.

Definition key_mem (ck : ContractKey) (l : list ContractKey) : bool :=
  existsb (ContractKey_eqb ck) l.

Definition key_remove (ck : ContractKey) (l : list ContractKey) : list ContractKey :=
  filter (fun k => negb (ContractKey_eqb ck k)) l.

(** The discipline of the contract files along a trace, from the
    contracts whose file is open: a file is opened only while it is not
    open, written and flushed only while it is open, and closed only
    while it is open.  The result is the contracts whose file is open
    after the trace, or [None] if the discipline is broken. *)
Fixpoint handle_protocol (open : list ContractKey) (tr : list event)
  : option (list ContractKey) :=
  match tr with
  | [] => Some open
  | ev :: rest =>
      match ev with
      | EvOpen ck _ =>
          if key_mem ck open then None else handle_protocol (open ++ [ck]) rest
      | EvWrite ck _ | EvFlush ck =>
          if key_mem ck open then handle_protocol open rest else None
      | EvClose ck =>
          if key_mem ck open then handle_protocol (key_remove ck open) rest
          else None
      | _ => handle_protocol open rest
      end
  end.

(** The files are used with discipline so far, and the handles dict
    holds the open ones, each once. *)
Definition disciplined (w : world) : Prop :=
  handle_protocol [] (trace w) = Some (map fst (handles (writers w)))
  /\ NoDup (map fst (handles (writers w))).

(** The contract of a day file: the first steps of the processing of
    one file, before anything is opened. *)
Definition contract_of (csv_path : path) (forced_symbol : option pystr)
  : res ContractKey :=
  (symbol <- infer_symbol_from_path csv_path forced_symbol ;;
   trading_day <- infer_trade_date_from_filename csv_path ;;
   c <- front_contract_for_date trading_day ;;
   Ok {| symbol := symbol; month := fst c; year := snd c |})%res.

(** The state a contract has at the start of a file. *)
Definition state_of (ck : ContractKey) (w : world) : bbo :=
  match lookup ck (state (writers w)) with
  | Some st => st
  | None => empty_bbo
  end.

(** The counters of the files reported as done, in the order of the
    trace, and the files reported as failed. *)
Definition ok_counters (tr : list event) : list counters :=
  flat_map (fun ev => match ev with EvOk _ _ c => [c] | _ => [] end) tr.

Definition warnings (tr : list event) : list path :=
  flat_map (fun ev => match ev with EvWarn p _ => [p] | _ => [] end) tr.

Definition sum_of (f : counters -> nat) (cs : list counters) : nat :=
  fold_right (fun c n => (f c + n)%nat) 0%nat cs.

(** A day with a bid, an ask, a trade inside the spread and a trade
    whose price is the text NaN. *)
Module NanScenario.

Definition content : file_content :=
  {| text := py "20240101093000123456;1;0;5000.00;10" ++ [10%N]
             ++ py "20240101093000223456;1;1;5000.25;7" ++ [10%N]
             ++ py "20240101093000323456;1;2;5000.10;3" ++ [10%N]
             ++ py "20240101093000423456;1;2;NaN;1" ++ [10%N];
     read_error := None |}.

Definition env : Env :=
  {| open_read := fun _ => Ok content; open_append := fun _ => None |}.

End NanScenario.

(** The value of a decimal digit of any script, and the number a text of
    decimal digits writes. *)
Definition digit_val (c : char) : N :=
  match todecimal c with Some d => d | None => 0%N end.

Definition number_of (s : pystr) : Z := Z.of_N (digits_value (map digit_val s)).

(** Facts about the tables, checked by evaluation: a range of decimal
    digits is the ASCII one or lies above the ASCII characters, holds no
    space, and is made of whole decades. *)
Definition decimal_range_ok (r : N * N) : bool :=
  (((fst r =? 48) && (snd r =? 57)) || (128 <=? fst r))%N
  && forallb (fun sp => ((snd sp <? fst r) || (snd r <? fst sp))%N) space_ranges.

(** The shape of a day file name: eight decimal digits, [.csv] and at
    most one final newline. *)
Definition file_date_pattern (filename yyyymmdd : pystr) : Prop :=
  exists nl,
    filename = yyyymmdd ++ py ".csv" ++ nl
    /\ List.length yyyymmdd = 8%nat
    /\ forallb isdecimal yyyymmdd = true
    /\ (nl = [] \/ nl = [10%N]).

(** A character of a plain field: no delimiter, quote, LF or CR. *)
Definition plain_char (c : char) : bool :=
  negb ((c =? 59) || (c =? 34) || (c =? 10) || (c =? 13))%N.

(** A field that needs no quoting and is within the field size limit. *)
Definition plain_field (f : pystr) : bool :=
  forallb plain_char f && (N.of_nat (List.length f) <=? Csv.field_limit)%N.

(** The fields of a record joined by the delimiter. *)
Fixpoint join_fields (fs : list pystr) : pystr :=
  match fs with
  | [] => []
  | [f] => f
  | f :: rest => f ++ [59%N] ++ join_fields rest
  end.

(** A line terminator: LF, or CR LF. *)
Definition line_end (crlf : bool) : pystr := if crlf then [13%N; 10%N] else [10%N].

(** The text of records written one per line, each with its terminator. *)
Definition text_of (recs : list (list pystr * bool)) : pystr :=
  flat_map (fun rc => join_fields (fst rc) ++ line_end (snd rc)) recs.

(** A record of one empty field is written as a blank line. *)
Definition is_blank (fs : list pystr) : bool :=
  match fs with [[]] => true | _ => false end.

(** The reader fed with characters, before the end of the line object. *)
Fixpoint feed (r : Csv.reader) (s : pystr) : res Csv.reader :=
  match s with
  | [] => Ok r
  | c :: s' => (r' <- Csv.parse_process_char r (Some c) ;; feed r' s')%res
  end.

(** The reader inside a record, after the fields [done] and with the
    characters [cur] of the next field read. *)
Definition mid (done : list pystr) (cur : pystr) : Csv.reader :=
  {| Csv.state := if is_nil cur
                  then (if is_nil done then Csv.START_RECORD else Csv.START_FIELD)
                  else Csv.IN_FIELD;
     Csv.fields := done;
     Csv.field := cur |}.

(** A day whose reading stops with a decoding error while a quoted
    field is open: a bid, an ask, and a trade whose volume field opens a
    quote that is not closed in the text decoded. *)
Module OpenQuoteScenario.

Definition decoded : pystr :=
  py "20240101093000123456;1;0;5000.00;10" ++ [10%N]
  ++ py "20240101093000223456;1;1;5000.25;7" ++ [10%N]
  ++ py "20240101093000323456;1;2;5000.10;" ++ [34%N] ++ py "3" ++ [10%N].

Definition content : file_content :=
  {| text := decoded; read_error := Some UnicodeDecodeError |}.

Definition env : Env :=
  {| open_read := fun _ => Ok content; open_append := fun _ => None |}.

End OpenQuoteScenario.

(* ====================================================================== *)
(** * Properties *)
(* ====================================================================== *)

(** Closes a goal between closed terms by evaluation. *)
Ltac by_compute := vm_compute; reflexivity.

(* ====================================================================== *)
(** * The tick record parser *)
(* ====================================================================== *)

Lemma is_ascii_digit_isdigit_char (c : char) :
  is_ascii_digit c = true -> isdigit_char c = true.
Proof.
  unfold is_ascii_digit, isdigit_char, in_ranges, digit_ranges.
  intros H. cbn [existsb]. unfold in_range at 1. cbn [fst snd].
  rewrite H. reflexivity.
Qed.

Lemma ascii_digits_isdigit (s : pystr) :
  s <> [] -> forallb is_ascii_digit s = true -> isdigit s = true.
Proof.
  intros Hne Hall. destruct s as [|c s]; [congruence|].
  unfold isdigit. apply forallb_forall. intros x Hx.
  apply is_ascii_digit_isdigit_char.
  rewrite forallb_forall in Hall. now apply Hall.
Qed.

(** What the parser returns, in terms of its checks. *)
Lemma parse_line_fields_Some (campos : row) (ts : pystr) (lv ty : Z) (p v : pystr) :
  parse_line_fields campos = Some (ts, lv, ty, p, v) <->
  ((List.length campos = 5 \/ List.length campos = 7)%nat
   /\ ts = strip (field campos 0)
   /\ List.length ts = 20%nat
   /\ isdigit ts = true
   /\ py_int (field campos 1) = Some lv
   /\ py_int (field campos 2) = Some ty
   /\ p = strip (field campos 3)
   /\ v = strip (field campos 4)).
Proof.
  unfold parse_line_fields.
  destruct (Nat.eqb_spec (List.length campos) 5) as [E5|E5];
    destruct (Nat.eqb_spec (List.length campos) 7) as [E7|E7]; cbn [orb negb].
  all: try (split; [discriminate | intros [[?|?] _]; lia]).
  all: destruct (Nat.eqb_spec (List.length (strip (field campos 0))) 20) as [E20|E20];
    cbn [negb orb];
    try (split; [discriminate | intros (_ & -> & ? & _); congruence]).
  all: destruct (isdigit (strip (field campos 0))) eqn:Ed; cbn [negb];
    try (split; [discriminate | intros (_ & -> & _ & ? & _); congruence]).
  all: destruct (py_int (field campos 1)) as [l|] eqn:E1;
    try (split; [discriminate | intros (_ & _ & _ & _ & ? & _); congruence]).
  all: destruct (py_int (field campos 2)) as [t|] eqn:E2;
    try (split; [discriminate | intros (_ & _ & _ & _ & _ & ? & _); congruence]).
  all: split;
    [ intros H; injection H as <- <- <- <- <-; repeat split; auto
    | intros (_ & -> & _ & _ & Hl & Ht & -> & ->); congruence ].
Qed.

Lemma parse_line_fields_None (campos : row) :
  parse_line_fields campos = None <->
  ~ ((List.length campos = 5 \/ List.length campos = 7)%nat
     /\ List.length (strip (field campos 0)) = 20%nat
     /\ isdigit (strip (field campos 0)) = true
     /\ py_int (field campos 1) <> None
     /\ py_int (field campos 2) <> None).
Proof.
  split.
  - intros HN (Hlen & H20 & Hd & H1 & H2).
    destruct (py_int (field campos 1)) as [lv|] eqn:E1; [|congruence].
    destruct (py_int (field campos 2)) as [ty|] eqn:E2; [|congruence].
    assert (parse_line_fields campos
            = Some (strip (field campos 0), lv, ty,
                    strip (field campos 3), strip (field campos 4))) as HS.
    { apply parse_line_fields_Some. repeat split; auto. }
    congruence.
  - intros HN. destruct (parse_line_fields campos) as [[[[[ts lv] ty] p] v]|] eqn:E;
      [|reflexivity].
    apply parse_line_fields_Some in E.
    destruct E as (Hlen & -> & H20 & Hd & H1 & H2 & _).
    exfalso. apply HN. repeat split; auto; congruence.
Qed.

(** C5, as stated, fails: a row whose timestamp is twenty Arabic-Indic
    digits is decoded, although the field is not made of ASCII digits. *)
Lemma C5_non_ascii_timestamp_decoded :
  let campos := [arabic_ts20; py "1"; py "2"; py "5000.50"; py "3"] in
  parse_line_fields campos
  = Some (arabic_ts20, 1, 2, py "5000.50", py "3")
  /\ ascii_ts20 (strip (field campos 0)) = false.
Proof. split; by_compute. Qed.

(** C5, amended: the parser returns a decoded record exactly when the row
    has 5 or 7 fields, the first field after trimming has exactly 20
    characters that are all digits for [str.isdigit] (twenty ASCII digits
    always qualify), and the level and event-type fields parse as
    integers; otherwise it returns [None].  The record holds the trimmed
    timestamp, the two integers and the trimmed price and volume strings,
    which are never parsed as numbers. *)
Theorem C5_parse_line_fields_decodes_iff (campos : row) :
  (parse_line_fields campos <> None <->
   ((List.length campos = 5 \/ List.length campos = 7)%nat
    /\ List.length (strip (field campos 0)) = 20%nat
    /\ isdigit (strip (field campos 0)) = true
    /\ py_int (field campos 1) <> None
    /\ py_int (field campos 2) <> None))
  /\ (forall rec, parse_line_fields campos = Some rec ->
        exists lv ty,
          py_int (field campos 1) = Some lv
          /\ py_int (field campos 2) = Some ty
          /\ rec = (strip (field campos 0), lv, ty,
                    strip (field campos 3), strip (field campos 4)))
  /\ (ascii_ts20 (strip (field campos 0)) = true ->
      List.length (strip (field campos 0)) = 20%nat
      /\ isdigit (strip (field campos 0)) = true).
Proof.
  split; [|split].
  - split.
    + intros HS. destruct (parse_line_fields_None campos) as [_ HN].
      destruct (parse_line_fields campos) as [[[[[ts lv] ty] p] v]|] eqn:E;
        [|congruence].
      apply parse_line_fields_Some in E.
      destruct E as (Hlen & -> & H20 & Hd & H1 & H2 & _).
      repeat split; auto; congruence.
    + intros H HN. apply parse_line_fields_None in HN. contradiction.
  - intros [[[[ts lv] ty] p] v] E. apply parse_line_fields_Some in E.
    destruct E as (_ & -> & _ & _ & H1 & H2 & -> & ->).
    exists lv, ty. auto.
  - unfold ascii_ts20. intros H. apply andb_prop in H as [Hl Hd].
    apply Nat.eqb_eq in Hl. split; [exact Hl|].
    apply ascii_digits_isdigit; [|exact Hd].
    intros Hnil. rewrite Hnil in Hl. discriminate.
Qed.

Lemma C5_parse_line_fields_decodes_iff_witness :
  parse_line_fields
    [py "20240101093000123456"; py "1"; py "0"; py "5000.00"; py "10"]
  = Some (py "20240101093000123456", 1, 0, py "5000.00", py "10").
Proof.
  destruct (C5_parse_line_fields_decodes_iff
              [py "20240101093000123456"; py "1"; py "0"; py "5000.00"; py "10"])
    as (_ & H & _).
  destruct (H _ eq_refl) as (lv & ty & H1 & H2 & Hr).
  vm_compute in H1, H2. injection H1 as <-. injection H2 as <-.
  vm_compute in Hr. vm_compute. reflexivity.
Defined.

(* ====================================================================== *)
(** * The order of decimals *)
(* ====================================================================== *)

Lemma dec_compare_None (a b : decimal) :
  dec_compare a b = None <-> is_nan a = true \/ is_nan b = true.
Proof.
  destruct a, b; cbn; split; intros H; try discriminate; auto;
    destruct H; discriminate.
Qed.

Lemma dec_compare_refl (a : decimal) :
  is_nan a = false -> dec_compare a a = Some Eq.
Proof.
  destruct a as [n c e|n| ]; cbn; intros H; try discriminate.
  - now rewrite Z.compare_refl.
  - now destruct n.
Qed.

Lemma dec_compare_antisym (a b : decimal) :
  dec_compare b a = option_map CompOpp (dec_compare a b).
Proof.
  destruct a as [na ca ea|na| ], b as [nb cb eb|nb| ]; cbn; try reflexivity.
  - rewrite (Z.min_comm eb ea). now rewrite Z.compare_antisym.
  - now destruct nb.
  - now destruct na.
  - now destruct na, nb.
Qed.

Lemma dec_le_refl (a : decimal) : is_nan a = false -> dec_le a a.
Proof. intros H. right. now apply dec_compare_refl. Qed.

Lemma ten_neq_0 : ~ (10 # 1 == 0)%Q.
Proof. intros H. discriminate H. Qed.

Lemma ten_power_pos (e : Z) : (0 < (10 # 1) ^ e)%Q.
Proof. apply Qpower_0_lt. reflexivity. Qed.

(** Scaling by a power of ten below the exponent gives an integer. *)
Lemma dec_Q_scaled (neg : bool) (coeff : N) (exp m : Z) :
  m <= exp ->
  (dec_Q neg coeff exp * (10 # 1) ^ (- m)
   == inject_Z (signed neg coeff * 10 ^ (exp - m)))%Q.
Proof.
  intros Hm. unfold dec_Q.
  rewrite <- Qmult_assoc, <- Qpower_plus by apply ten_neq_0.
  rewrite inject_Z_mult. apply Qmult_comp; [reflexivity|].
  replace (exp + - m) with (exp - m) by lia.
  rewrite Zpower_Qpower by lia. reflexivity.
Qed.

(** On finite decimals [dec_le] is the order of the rational values. *)
Lemma dec_le_finite (na nb : bool) (ca cb : N) (ea eb : Z) :
  dec_le (DFin na ca ea) (DFin nb cb eb) <-> (dec_Q na ca ea <= dec_Q nb cb eb)%Q.
Proof.
  unfold dec_le. cbn [dec_compare].
  set (m := Z.min ea eb).
  rewrite <- (Qmult_le_r _ _ _ (ten_power_pos (- m))).
  rewrite !dec_Q_scaled by (subst m; lia).
  rewrite <- Zle_Qle.
  destruct (Z.compare_spec (signed na ca * 10 ^ (ea - m))
                           (signed nb cb * 10 ^ (eb - m))) as [H|H|H];
    split; intros H'; try lia; auto;
    destruct H' as [H'|H']; discriminate.
Qed.

(** [not (a > b)] gives [a <= b], and [not (a < b)] gives [b <= a]. *)
Lemma dec_gt_false (a b : decimal) : dec_gt a b = Ok false -> dec_le a b.
Proof.
  unfold dec_gt, dec_le.
  destruct (dec_compare a b) as [[ | | ]|]; intros H; try discriminate; auto.
Qed.

Lemma dec_lt_false (a b : decimal) : dec_lt a b = Ok false -> dec_le b a.
Proof.
  unfold dec_lt, dec_le. rewrite (dec_compare_antisym a b).
  destruct (dec_compare a b) as [[ | | ]|]; cbn; intros H; try discriminate; auto.
Qed.

Lemma dec_gt_Ok_not_nan (a b : decimal) (r : bool) :
  dec_gt a b = Ok r -> is_nan a = false /\ is_nan b = false.
Proof.
  unfold dec_gt. destruct (dec_compare a b) eqn:E.
  - intros _. destruct a, b; cbn in *; try discriminate; auto.
  - discriminate.
Qed.

(* ====================================================================== *)
(** * The clamp and the emission of a trade *)
(* ====================================================================== *)

(** The outcome of the clamp when the three prices parse. *)
Lemma clamp_bbo_with_last_parsed (last_str bid_str ask_str : pystr)
    (d_last d_bid d_ask : decimal) :
  Decimal last_str = Some d_last ->
  Decimal bid_str = Some d_bid ->
  Decimal ask_str = Some d_ask ->
  clamp_bbo_with_last last_str bid_str ask_str =
  (bid_gt <- dec_gt d_bid d_last ;;
   ask_lt <- dec_lt d_ask d_last ;;
   Ok (if bid_gt then last_str else bid_str,
       if ask_lt then last_str else ask_str, bid_gt, ask_lt))%res.
Proof.
  intros Hl Hb Ha. unfold clamp_bbo_with_last. rewrite Hl, Hb, Ha.
  destruct (dec_gt d_bid d_last) as [[|]|]; cbn;
    destruct (dec_lt d_ask d_last) as [[|]|]; reflexivity.
Qed.

(** The outcome of the clamp when one of the three prices does not parse. *)
Lemma clamp_bbo_with_last_unparsed (last_str bid_str ask_str : pystr) :
  Decimal last_str = None \/ Decimal bid_str = None \/ Decimal ask_str = None ->
  clamp_bbo_with_last last_str bid_str ask_str = Ok (bid_str, ask_str, false, false).
Proof.
  unfold clamp_bbo_with_last.
  intros [H|[H|H]]; rewrite H;
    destruct (Decimal last_str); try destruct (Decimal bid_str); reflexivity.
Qed.

Lemma clamp_bbo_with_last_ordered
    (last_str bid_str ask_str bid_out ask_out : pystr) (cb ca : bool)
    (dp db da : decimal) :
  clamp_bbo_with_last last_str bid_str ask_str = Ok (bid_out, ask_out, cb, ca) ->
  Decimal last_str = Some dp ->
  Decimal bid_out = Some db ->
  Decimal ask_out = Some da ->
  dec_le db dp /\ dec_le dp da.
Proof.
  intros Hc Hp Hb Ha.
  destruct (Decimal bid_str) as [d_bid|] eqn:Ebid.
  2:{ rewrite clamp_bbo_with_last_unparsed in Hc by auto.
      injection Hc as <- <- <- <-. congruence. }
  destruct (Decimal ask_str) as [d_ask|] eqn:Eask.
  2:{ rewrite clamp_bbo_with_last_unparsed in Hc by auto.
      injection Hc as <- <- <- <-. congruence. }
  rewrite (clamp_bbo_with_last_parsed _ _ _ _ _ _ Hp Ebid Eask) in Hc.
  destruct (dec_gt d_bid dp) as [bid_gt|] eqn:Egt; [|discriminate].
  destruct (dec_lt d_ask dp) as [ask_lt|] eqn:Elt; [|discriminate].
  cbn in Hc. injection Hc as <- <- <- <-.
  destruct (dec_gt_Ok_not_nan _ _ _ Egt) as [_ Hnan].
  split.
  - destruct bid_gt.
    + assert (db = dp) as -> by congruence. now apply dec_le_refl.
    + assert (db = d_bid) as -> by congruence. now apply dec_gt_false.
  - destruct ask_lt.
    + assert (da = dp) as -> by congruence. now apply dec_le_refl.
    + assert (da = d_ask) as -> by congruence. now apply dec_lt_false.
Qed.

(** When the loop body writes a tick, the row is a Level-1 trade, both
    sides were known, and the tick carries the clamp of the stored pair. *)
Lemma loop_body_emits (campos : row) (st st' : bbo) (c c' : counters) (t : tick) :
  loop_body campos st c = (st', Ok (c', Some t)) ->
  exists ts price_str volume_str bid ask bid_out ask_out cb ca,
    parse_line_fields campos = Some (ts, 1, TYPE_LAST, price_str, volume_str)
    /\ st_bid st = Some bid /\ st_ask st = Some ask
    /\ st' = set_last price_str st
    /\ clamp_bbo_with_last price_str bid ask = Ok (bid_out, ask_out, cb, ca)
    /\ t_price t = price_str /\ t_bid t = bid_out /\ t_ask t = ask_out
    /\ t_volume t = volume_str
    /\ (t_fecha t, t_hora t, t_frac7 t) = ts20_to_nt_parts ts.
Proof.
  unfold loop_body.
  destruct (parse_line_fields campos) as [[[[[ts lv] ty] p] v]|]; [|discriminate].
  destruct (Z.eqb_spec lv 1) as [->|]; cbn [negb]; [|discriminate].
  destruct (ts20_to_nt_parts ts) as [[fecha hora] frac7] eqn:Ets.
  destruct (Z.eqb_spec ty TYPE_BID); [discriminate|].
  destruct (Z.eqb_spec ty TYPE_ASK); [discriminate|].
  destruct (Z.eqb_spec ty TYPE_LAST) as [->|]; [|discriminate].
  cbn [st_bid st_ask set_last].
  destruct (st_bid st) as [bid|]; [|discriminate].
  destruct (st_ask st) as [ask|]; [|discriminate].
  destruct (clamp_bbo_with_last p bid ask) as [[[[bo ao] cb] ca]|] eqn:Ec;
    [|discriminate].
  intros H. injection H as <- <- <-. cbn.
  exists ts, p, v, bid, ask, bo, ao, cb, ca.
  repeat split; try reflexivity; try assumption. now symmetry.
Qed.

Lemma loop_body_tick_ordered (campos : row) (st st' : bbo) (c c' : counters) (t : tick) :
  loop_body campos st c = (st', Ok (c', Some t)) -> tick_ordered t.
Proof.
  intros H. apply loop_body_emits in H.
  destruct H as (ts & p & v & bid & ask & bo & ao & cb & ca
                 & _ & _ & _ & _ & Hc & Hp & Hb & Ha & _).
  intros dp db da Hdp Hdb Hda. rewrite Hp in Hdp. rewrite Hb in Hdb. rewrite Ha in Hda.
  eapply clamp_bbo_with_last_ordered; eauto.
Qed.

Lemma run_rows_ticks_ordered (rows : list row) :
  forall st c, Forall tick_ordered (snd (fst (run_rows rows st c))).
Proof.
  induction rows as [|campos rest IH]; intros st c; cbn [run_rows].
  - constructor.
  - destruct (loop_body campos st c) as [st' [[c' t]|e]] eqn:E; cbn.
    + specialize (IH st' c').
      destruct (run_rows rest st' c') as [[st'' ts] r]. cbn in *.
      destruct t as [t|]; cbn; [|exact IH].
      constructor; [|exact IH]. eapply loop_body_tick_ordered; eauto.
    + constructor.
Qed.

(** The body on a Level-1 trade whose three prices parse to numbers. *)
Lemma loop_body_trade_parsed (campos : row) (st : bbo) (c : counters)
    (ts price_str volume_str bid ask : pystr) (dp db da : decimal) :
  parse_line_fields campos = Some (ts, 1, TYPE_LAST, price_str, volume_str) ->
  st_bid st = Some bid -> st_ask st = Some ask ->
  Decimal price_str = Some dp -> Decimal bid = Some db -> Decimal ask = Some da ->
  is_nan dp = false -> is_nan db = false -> is_nan da = false ->
  exists bid_gt ask_lt,
    dec_gt db dp = Ok bid_gt /\ dec_lt da dp = Ok ask_lt
    /\ loop_body campos st c =
       (set_last price_str st,
        Ok (incr_emitidos
              (let c1 := incr_l1 (incr_validas (incr_total c)) in
               if bid_gt || ask_lt then incr_clamps c1 else c1),
            Some {| t_fecha := fst (fst (ts20_to_nt_parts ts));
                    t_hora := snd (fst (ts20_to_nt_parts ts));
                    t_frac7 := snd (ts20_to_nt_parts ts);
                    t_price := price_str;
                    t_bid := if bid_gt then price_str else bid;
                    t_ask := if ask_lt then price_str else ask;
                    t_volume := volume_str |})).
Proof.
  intros Hparse Hb Ha Hdp Hdb Hda Np Nb Na.
  assert (exists g, dec_gt db dp = Ok g) as [g Hg].
  { unfold dec_gt. destruct (dec_compare db dp) as [[ | | ]|] eqn:E; eauto.
    apply dec_compare_None in E. destruct E; congruence. }
  assert (exists l, dec_lt da dp = Ok l) as [l Hl].
  { unfold dec_lt. destruct (dec_compare da dp) as [[ | | ]|] eqn:E; eauto.
    apply dec_compare_None in E. destruct E; congruence. }
  exists g, l. split; [exact Hg|]. split; [exact Hl|].
  unfold loop_body. rewrite Hparse. cbn [Z.eqb negb Pos.eqb TYPE_LAST TYPE_BID TYPE_ASK].
  destruct (ts20_to_nt_parts ts) as [[fecha hora] frac7].
  cbn [st_bid st_ask set_last fst snd]. rewrite Hb, Ha.
  rewrite (clamp_bbo_with_last_parsed _ _ _ _ _ _ Hdp Hdb Hda), Hg, Hl. cbn.
  reflexivity.
Qed.

(** C1: every tick the loop writes, from any state and for any rows, has
    bid <= price <= ask whenever its three fields are decimals, which for
    finite decimals is the order of their rational values; and on a trade
    whose price and stored bid and ask are numbers, the bid written is
    the trade price if the stored bid exceeds it and the stored bid
    otherwise, the ask written is the trade price if the stored ask is
    below it and the stored ask otherwise. *)
Theorem C1_emitted_ticks_ordered :
  (forall (rows : list row) (st : bbo) (c : counters) (t : tick),
      In t (snd (fst (run_rows rows st c))) ->
      forall dp db da,
        Decimal (t_price t) = Some dp ->
        Decimal (t_bid t) = Some db ->
        Decimal (t_ask t) = Some da ->
        dec_le db dp /\ dec_le dp da)
  /\ (forall (rows : list row) (st : bbo) (c : counters) (t : tick),
      In t (snd (fst (run_rows rows st c))) ->
      forall np cp ep nb cb eb na ca ea,
        Decimal (t_price t) = Some (DFin np cp ep) ->
        Decimal (t_bid t) = Some (DFin nb cb eb) ->
        Decimal (t_ask t) = Some (DFin na ca ea) ->
        (dec_Q nb cb eb <= dec_Q np cp ep /\ dec_Q np cp ep <= dec_Q na ca ea)%Q)
  /\ (forall (campos : row) (st : bbo) (c : counters)
        (ts price_str volume_str bid ask : pystr) (dp db da : decimal),
      parse_line_fields campos = Some (ts, 1, TYPE_LAST, price_str, volume_str) ->
      st_bid st = Some bid -> st_ask st = Some ask ->
      Decimal price_str = Some dp -> Decimal bid = Some db -> Decimal ask = Some da ->
      is_nan dp = false -> is_nan db = false -> is_nan da = false ->
      exists bid_gt ask_lt c' t,
        dec_gt db dp = Ok bid_gt /\ dec_lt da dp = Ok ask_lt
        /\ loop_body campos st c = (set_last price_str st, Ok (c', Some t))
        /\ t_price t = price_str
        /\ t_bid t = (if bid_gt then price_str else bid)
        /\ t_ask t = (if ask_lt then price_str else ask)
        /\ tick_ordered t).
Proof.
  assert (forall rows st c t, In t (snd (fst (run_rows rows st c))) -> tick_ordered t)
    as Hord.
  { intros rows st c t Hin.
    pose proof (run_rows_ticks_ordered rows st c) as HF.
    rewrite Forall_forall in HF. exact (HF t Hin). }
  split; [|split].
  - intros rows st c t Hin. exact (Hord rows st c t Hin).
  - intros rows st c t Hin np cp ep nb cb eb na ca ea Hp Hb Ha.
    destruct (Hord rows st c t Hin _ _ _ Hp Hb Ha) as [H1 H2].
    split; now apply dec_le_finite.
  - intros campos st c ts p v bid ask dp db da Hparse Hb Ha Hdp Hdb Hda Np Nb Na.
    destruct (loop_body_trade_parsed campos st c _ _ _ _ _ _ _ _
                Hparse Hb Ha Hdp Hdb Hda Np Nb Na)
      as (g & l & Hg & Hl & Hbody).
    eexists g, l, _, _. split; [exact Hg|]. split; [exact Hl|].
    split; [exact Hbody|]. cbn [t_price t_bid t_ask].
    do 3 (split; [reflexivity|]).
    eapply loop_body_tick_ordered. exact Hbody.
Qed.

Lemma C1_emitted_ticks_ordered_witness :
  let st := {| st_last := None; st_bid := Some (py "5000.00");
               st_ask := Some (py "5000.25") |} in
  let campos := [py "20240101093000323456"; py "1"; py "2"; py "4999.00"; py "3"] in
  exists c' t,
    loop_body campos st zero_counters = (set_last (py "4999.00") st, Ok (c', Some t))
    /\ t_bid t = py "4999.00" /\ t_ask t = py "5000.25" /\ tick_ordered t.
Proof.
  intros st campos.
  assert (parse_line_fields campos
          = Some (py "20240101093000323456", 1, TYPE_LAST, py "4999.00", py "3"))
    as Hparse by by_compute.
  assert (Decimal (py "4999.00") = Some (DFin false 499900 (-2))) as Hdp by by_compute.
  assert (Decimal (py "5000.00") = Some (DFin false 500000 (-2))) as Hdb by by_compute.
  assert (Decimal (py "5000.25") = Some (DFin false 500025 (-2))) as Hda by by_compute.
  destruct (proj2 (proj2 C1_emitted_ticks_ordered) campos st zero_counters
              _ _ _ _ _ _ _ _ Hparse eq_refl eq_refl Hdp Hdb Hda
              eq_refl eq_refl eq_refl)
    as (g & l & c' & t & Hg & Hl & Hbody & _ & Hb & Ha & Hord).
  vm_compute in Hg. injection Hg as <-.
  vm_compute in Hl. injection Hl as <-.
  exists c', t.
  split; [exact Hbody|]. split; [exact Hb|]. split; [exact Ha|exact Hord].
Defined.

(* ====================================================================== *)
(** * Trades before a two-sided market *)
(* ====================================================================== *)

Lemma loop_body_trade_one_sided (campos : row) (st : bbo) (c : counters)
    (ts price_str volume_str : pystr) :
  parse_line_fields campos = Some (ts, 1, TYPE_LAST, price_str, volume_str) ->
  st_bid st = None \/ st_ask st = None ->
  loop_body campos st c
  = (set_last price_str st, Ok (incr_l1 (incr_validas (incr_total c)), None)).
Proof.
  intros Hparse Hside. unfold loop_body. rewrite Hparse.
  cbn [Z.eqb negb Pos.eqb TYPE_LAST TYPE_BID TYPE_ASK].
  destruct (ts20_to_nt_parts ts) as [[fecha hora] frac7].
  cbn [st_bid st_ask set_last].
  destruct Hside as [H|H]; rewrite H; [|destruct (st_bid st)]; reflexivity.
Qed.

(** While no bid has been seen, a row that is not a bid leaves the bid
    unset and writes nothing; likewise for the ask. *)
Ltac unset_case Hst :=
  cbn [fst snd st_bid st_ask set_last set_bid set_ask];
  try rewrite Hst;
  split; [ assumption || reflexivity
         | let H := fresh in intros ? ? H; now injection H ].

Lemma loop_body_bid_unset (campos : row) (st : bbo) (c : counters) :
  st_bid st = None -> is_bid_row campos = false ->
  st_bid (fst (loop_body campos st c)) = None
  /\ forall c' t, snd (loop_body campos st c) = Ok (c', t) -> t = None.
Proof.
  unfold is_bid_row, l1_event, loop_body. intros Hst Hrow.
  destruct (parse_line_fields campos) as [[[[[ts lv] ty] p] v]|];
    [|unset_case Hst].
  destruct (lv =? 1); cbn [negb] in *; [|unset_case Hst].
  rewrite Hrow. destruct (ts20_to_nt_parts ts) as [[fecha hora] frac7].
  destruct (ty =? TYPE_ASK); [unset_case Hst|].
  destruct (ty =? TYPE_LAST); [|unset_case Hst].
  unset_case Hst.
Qed.

Lemma loop_body_ask_unset (campos : row) (st : bbo) (c : counters) :
  st_ask st = None -> is_ask_row campos = false ->
  st_ask (fst (loop_body campos st c)) = None
  /\ forall c' t, snd (loop_body campos st c) = Ok (c', t) -> t = None.
Proof.
  unfold is_ask_row, l1_event, loop_body. intros Hst Hrow.
  destruct (parse_line_fields campos) as [[[[[ts lv] ty] p] v]|];
    [|unset_case Hst].
  destruct (lv =? 1); cbn [negb] in *; [|unset_case Hst].
  rewrite Hrow. destruct (ts20_to_nt_parts ts) as [[fecha hora] frac7].
  destruct (ty =? TYPE_BID); [unset_case Hst|].
  destruct (ty =? TYPE_LAST); [|unset_case Hst].
  cbn [st_bid st_ask set_last]. rewrite Hst.
  destruct (st_bid st); unset_case Hst.
Qed.

Lemma run_rows_bid_unset (rows : list row) :
  forall st c,
    st_bid st = None -> existsb is_bid_row rows = false ->
    st_bid (fst (fst (run_rows rows st c))) = None
    /\ snd (fst (run_rows rows st c)) = [].
Proof.
  induction rows as [|campos rest IH]; intros st c Hst Hrows; cbn [run_rows].
  - auto.
  - cbn [existsb] in Hrows. apply orb_false_elim in Hrows as [Hrow Hrest].
    destruct (loop_body_bid_unset campos st c Hst Hrow) as [Hst' Hno].
    destruct (loop_body campos st c) as [st' [[c' t]|e]]; cbn in *; [|auto].
    rewrite (Hno c' t eq_refl).
    destruct (IH st' c' Hst' Hrest) as [H1 H2].
    destruct (run_rows rest st' c') as [[st'' ts] r]. cbn in *. auto.
Qed.

Lemma run_rows_ask_unset (rows : list row) :
  forall st c,
    st_ask st = None -> existsb is_ask_row rows = false ->
    st_ask (fst (fst (run_rows rows st c))) = None
    /\ snd (fst (run_rows rows st c)) = [].
Proof.
  induction rows as [|campos rest IH]; intros st c Hst Hrows; cbn [run_rows].
  - auto.
  - cbn [existsb] in Hrows. apply orb_false_elim in Hrows as [Hrow Hrest].
    destruct (loop_body_ask_unset campos st c Hst Hrow) as [Hst' Hno].
    destruct (loop_body campos st c) as [st' [[c' t]|e]]; cbn in *; [|auto].
    rewrite (Hno c' t eq_refl).
    destruct (IH st' c' Hst' Hrest) as [H1 H2].
    destruct (run_rows rest st' c') as [[st'' ts] r]. cbn in *. auto.
Qed.

(** The loop over a concatenation. *)
Lemma run_rows_app (a b : list row) :
  forall st c,
    run_rows (a ++ b) st c =
    match run_rows a st c with
    | (st1, ts1, Ok c1) =>
        let '(st2, ts2, r) := run_rows b st1 c1 in (st2, ts1 ++ ts2, r)
    | (st1, ts1, Raise e) => (st1, ts1, Raise e)
    end.
Proof.
  induction a as [|campos rest IH]; intros st c; cbn [run_rows app].
  - destruct (run_rows b st c) as [[st2 ts2] r]. reflexivity.
  - destruct (loop_body campos st c) as [st' [[c' t]|e]]; [|reflexivity].
    rewrite IH. destruct (run_rows rest st' c') as [[st1 ts1] [c1|e]].
    + destruct (run_rows b st1 c1) as [[st2 ts2] r]. now rewrite app_assoc.
    + reflexivity.
Qed.

(** C3: a trade that arrives while the bid or the ask of the contract is
    still unset sets the last price and writes nothing.  A contract met
    for the first time in a run starts with bid, ask and last unset, and
    the bid (the ask) stays unset as long as no bid (ask) row is
    processed: after any prefix of the rows of the contract without a bid
    row or without an ask row, a trade leaves what was written unchanged,
    and nothing at all is written unless a bid row and an ask row come
    before the last row. *)
Theorem C3_no_tick_before_bid_and_ask :
  (forall (campos : row) (st : bbo) (c : counters) (ts price_str volume_str : pystr),
      parse_line_fields campos = Some (ts, 1, TYPE_LAST, price_str, volume_str) ->
      st_bid st = None \/ st_ask st = None ->
      loop_body campos st c
      = (set_last price_str st, Ok (incr_l1 (incr_validas (incr_total c)), None)))
  /\ (forall (pre : list row) (campos : row) (st1 : bbo) (ts1 : list tick)
        (c1 : counters) (ts price_str volume_str : pystr),
      run_rows pre empty_bbo zero_counters = (st1, ts1, Ok c1) ->
      st_bid st1 = None \/ st_ask st1 = None ->
      parse_line_fields campos = Some (ts, 1, TYPE_LAST, price_str, volume_str) ->
      run_rows (pre ++ [campos]) empty_bbo zero_counters
      = (set_last price_str st1, ts1, Ok (incr_l1 (incr_validas (incr_total c1)))))
  /\ (forall (pre : list row) (campos : row) (st : bbo) (c : counters),
      (st_bid st = None /\ existsb is_bid_row pre = false)
      \/ (st_ask st = None /\ existsb is_ask_row pre = false) ->
      snd (fst (run_rows (pre ++ [campos]) st c)) = [])
  /\ (forall (pre : list row) (st : bbo) (c : counters),
      (st_bid st = None -> existsb is_bid_row pre = false ->
       st_bid (fst (fst (run_rows pre st c))) = None)
      /\ (st_ask st = None -> existsb is_ask_row pre = false ->
          st_ask (fst (fst (run_rows pre st c))) = None))
  /\ (forall (ck : ContractKey) (w : world),
      lookup ck (state (writers w)) = None ->
      snd (get_state ck w) = Ok empty_bbo).
Proof.
  split; [|split; [|split; [|split]]].
  - intros campos st c ts p v Hparse Hside.
    exact (loop_body_trade_one_sided campos st c ts p v Hparse Hside).
  - intros pre campos st1 ts1 c1 ts p v Hpre Hside Hparse.
    rewrite run_rows_app, Hpre. cbn [run_rows].
    rewrite (loop_body_trade_one_sided _ _ _ _ _ _ Hparse Hside). cbn.
    now rewrite app_nil_r.
  - intros pre campos st c Hpre. rewrite run_rows_app.
    destruct (run_rows pre st c) as [[st1 ts1] [c1|e]] eqn:E.
    + assert (ts1 = [] /\ (st_bid st1 = None \/ st_ask st1 = None)) as [-> Hside].
      { destruct Hpre as [[Hst H]|[Hst H]].
        - destruct (run_rows_bid_unset pre st c Hst H) as [H1 H2].
          rewrite E in H1, H2. cbn in *. auto.
        - destruct (run_rows_ask_unset pre st c Hst H) as [H1 H2].
          rewrite E in H1, H2. cbn in *. auto. }
      cbn [run_rows].
      destruct (loop_body campos st1 c1) as [st' [[c' t]|e]] eqn:Eb; [|reflexivity].
      destruct t as [t|]; [|reflexivity].
      apply loop_body_emits in Eb.
      destruct Eb as (? & ? & ? & bid & ask & ? & ? & ? & ? & _ & Hb & Ha & _).
      destruct Hside; congruence.
    + cbn. destruct Hpre as [[Hst H]|[Hst H]].
      * destruct (run_rows_bid_unset pre st c Hst H) as [_ H2].
        now rewrite E in H2.
      * destruct (run_rows_ask_unset pre st c Hst H) as [_ H2].
        now rewrite E in H2.
  - intros pre st c. split; intros Hst H.
    + now apply run_rows_bid_unset.
    + now apply run_rows_ask_unset.
  - intros ck w H. unfold get_state. now rewrite H.
Qed.

Lemma C3_no_tick_before_bid_and_ask_witness :
  let bid := [py "20240101093000123456"; py "1"; py "0"; py "5000.00"; py "10"] in
  let trade := [py "20240101093000323456"; py "1"; py "2"; py "5000.50"; py "3"] in
  run_rows ([bid] ++ [trade]) empty_bbo zero_counters
  = ({| st_last := Some (py "5000.50"); st_bid := Some (py "5000.00");
        st_ask := None |},
     [],
     Ok {| total_lineas := 2; lineas_validas := 2; l1_total := 2;
           l1_trades_emitidos := 0; clamps_aplicados := 0 |}).
Proof.
  intros bid trade.
  destruct C3_no_tick_before_bid_and_ask as (_ & H & _).
  refine (H [bid] trade
            {| st_last := None; st_bid := Some (py "5000.00"); st_ask := None |}
            []
            {| total_lineas := 1; lineas_validas := 1; l1_total := 1;
               l1_trades_emitidos := 0; clamps_aplicados := 0 |}
            (py "20240101093000323456") (py "5000.50") (py "3") _ _ _).
  - by_compute.
  - right. reflexivity.
  - by_compute.
Defined.

(* ====================================================================== *)
(** * Prices that are not decimals *)
(* ====================================================================== *)

Lemma parse_line_fields_five (ts lv ty price vol : pystr) (l t : Z) :
  List.length (strip ts) = 20%nat ->
  isdigit (strip ts) = true ->
  py_int lv = Some l ->
  py_int ty = Some t ->
  parse_line_fields [ts; lv; ty; price; vol]
  = Some (strip ts, l, t, strip price, strip vol).
Proof.
  intros H20 Hd Hl Ht. apply parse_line_fields_Some.
  cbn [field nth List.length]. repeat split; auto.
Qed.

Lemma loop_body_trade_unparsed (campos : row) (st : bbo) (c : counters)
    (ts price_str volume_str bid ask : pystr) :
  parse_line_fields campos = Some (ts, 1, TYPE_LAST, price_str, volume_str) ->
  st_bid st = Some bid -> st_ask st = Some ask ->
  Decimal price_str = None \/ Decimal bid = None \/ Decimal ask = None ->
  loop_body campos st c
  = (set_last price_str st,
     Ok (incr_emitidos (incr_l1 (incr_validas (incr_total c))),
         Some {| t_fecha := fst (fst (ts20_to_nt_parts ts));
                 t_hora := snd (fst (ts20_to_nt_parts ts));
                 t_frac7 := snd (ts20_to_nt_parts ts);
                 t_price := price_str; t_bid := bid; t_ask := ask;
                 t_volume := volume_str |})).
Proof.
  intros Hparse Hb Ha Hbad. unfold loop_body. rewrite Hparse.
  cbn [Z.eqb negb Pos.eqb TYPE_LAST TYPE_BID TYPE_ASK].
  destruct (ts20_to_nt_parts ts) as [[fecha hora] frac7].
  cbn [st_bid st_ask set_last fst snd]. rewrite Hb, Ha.
  rewrite (clamp_bbo_with_last_unparsed _ _ _ Hbad). reflexivity.
Qed.

(** C9: a 5-field row with a 20-digit timestamp and integer level and
    type is decoded whatever its price and volume fields hold; a trade
    whose price, stored bid or stored ask is not a decimal is written
    with the stored bid and ask as they are and without counting a clamp;
    and such a tick can have a bid above its price. *)
Theorem C9_unparsed_prices_pass_through :
  (forall (ts lv ty price vol : pystr) (l t : Z),
      List.length (strip ts) = 20%nat ->
      isdigit (strip ts) = true ->
      py_int lv = Some l ->
      py_int ty = Some t ->
      parse_line_fields [ts; lv; ty; price; vol]
      = Some (strip ts, l, t, strip price, strip vol))
  /\ (forall (campos : row) (st : bbo) (c : counters)
        (ts price_str volume_str bid ask : pystr),
      parse_line_fields campos = Some (ts, 1, TYPE_LAST, price_str, volume_str) ->
      st_bid st = Some bid -> st_ask st = Some ask ->
      Decimal price_str = None \/ Decimal bid = None \/ Decimal ask = None ->
      exists t,
        loop_body campos st c
        = (set_last price_str st,
           Ok (incr_emitidos (incr_l1 (incr_validas (incr_total c))), Some t))
        /\ t_price t = price_str /\ t_bid t = bid /\ t_ask t = ask
        /\ t_volume t = volume_str)
  /\ (exists (campos : row) (st st' : bbo) (c c' : counters) (t : tick)
        (db dp : decimal),
      loop_body campos st c = (st', Ok (c', Some t))
      /\ Decimal (t_bid t) = Some db /\ Decimal (t_price t) = Some dp
      /\ Decimal (t_ask t) = None
      /\ ~ dec_le db dp).
Proof.
  split; [|split].
  - intros. now apply parse_line_fields_five.
  - intros campos st c ts p v bid ask Hparse Hb Ha Hbad.
    eexists. split.
    + now apply (loop_body_trade_unparsed campos st c _ _ _ _ _ Hparse Hb Ha Hbad).
    + cbn. auto.
  - exists [py "20240101093000323456"; py "1"; py "2"; py "5"; py "3"].
    exists {| st_last := None; st_bid := Some (py "7"); st_ask := Some (py "abc") |}.
    eexists. exists zero_counters. eexists. eexists.
    exists (DFin false 7 0), (DFin false 5 0).
    split; [by_compute|].
    split; [by_compute|]. split; [by_compute|]. split; [by_compute|].
    intros [H|H]; vm_compute in H; discriminate.
Qed.

Lemma C9_unparsed_prices_pass_through_witness :
  let st := {| st_last := None; st_bid := Some (py "7"); st_ask := Some (py "abc") |} in
  let campos := [py "20240101093000323456"; py "1"; py "2"; py ""; py "x"] in
  parse_line_fields campos
  = Some (py "20240101093000323456", 1, 2, py "", py "x")
  /\ exists t,
      loop_body campos st zero_counters
      = (set_last (py "") st,
         Ok (incr_emitidos (incr_l1 (incr_validas (incr_total zero_counters))),
             Some t))
      /\ t_price t = py "" /\ t_bid t = py "7" /\ t_ask t = py "abc"
      /\ t_volume t = py "x".
Proof.
  intros st campos.
  destruct C9_unparsed_prices_pass_through as (H1 & H2 & _).
  split.
  - apply (H1 (py "20240101093000323456") (py "1") (py "2") (py "") (py "x") 1 2);
      by_compute.
  - apply (H2 campos st zero_counters (py "20240101093000323456")).
    + by_compute.
    + reflexivity.
    + reflexivity.
    + left. by_compute.
Defined.

(* ====================================================================== *)
(** * Rows filtered by level *)
(* ====================================================================== *)

Lemma parse_line_fields_seven (f0 f1 f2 f3 f4 f5 f6 : pystr) :
  parse_line_fields [f0; f1; f2; f3; f4; f5; f6]
  = parse_line_fields [f0; f1; f2; f3; f4].
Proof. reflexivity. Qed.

Lemma loop_body_other_level (campos : row) (st : bbo) (c : counters)
    (ts : pystr) (lv ty : Z) (p v : pystr) :
  parse_line_fields campos = Some (ts, lv, ty, p, v) ->
  lv <> 1 ->
  loop_body campos st c = (st, Ok (incr_validas (incr_total c), None)).
Proof.
  intros Hparse Hlv. unfold loop_body. rewrite Hparse.
  destruct (Z.eqb_spec lv 1); [contradiction|]. reflexivity.
Qed.

(** The outcome of the loop body on a Level-1 row, by the type of the
    row, from the fields the parser reads. *)
Lemma loop_body_level_1 (campos : row) (st : bbo) (c : counters)
    (ts price_str volume_str : pystr) (tipo : Z) :
  parse_line_fields campos = Some (ts, 1, tipo, price_str, volume_str) ->
  let c1 := incr_l1 (incr_validas (incr_total c)) in
  (tipo = TYPE_BID -> loop_body campos st c = (set_bid price_str st, Ok (c1, None)))
  /\ (tipo = TYPE_ASK -> loop_body campos st c = (set_ask price_str st, Ok (c1, None)))
  /\ (forall bid ask bid_out ask_out cb ca,
         tipo = TYPE_LAST -> st_bid st = Some bid -> st_ask st = Some ask ->
         clamp_bbo_with_last price_str bid ask = Ok (bid_out, ask_out, cb, ca) ->
         loop_body campos st c
         = (set_last price_str st,
            Ok (incr_emitidos (if cb || ca then incr_clamps c1 else c1),
                Some {| t_fecha := slice 0 8 ts; t_hora := slice 8 14 ts;
                        t_frac7 := slice 14 20 ts ++ py "0";
                        t_price := price_str; t_bid := bid_out; t_ask := ask_out;
                        t_volume := volume_str |}))).
Proof.
  intros Hparse c1. unfold loop_body. rewrite Hparse.
  cbn [Z.eqb Pos.eqb negb]. unfold ts20_to_nt_parts.
  split; [|split].
  - intros ->. reflexivity.
  - intros ->. reflexivity.
  - intros bid ask bid_out ask_out cb ca -> Hb Ha Hc.
    cbn [Z.eqb Pos.eqb TYPE_LAST TYPE_BID TYPE_ASK st_bid st_ask set_last].
    rewrite Hb, Ha, Hc. reflexivity.
Qed.

(** C10: rows are filtered by the level field alone.  The loop body
    treats a 7-field row exactly as the row of its first five fields.
    A 7-field row whose timestamp is accepted and whose level field
    reads 1 is processed as a Level-1 row, whatever its two trailing
    fields hold: as a bid or an ask it stores its trimmed price in the
    state, and as a trade, with both sides stored, it stores its price
    as last and is written with the clamp of the stored pair.  A
    decoded row whose level is not 1 counts as a valid line, changes no
    state and writes nothing. *)
Theorem C10_rows_filtered_by_level :
  (forall (f0 f1 f2 f3 f4 f5 f6 : pystr) (st : bbo) (c : counters),
      loop_body [f0; f1; f2; f3; f4; f5; f6] st c
      = loop_body [f0; f1; f2; f3; f4] st c)
  /\ (forall (f0 f1 f2 f3 f4 f5 f6 : pystr) (st : bbo) (c : counters) (tipo : Z),
        List.length (strip f0) = 20%nat ->
        isdigit (strip f0) = true ->
        py_int f1 = Some 1 ->
        py_int f2 = Some tipo ->
        let campos := [f0; f1; f2; f3; f4; f5; f6] in
        let c1 := incr_l1 (incr_validas (incr_total c)) in
        (tipo = TYPE_BID ->
         loop_body campos st c = (set_bid (strip f3) st, Ok (c1, None)))
        /\ (tipo = TYPE_ASK ->
            loop_body campos st c = (set_ask (strip f3) st, Ok (c1, None)))
        /\ (forall bid ask bid_out ask_out cb ca,
               tipo = TYPE_LAST -> st_bid st = Some bid -> st_ask st = Some ask ->
               clamp_bbo_with_last (strip f3) bid ask
               = Ok (bid_out, ask_out, cb, ca) ->
               loop_body campos st c
               = (set_last (strip f3) st,
                  Ok (incr_emitidos (if cb || ca then incr_clamps c1 else c1),
                      Some {| t_fecha := slice 0 8 (strip f0);
                              t_hora := slice 8 14 (strip f0);
                              t_frac7 := slice 14 20 (strip f0) ++ py "0";
                              t_price := strip f3;
                              t_bid := bid_out; t_ask := ask_out;
                              t_volume := strip f4 |}))))
  /\ (forall (campos : row) (st : bbo) (c : counters)
        (ts : pystr) (lv ty : Z) (p v : pystr),
      parse_line_fields campos = Some (ts, lv, ty, p, v) ->
      lv <> 1 ->
      loop_body campos st c = (st, Ok (incr_validas (incr_total c), None))).
Proof.
  split; [|split].
  - intros. unfold loop_body. now rewrite parse_line_fields_seven.
  - intros f0 f1 f2 f3 f4 f5 f6 st c tipo H20 Hd H1 H2 campos c1.
    apply loop_body_level_1. apply parse_line_fields_Some.
    subst campos. unfold field. cbn [nth List.length].
    split; [now right|]. repeat split; assumption.
  - intros. eapply loop_body_other_level; eauto.
Qed.

Lemma C10_rows_filtered_by_level_witness :
  let st := {| st_last := None; st_bid := Some (py "5000.00");
               st_ask := Some (py "5000.25") |} in
  loop_body [py "20240101093000323456"; py "1"; py "2"; py "5000.50"; py "3";
             py "1"; py "4"] st zero_counters
  = (set_last (py "5000.50") st,
     Ok ({| total_lineas := 1; lineas_validas := 1; l1_total := 1;
            l1_trades_emitidos := 1; clamps_aplicados := 1 |},
         Some {| t_fecha := py "20240101"; t_hora := py "093000";
                 t_frac7 := py "3234560"; t_price := py "5000.50";
                 t_bid := py "5000.00"; t_ask := py "5000.50";
                 t_volume := py "3" |}))
  /\ loop_body [py "20240101093000123456"; py "1"; py "0"; py " 4999.75 "; py "10";
                py "x"; py "y"] st zero_counters
     = (set_bid (py "4999.75") st,
        Ok ({| total_lineas := 1; lineas_validas := 1; l1_total := 1;
               l1_trades_emitidos := 0; clamps_aplicados := 0 |}, None))
  /\ loop_body [py "20240101093000323456"; py "2"; py "2"; py "5000.50"; py "3";
                py "1"; py "4"] st zero_counters
     = (st, Ok (incr_validas (incr_total zero_counters), None)).
Proof.
  intros st. split; [|split].
  - destruct (proj1 (proj2 C10_rows_filtered_by_level)
                (py "20240101093000323456") (py "1") (py "2") (py "5000.50") (py "3")
                (py "1") (py "4") st zero_counters TYPE_LAST)
      as (_ & _ & H); [by_compute|by_compute|by_compute|by_compute|].
    exact (H (py "5000.00") (py "5000.25") (py "5000.00") (py "5000.50") false true
             eq_refl eq_refl eq_refl ltac:(by_compute)).
  - destruct (proj1 (proj2 C10_rows_filtered_by_level)
                (py "20240101093000123456") (py "1") (py "0") (py " 4999.75 ") (py "10")
                (py "x") (py "y") st zero_counters TYPE_BID)
      as (H & _); [by_compute|by_compute|by_compute|by_compute|].
    exact (H eq_refl).
  - apply (proj2 (proj2 C10_rows_filtered_by_level) _ st zero_counters
             (py "20240101093000323456") 2 2 (py "5000.50") (py "3")).
    + by_compute.
    + discriminate.
Defined.


(* ====================================================================== *)
(** * The rollover calendar *)
(* ====================================================================== *)

Section Calendar.

Import PyDate.

Lemma all_upto_spec (f : Z -> bool) (n : nat) :
  all_upto n f = true -> forall y, 1 <= y <= Z.of_nat n -> f y = true.
Proof.
  induction n as [|n IH]; cbn [all_upto]; intros H y Hy.
  - cbn in Hy. lia.
  - apply andb_prop in H as [Hn Hrest].
    destruct (Z.eq_dec y (Z.of_nat (S n))) as [->|Hne]; [exact Hn|].
    apply IH; [exact Hrest|lia].
Qed.

Lemma date_eqb_eq (a b : date) : date_eqb a b = true -> a = b.
Proof.
  unfold date_eqb. destruct a, b; cbn.
  intros H. apply andb_prop in H as [H Hd]. apply andb_prop in H as [Hy Hm].
  apply Z.eqb_eq in Hy, Hm, Hd. congruence.
Qed.

(** The calendar repeats every 400 years, which are 146097 days. *)
Lemma _is_leap_shift (y : Z) : _is_leap (y + 400) = _is_leap y.
Proof.
  unfold _is_leap.
  replace ((y + 400) mod 4) with (y mod 4)
    by (replace (y + 400) with (y + 100 * 4) by lia; now rewrite Z.mod_add).
  replace ((y + 400) mod 100) with (y mod 100)
    by (replace (y + 400) with (y + 4 * 100) by lia; now rewrite Z.mod_add).
  replace ((y + 400) mod 400) with (y mod 400)
    by (replace (y + 400) with (y + 1 * 400) by lia; now rewrite Z.mod_add).
  reflexivity.
Qed.

Lemma _days_before_year_shift (y : Z) :
  _days_before_year (y + 400) = _days_before_year y + 146097.
Proof. unfold _days_before_year. Z.div_mod_to_equations. lia. Qed.

Lemma _ymd2ord_shift (y m d : Z) :
  _ymd2ord (y + 400) m d = _ymd2ord y m d + 146097.
Proof.
  unfold _ymd2ord, _days_before_month.
  rewrite _days_before_year_shift, _is_leap_shift. lia.
Qed.

Lemma _ord2ymd_shift (n : Z) :
  _ord2ymd (n + 146097) =
  let '(y, m, d) := _ord2ymd n in (y + 400, m, d).
Proof.
  unfold _ord2ymd. cbv zeta.
  replace (n + 146097 - 1) with (n - 1 + 1 * _DI400Y) by (unfold _DI400Y; lia).
  rewrite Z.div_add, Z.mod_add by (unfold _DI400Y; lia).
  repeat match goal with
         | |- context [if ?b then _ else _] => destruct b
         end; f_equal; try f_equal; lia.
Qed.

Lemma fromordinal_shift (n : Z) :
  fromordinal (n + 146097) =
  Date (year (fromordinal n) + 400) (month (fromordinal n)) (day (fromordinal n)).
Proof.
  unfold fromordinal. rewrite _ord2ymd_shift.
  destruct (_ord2ymd n) as [[y m] d]. reflexivity.
Qed.

Lemma check_base_cycle : all_upto 400 check_base_year = true.
Proof. vm_compute. reflexivity. Qed.

Lemma roundtrip_ok_sound (y m d : Z) :
  roundtrip_ok y m d = true -> fromordinal (_ymd2ord y m d) = Date y m d.
Proof. unfold roundtrip_ok. intros H. apply date_eqb_eq. exact H. Qed.

Lemma check_base_year_sound (y m d : Z) :
  check_base_year y = true ->
  In m [3; 6; 9; 12] ->
  In d [1; 2; 3; 4; 5; 6; 7; 8; 9; 10; 11; 12; 13; 14] ->
  fromordinal (_ymd2ord y m d) = Date y m d.
Proof.
  unfold check_base_year. intros H Hin Hind.
  apply roundtrip_ok_sound.
  pose proof (proj1 (forallb_forall _ _) H m Hin) as H1. cbv beta in H1.
  exact (proj1 (forallb_forall _ _) H1 d Hind).
Qed.

Lemma roundtrip_base (y m d : Z) :
  1 <= y <= 400 -> roll_month m -> 1 <= d <= 14 ->
  fromordinal (_ymd2ord y m d) = Date y m d.
Proof.
  intros Hy Hm Hd.
  apply check_base_year_sound.
  - exact (all_upto_spec check_base_year 400 check_base_cycle y Hy).
  - destruct Hm as [->|[->|[->| ->]]]; cbn; auto.
  - assert (d = 1 \/ d = 2 \/ d = 3 \/ d = 4 \/ d = 5 \/ d = 6 \/ d = 7 \/ d = 8
            \/ d = 9 \/ d = 10 \/ d = 11 \/ d = 12 \/ d = 13 \/ d = 14) as Hc by lia.
    repeat (destruct Hc as [->|Hc]; [cbn; auto 20|]). subst d. cbn. auto 20.
Qed.

Lemma roundtrip_cycles (q : nat) :
  forall y m d,
    1 <= y <= 400 -> roll_month m -> 1 <= d <= 14 ->
    fromordinal (_ymd2ord (y + 400 * Z.of_nat q) m d)
    = Date (y + 400 * Z.of_nat q) m d.
Proof.
  induction q as [|q IH]; intros y m d Hy Hm Hd.
  - rewrite Z.mul_0_r, Z.add_0_r. now apply roundtrip_base.
  - replace (y + 400 * Z.of_nat (S q)) with (y + 400 * Z.of_nat q + 400) by lia.
    rewrite _ymd2ord_shift, fromordinal_shift, IH by assumption.
    reflexivity.
Qed.

(** In a roll month, the ordinal of one of the first fourteen days
    converts back to that day. *)
Lemma roundtrip (y m d : Z) :
  1 <= y -> roll_month m -> 1 <= d <= 14 ->
  fromordinal (_ymd2ord y m d) = Date y m d.
Proof.
  intros Hy Hm Hd.
  pose proof (roundtrip_cycles (Z.to_nat ((y - 1) / 400))
                ((y - 1) mod 400 + 1) m d) as H.
  replace ((y - 1) mod 400 + 1 + 400 * Z.of_nat (Z.to_nat ((y - 1) / 400)))
    with y in H.
  - apply H; auto. pose proof (Z.mod_pos_bound (y - 1) 400). lia.
  - rewrite Z2Nat.id by (apply Z.div_pos; lia).
    pose proof (Z.div_mod (y - 1) 400). lia.
Qed.

Lemma _ymd2ord_day (y m d k : Z) : _ymd2ord y m (d + k) = _ymd2ord y m d + k.
Proof. unfold _ymd2ord. lia. Qed.

(** The ordinals of the first fourteen days of a roll month are in range. *)
Lemma _ymd2ord_bounds (y m d : Z) :
  1 <= y <= 9999 -> roll_month m -> 1 <= d <= 14 ->
  0 < _ymd2ord y m d <= _MAXORDINAL.
Proof.
  intros Hy Hm Hd. unfold _ymd2ord, _days_before_month, _MAXORDINAL.
  assert (0 <= _days_before_year y <= 3651700) as Hb.
  { unfold _days_before_year. cbv zeta.
    pose proof (Z.div_mod (y - 1) 4 ltac:(lia)).
    pose proof (Z.mod_pos_bound (y - 1) 4 ltac:(lia)).
    pose proof (Z.div_mod (y - 1) 100 ltac:(lia)).
    pose proof (Z.mod_pos_bound (y - 1) 100 ltac:(lia)).
    pose proof (Z.div_mod (y - 1) 400 ltac:(lia)).
    pose proof (Z.mod_pos_bound (y - 1) 400 ltac:(lia)).
    split; lia. }
  assert (0 <= _DAYS_BEFORE_MONTH m <= 334) as Hmb.
  { destruct Hm as [->|[->|[->| ->]]]; cbv; split; discriminate. }
  destruct ((2 <? m) && _is_leap y); lia.
Qed.

Lemma add_days_in_month (y m d k : Z) :
  1 <= y <= 9999 -> roll_month m -> 1 <= d <= 14 -> 1 <= d + k <= 14 ->
  add_days (Date y m d) k = Ok (Date y m (d + k)).
Proof.
  intros Hy Hm Hd Hk. unfold add_days, toordinal. cbn [year month day].
  rewrite <- _ymd2ord_day.
  pose proof (_ymd2ord_bounds y m (d + k) Hy Hm Hk) as [Hlo Hhi].
  apply Z.ltb_lt in Hlo. apply Z.leb_le in Hhi. rewrite Hlo, Hhi. cbn [andb].
  f_equal. apply roundtrip; auto; lia.
Qed.

Lemma new_date_first (y m : Z) :
  1 <= y <= 9999 -> roll_month m -> new_date y m 1 = Ok (Date y m 1).
Proof.
  intros Hy Hm. unfold new_date, c_int, valid_ymd, MINYEAR, MAXYEAR.
  assert ((-2147483648 <=? y) = true) as -> by (apply Z.leb_le; lia).
  assert ((y <=? 2147483647) = true) as -> by (apply Z.leb_le; lia).
  assert ((1 <=? y) = true) as -> by (apply Z.leb_le; lia).
  assert ((y <=? 9999) = true) as -> by (apply Z.leb_le; lia).
  destruct Hm as [->|[->|[->| ->]]]; reflexivity.
Qed.

Lemma weekday_day (y m j : Z) :
  weekday (Date y m j) = (toordinal (Date y m 1) + 6 + (j - 1)) mod 7.
Proof.
  unfold weekday, toordinal. cbn [year month day]. f_equal.
  unfold _ymd2ord. lia.
Qed.

(** The roll date of a roll month: it exists, it is the second Friday of
    the month, and the day before it is the previous day of the month. *)
Lemma second_friday_roll (y m : Z) :
  1 <= y <= 9999 -> roll_month m ->
  exists k,
    1 <= k <= 7
    /\ second_friday y m = Ok (Date y m (k + 7))
    /\ first_friday_plus_7 y m (Date y m (k + 7))
    /\ add_days (Date y m (k + 7)) (-1) = Ok (Date y m (k + 6)).
Proof.
  intros Hy Hm.
  set (offset := (4 - weekday (Date y m 1)) mod 7).
  assert (0 <= offset < 7) as Hoff by (apply Z.mod_pos_bound; lia).
  exists (1 + offset). split; [lia|]. split; [|split].
  - unfold second_friday. rewrite new_date_first by assumption. cbn [rbind].
    fold offset. rewrite add_days_in_month by (auto; lia). cbn [rbind].
    rewrite add_days_in_month by (auto; lia). reflexivity.
  - exists (1 + offset). split; [lia|].
    split; [|split; [|split; [|reflexivity]]].
    + rewrite weekday_day. subst offset. rewrite weekday_day.
      Z.div_mod_to_equations. lia.
    + intros j Hj. rewrite weekday_day. subst offset. rewrite weekday_day in *.
      Z.div_mod_to_equations. lia.
    + now rewrite add_days_in_month by (auto; lia).
  - rewrite add_days_in_month by (auto; lia). f_equal. f_equal. lia.
Qed.

Lemma valid_date_year (d : date) : valid_date d -> 1 <= year d <= 9999.
Proof.
  unfold valid_date, valid_ymd, MINYEAR, MAXYEAR.
  intros H. repeat (apply andb_prop in H as [H ?]).
  apply Z.leb_le in H. lia.
Qed.

(** The front contract in terms of the four roll dates of the year. *)
Lemma front_contract_for_date_rolls (d r_mar r_jun r_sep r_dec : date) :
  second_friday (year d) 3 = Ok r_mar ->
  second_friday (year d) 6 = Ok r_jun ->
  second_friday (year d) 9 = Ok r_sep ->
  second_friday (year d) 12 = Ok r_dec ->
  front_contract_for_date d =
  Ok (if ltb d r_mar then (3, year d)
      else if ltb d r_jun then (6, year d)
      else if ltb d r_sep then (9, year d)
      else if ltb d r_dec then (12, year d)
      else (3, year d + 1)).
Proof.
  intros H3 H6 H9 H12. unfold front_contract_for_date.
  rewrite H3, H6, H9, H12. cbn [rbind].
  repeat match goal with |- context [if ?b then _ else _] => destruct b end;
    reflexivity.
Qed.

Lemma ltb_months (y m1 d1 m2 d2 : Z) :
  m1 < m2 -> ltb (Date y m1 d1) (Date y m2 d2) = true.
Proof.
  intros H. unfold ltb. cbn [year month day].
  apply Z.ltb_lt in H. rewrite H. now rewrite Z.eqb_refl, orb_true_r.
Qed.

Lemma ltb_months_ge (y m1 d1 m2 d2 : Z) :
  m2 < m1 -> ltb (Date y m1 d1) (Date y m2 d2) = false.
Proof.
  intros H. unfold ltb. cbn [year month day].
  rewrite Z.ltb_irrefl, Z.eqb_refl. cbn [orb andb].
  destruct (Z.ltb_spec m1 m2); [lia|]. destruct (Z.eqb_spec m1 m2); [lia|].
  reflexivity.
Qed.

Lemma ltb_days (y m d1 d2 : Z) :
  ltb (Date y m d1) (Date y m d2) = (d1 <? d2).
Proof.
  unfold ltb. cbn [year month day].
  now rewrite !Z.ltb_irrefl, !Z.eqb_refl.
Qed.

End Calendar.

(** Decides the comparisons of dates of one year in the goal. *)
Ltac ltb_decide :=
  repeat first
    [ rewrite ltb_days
    | rewrite ltb_months by lia
    | rewrite ltb_months_ge by lia ];
  repeat match goal with
         | |- context [(?a <? ?b)] =>
             first [ replace (a <? b) with true by (symmetry; apply Z.ltb_lt; lia)
                   | replace (a <? b) with false by (symmetry; apply Z.ltb_ge; lia) ]
         end;
  reflexivity.

(** C4: for every valid date [d] of year [y], the four roll dates of [y]
    exist, each is the first Friday on or after the 1st of its month plus
    seven days, and [front_contract_for_date d] is March of [y] before
    the March roll, June before the June roll, September before the
    September roll, December before the December roll and March of
    [y + 1] from the December roll on; a date on a roll date maps to the
    new contract and the day before it to the old one. *)
Theorem C4_front_contract_rolls_on_second_friday (d : PyDate.date) :
  PyDate.valid_date d ->
  let y := PyDate.year d in
  exists r_mar r_jun r_sep r_dec,
    (second_friday y 3 = Ok r_mar /\ second_friday y 6 = Ok r_jun
     /\ second_friday y 9 = Ok r_sep /\ second_friday y 12 = Ok r_dec)
    /\ (first_friday_plus_7 y 3 r_mar /\ first_friday_plus_7 y 6 r_jun
        /\ first_friday_plus_7 y 9 r_sep /\ first_friday_plus_7 y 12 r_dec)
    /\ front_contract_for_date d =
       Ok (if PyDate.ltb d r_mar then (3, y)
           else if PyDate.ltb d r_jun then (6, y)
           else if PyDate.ltb d r_sep then (9, y)
           else if PyDate.ltb d r_dec then (12, y)
           else (3, y + 1))
    /\ (front_contract_for_date r_mar = Ok (6, y)
        /\ front_contract_for_date r_jun = Ok (9, y)
        /\ front_contract_for_date r_sep = Ok (12, y)
        /\ front_contract_for_date r_dec = Ok (3, y + 1))
    /\ (exists p_mar p_jun p_sep p_dec,
          PyDate.add_days r_mar (-1) = Ok p_mar
          /\ PyDate.add_days r_jun (-1) = Ok p_jun
          /\ PyDate.add_days r_sep (-1) = Ok p_sep
          /\ PyDate.add_days r_dec (-1) = Ok p_dec
          /\ front_contract_for_date p_mar = Ok (3, y)
          /\ front_contract_for_date p_jun = Ok (6, y)
          /\ front_contract_for_date p_sep = Ok (9, y)
          /\ front_contract_for_date p_dec = Ok (12, y)).
Proof.
  intros Hvalid y.
  pose proof (valid_date_year d Hvalid) as Hy. fold y in Hy.
  destruct (second_friday_roll y 3 Hy) as (k3 & K3 & S3 & F3 & P3);
    [unfold roll_month; auto|].
  destruct (second_friday_roll y 6 Hy) as (k6 & K6 & S6 & F6 & P6);
    [unfold roll_month; auto|].
  destruct (second_friday_roll y 9 Hy) as (k9 & K9 & S9 & F9 & P9);
    [unfold roll_month; auto|].
  destruct (second_friday_roll y 12 Hy) as (k12 & K12 & S12 & F12 & P12);
    [unfold roll_month; auto|].
  eexists _, _, _, _.
  split; [split; [|split; [|split]]; eassumption|].
  split; [split; [|split; [|split]]; assumption|].
  split; [now apply front_contract_for_date_rolls|].
  assert (forall m k,
            front_contract_for_date (PyDate.Date y m k) =
            Ok (if PyDate.ltb (PyDate.Date y m k) (PyDate.Date y 3 (k3 + 7)) then (3, y)
                else if PyDate.ltb (PyDate.Date y m k) (PyDate.Date y 6 (k6 + 7)) then (6, y)
                else if PyDate.ltb (PyDate.Date y m k) (PyDate.Date y 9 (k9 + 7)) then (9, y)
                else if PyDate.ltb (PyDate.Date y m k) (PyDate.Date y 12 (k12 + 7)) then (12, y)
                else (3, y + 1))) as Hat.
  { intros m k.
    exact (front_contract_for_date_rolls (PyDate.Date y m k) _ _ _ _ S3 S6 S9 S12). }
  split.
  - split; [|split; [|split]]; rewrite Hat; ltb_decide.
  - eexists _, _, _, _.
    split; [exact P3|]. split; [exact P6|]. split; [exact P9|].
    split; [exact P12|].
    split; [|split; [|split]]; rewrite Hat; ltb_decide.
Qed.

Lemma C4_front_contract_rolls_on_second_friday_witness :
  front_contract_for_date (PyDate.Date 2024 3 8) = Ok (6, 2024)
  /\ front_contract_for_date (PyDate.Date 2024 3 7) = Ok (3, 2024).
Proof.
  destruct (C4_front_contract_rolls_on_second_friday (PyDate.Date 2024 3 8) eq_refl)
    as (r3 & r6 & r9 & r12 & (S3 & _) & _ & _ & (H & _)
        & (p3 & _ & _ & _ & P3 & _ & _ & _ & Hp & _)).
  cbn [PyDate.year] in S3, H, Hp.
  assert (r3 = PyDate.Date 2024 3 8) as ->.
  { assert (second_friday 2024 3 = Ok (PyDate.Date 2024 3 8)) as E by by_compute.
    congruence. }
  assert (p3 = PyDate.Date 2024 3 7) as ->.
  { assert (PyDate.add_days (PyDate.Date 2024 3 8) (-1) = Ok (PyDate.Date 2024 3 7))
      as E by by_compute.
    congruence. }
  split; assumption.
Defined.

(* ====================================================================== *)
(** * Matchers and the folder pattern *)
(* ====================================================================== *)

Section Matchers.

Import Regex.

Lemma in_mret {A : Type} (a b : A) (r s : pystr) :
  In (a, r) (mret b s) <-> a = b /\ r = s.
Proof.
  unfold mret. cbn. split.
  - intros [H|[]]. injection H as <- <-. auto.
  - intros [-> ->]. auto.
Qed.

Lemma in_mbind {A B : Type} (m : matcher A) (k : A -> matcher B)
    (b : B) (r s : pystr) :
  In (b, r) (mbind m k s) <-> exists a r', In (a, r') (m s) /\ In (b, r) (k a r').
Proof.
  unfold mbind. rewrite in_flat_map. split.
  - intros [[a r'] [H1 H2]]. eauto.
  - intros (a & r' & H1 & H2). exists (a, r'). auto.
Qed.

Lemma in_cls (p : char -> bool) (c : char) (r s : pystr) :
  In (c, r) (cls p s) <-> s = c :: r /\ p c = true.
Proof.
  unfold cls. destruct s as [|x s'].
  - cbn. split; [tauto|]. intros [H _]. discriminate.
  - destruct (p x) eqn:E; cbn.
    + split.
      * intros [H|[]]. injection H as <- <-. auto.
      * intros [H Hp]. injection H as <- <-. auto.
    + split; [tauto|]. intros [H Hp]. injection H as <- <-. congruence.
Qed.

Lemma in_lit (w : pystr) :
  forall (r s : pystr), In (tt, r) (lit w s) <-> s = w ++ r.
Proof.
  induction w as [|l w IH]; intros r s; cbn [lit app].
  - rewrite in_mret. split; [intros [_ ->]; reflexivity | intros ->; auto].
  - rewrite in_mbind. split.
    + intros (c & r' & Hc & Hl). apply in_cls in Hc as [-> Hc].
      apply N.eqb_eq in Hc. subst c. apply IH in Hl. now subst r'.
    + intros ->. exists l, (w ++ r). split.
      * apply in_cls. split; [reflexivity|]. apply N.eqb_refl.
      * now apply IH.
Qed.

Lemma in_plus (p : char -> bool) :
  forall (s m r : pystr),
    In (m, r) (plus p s) <-> m <> [] /\ forallb p m = true /\ s = m ++ r.
Proof.
  induction s as [|c s IH]; intros m r; cbn [plus].
  - split; [intros []|]. intros (Hne & _ & H). destruct m; [congruence|discriminate].
  - destruct (p c) eqn:E.
    + rewrite in_app_iff, in_map_iff. split.
      * intros [[[m' r'] [H1 H2]]|[H|[]]].
        -- injection H1 as <- <-. apply IH in H2 as (Hne & Hall & ->).
           split; [discriminate|]. cbn. rewrite E, Hall. auto.
        -- injection H as <- <-. split; [discriminate|]. cbn. rewrite E. auto.
      * intros (Hne & Hall & H). destruct m as [|x m']; [congruence|].
        cbn in H. injection H as <- ->. cbn in Hall. apply andb_prop in Hall as [_ Hall].
        destruct m' as [|y m''].
        -- right. left. reflexivity.
        -- left. exists (y :: m'', r). split; [reflexivity|].
           apply IH. split; [discriminate|]. auto.
    + split; [intros []|]. intros (Hne & Hall & H).
      destruct m as [|x m']; [congruence|]. cbn in H. injection H as <- ->.
      cbn in Hall. rewrite E in Hall. discriminate.
Qed.

Lemma in_times (p : char -> bool) (n : nat) :
  forall (s m r : pystr),
    In (m, r) (times n p s)
    <-> List.length m = n /\ forallb p m = true /\ s = m ++ r.
Proof.
  induction n as [|n IH]; intros s m r; cbn [times].
  - rewrite in_mret. split.
    + intros [-> ->]. auto.
    + intros (Hl & _ & ->). destruct m; [auto|discriminate].
  - rewrite in_mbind. split.
    + intros (c & r' & Hc & H). apply in_cls in Hc as [-> Hc].
      apply in_mbind in H as (m' & r'' & Hm & H).
      apply in_mret in H as [-> ->]. apply IH in Hm as (Hl & Hall & ->).
      cbn. rewrite Hc, Hall, Hl. auto.
    + intros (Hl & Hall & ->). destruct m as [|c m']; [discriminate|].
      cbn in Hl, Hall. injection Hl as Hl. apply andb_prop in Hall as [Hc Hall].
      exists c, (m' ++ r). split; [now apply in_cls|].
      apply in_mbind. exists m', r. split; [now apply IH|]. now apply in_mret.
Qed.

Lemma in_eol (r s : pystr) :
  In (tt, r) (eol s) <-> r = s /\ (s = [] \/ s = [10%N]).
Proof.
  unfold eol. destruct s as [|c [|d s']].
  - cbn. split; [intros [H|[]]; injection H as <-; auto | intros [-> _]; auto].
  - destruct (N.eqb_spec c 10) as [->|Hne].
    + cbn. split; [intros [H|[]]; injection H as <-; auto | intros [-> _]; auto].
    + split; [intros []|]. intros [_ [H|H]]; [discriminate|]. congruence.
  - split; [intros []|]. intros [_ [H|H]]; discriminate.
Qed.

(** The first match, when all the matches produce the same value. *)
Lemma re_match_unique {A : Type} (m : matcher A) (s : pystr) (a : A) (r : pystr) :
  In (a, r) (m s) ->
  (forall a' r', In (a', r') (m s) -> a' = a) ->
  re_match m s = Some a.
Proof.
  unfold re_match. destruct (m s) as [|[a0 r0] l]; [intros []|].
  intros _ H. f_equal. apply (H a0 r0). now left.
Qed.

Lemma re_match_Some {A : Type} (m : matcher A) (s : pystr) (a : A) :
  re_match m s = Some a -> exists r, In (a, r) (m s).
Proof.
  unfold re_match. destruct (m s) as [|[a0 r0] l]; [discriminate|].
  intros H. injection H as <-. exists r0. now left.
Qed.

Lemma re_match_None {A : Type} (m : matcher A) (s : pystr) :
  re_match m s = None -> forall a r, ~ In (a, r) (m s).
Proof.
  unfold re_match. destruct (m s) as [|[a0 r0] l]; [|discriminate].
  intros _ a r [].
Qed.

(** The matches of the folder pattern. *)
Lemma in__RE_FOLDER (dirname sym r : pystr) :
  In (sym, r) (_RE_FOLDER dirname) <->
  exists (t : char) (d6 : pystr),
    dirname = sym ++ py "_T" ++ [t] ++ py "_" ++ d6 ++ r
    /\ sym <> []
    /\ forallb is_alnum_ascii sym = true
    /\ (t = 49 \/ t = 50)%N
    /\ List.length d6 = 6%nat
    /\ forallb isdecimal d6 = true
    /\ (r = [] \/ r = [10%N]).
Proof.
  unfold _RE_FOLDER. rewrite in_mbind. split.
  - intros (g & r1 & Hg & H). apply in_plus in Hg as (Hne & Hall & ->).
    apply in_mbind in H as ([] & r2 & H2 & H). apply in_lit in H2 as ->.
    apply in_mbind in H as (t & r3 & H3 & H). apply in_cls in H3 as [-> Ht].
    apply in_mbind in H as ([] & r4 & H4 & H). apply in_lit in H4 as ->.
    apply in_mbind in H as (d6 & r5 & H5 & H). apply in_times in H5 as (Hl & Hd & ->).
    apply in_mbind in H as ([] & r6 & H6 & H). apply in_eol in H6 as [-> Hnl].
    apply in_mret in H as [-> ->].
    exists t, d6. repeat split; auto.
    apply orb_prop in Ht as [Ht|Ht]; apply N.eqb_eq in Ht; auto.
  - intros (t & d6 & -> & Hne & Hall & Ht & Hl & Hd & Hnl).
    exists sym, (py "_T" ++ [t] ++ py "_" ++ d6 ++ r).
    split; [apply in_plus; auto|].
    apply in_mbind. exists tt, ([t] ++ py "_" ++ d6 ++ r).
    split; [now apply in_lit|].
    apply in_mbind. exists t, (py "_" ++ d6 ++ r). split.
    { apply in_cls. split; [reflexivity|]. destruct Ht as [->| ->]; reflexivity. }
    apply in_mbind. exists tt, (d6 ++ r). split; [now apply in_lit|].
    apply in_mbind. exists d6, r. split; [apply in_times; auto|].
    apply in_mbind. exists tt, r. split; [now apply in_eol|].
    now apply in_mret.
Qed.

(** A run of characters of a class that stops before a character outside
    the class is determined by the text. *)
Lemma run_unique (p : char -> bool) :
  forall (a b : pystr) (x y : char) (r r' : pystr),
    forallb p a = true -> forallb p b = true ->
    p x = false -> p y = false ->
    a ++ x :: r = b ++ y :: r' -> a = b.
Proof.
  induction a as [|c a IH]; intros [|d b] x y r r' Ha Hb Hx Hy E; cbn in *.
  - reflexivity.
  - injection E as -> _. apply andb_prop in Hb as [Hb _]. congruence.
  - injection E as -> _. apply andb_prop in Ha as [Ha _]. congruence.
  - injection E as -> E. apply andb_prop in Ha as [_ Ha].
    apply andb_prop in Hb as [_ Hb]. f_equal.
    exact (IH b x y r r' Ha Hb Hx Hy E).
Qed.

(** [_RE_FOLDER.match] finds the symbol exactly when the name has the
    folder pattern. *)
Lemma re_match__RE_FOLDER (dirname sym : pystr) :
  re_match _RE_FOLDER dirname = Some sym <-> folder_pattern dirname sym.
Proof.
  split.
  - intros H. apply re_match_Some in H as [r H].
    apply in__RE_FOLDER in H as (t & d6 & H). exists t, d6, r. exact H.
  - intros (t & d6 & nl & H).
    assert (In (sym, nl) (_RE_FOLDER dirname)) as Hin.
    { apply in__RE_FOLDER. exists t, d6. exact H. }
    apply (re_match_unique _ _ _ _ Hin).
    intros sym' r' Hin'. apply in__RE_FOLDER in Hin' as (t' & d6' & E' & _ & Hall' & _).
    destruct H as (E & _ & Hall & _). rewrite E in E'. cbn [py map list_ascii_of_string app] in E'.
    symmetry. eapply (run_unique is_alnum_ascii); [exact Hall|exact Hall'| | |exact E'];
      reflexivity.
Qed.

End Matchers.

(* ====================================================================== *)
(** * Symbol inference *)
(* ====================================================================== *)

(** C6, as stated, fails: an override that is the empty string is not
    returned; the symbol is looked for in the path, and here not found. *)
Lemma C6_empty_override_not_returned :
  infer_symbol_from_path
    {| anchored := true; parts := [py "data"; py "20240101.csv"] |} (Some [])
  = Raise ValueError.
Proof. vm_compute. reflexivity. Qed.

(** C6, amended: a non-empty override is returned whatever the path is.
    Without an override, or with the empty string as override, the
    result is the symbol of the parent directory name if that name has
    the folder pattern, otherwise the symbol of the grandparent directory
    name if that one has it, and a [ValueError] if neither has. *)
Theorem C6_infer_symbol_from_path (csv_path : path) (forced_symbol : option pystr) :
  (forall c f, forced_symbol = Some (c :: f) ->
     infer_symbol_from_path csv_path forced_symbol = Ok (c :: f))
  /\ (forced_symbol = None \/ forced_symbol = Some [] ->
      (forall sym,
          folder_pattern (name (parent csv_path)) sym ->
          infer_symbol_from_path csv_path forced_symbol = Ok sym)
      /\ (forall sym,
          (forall s, ~ folder_pattern (name (parent csv_path)) s) ->
          folder_pattern (name (parent (parent csv_path))) sym ->
          infer_symbol_from_path csv_path forced_symbol = Ok sym)
      /\ ((forall s, ~ folder_pattern (name (parent csv_path)) s) ->
          (forall s, ~ folder_pattern (name (parent (parent csv_path))) s) ->
          infer_symbol_from_path csv_path forced_symbol = Raise ValueError)).
Proof.
  split.
  - intros c f ->. reflexivity.
  - intros Hforced.
    assert (infer_symbol_from_path csv_path forced_symbol =
            match Regex.re_match _RE_FOLDER (name (parent csv_path)) with
            | Some g => Ok g
            | None =>
                match Regex.re_match _RE_FOLDER (name (parent (parent csv_path))) with
                | Some g => Ok g
                | None => Raise ValueError
                end
            end) as ->.
    { destruct Hforced as [-> | ->]; reflexivity. }
    assert (forall d, (forall s, ~ folder_pattern d s) ->
                      Regex.re_match _RE_FOLDER d = None) as Hnone.
    { intros d Hd. destruct (Regex.re_match _RE_FOLDER d) as [g|] eqn:E; [|reflexivity].
      apply re_match__RE_FOLDER in E. now apply Hd in E. }
    split; [|split].
    + intros sym H. apply re_match__RE_FOLDER in H. now rewrite H.
    + intros sym Hp H. rewrite (Hnone _ Hp).
      apply re_match__RE_FOLDER in H. now rewrite H.
    + intros Hp Hg. now rewrite (Hnone _ Hp), (Hnone _ Hg).
Qed.

Lemma C6_infer_symbol_from_path_witness :
  infer_symbol_from_path
    {| anchored := true;
       parts := [py "data"; py "ES_T2_202401"; py "20240101.csv"] |} None
  = Ok (py "ES").
Proof.
  destruct (proj2 (C6_infer_symbol_from_path
                     {| anchored := true;
                        parts := [py "data"; py "ES_T2_202401"; py "20240101.csv"] |}
                     None) (or_introl eq_refl)) as [H _].
  apply H. exists 50%N, (py "202401"), [].
  split; [reflexivity|]. split; [discriminate|]. split; [reflexivity|].
  split; [right; reflexivity|]. split; [reflexivity|].
  split; [reflexivity|left; reflexivity].
Defined.

(* ====================================================================== *)
(** * The processing of one file, step by step *)
(* ====================================================================== *)

Lemma write_all_eq (ck : ContractKey) (ts : list tick) :
  forall w, write_all ck ts w = (add_events (writes_of ck ts) w, Ok tt).
Proof.
  induction ts as [|t ts IH]; intros w; cbn [write_all writes_of map].
  - unfold ret, add_events. rewrite app_nil_r. now destruct w.
  - unfold bind, emit. rewrite IH. unfold add_events. cbn [writers trace].
    now rewrite <- app_assoc.
Qed.

Lemma get_state_eq (ck : ContractKey) (w : world) :
  get_state ck w =
  match lookup ck (state (writers w)) with
  | Some st => (w, Ok st)
  | None => (with_state ck empty_bbo w, Ok empty_bbo)
  end.
Proof. unfold get_state. destruct (lookup ck (state (writers w))); reflexivity. Qed.

(** The steps of the processing of one file, written out. *)
Lemma export_eq (env : Env) (csv_path out_dir : path)
    (forced_symbol : option pystr) (w : world) :
  export_csv_day_to_contract_last_allformat env csv_path out_dir forced_symbol w =
  match infer_symbol_from_path csv_path forced_symbol with
  | Raise e => (w, Raise e)
  | Ok symbol =>
  match infer_trade_date_from_filename csv_path with
  | Raise e => (w, Raise e)
  | Ok trading_day =>
  match front_contract_for_date trading_day with
  | Raise e => (w, Raise e)
  | Ok (c_month, c_year) =>
  let ck := {| symbol := symbol; month := c_month; year := c_year |} in
  match get_writer env ck out_dir w with
  | (w1, Raise e) => (w1, Raise e)
  | (w1, Ok _) =>
  match get_state ck w1 with
  | (w2, Raise e) => (w2, Raise e)
  | (w2, Ok st) =>
  match open_read env csv_path with
  | Raise e => (w2, Raise e)
  | Ok fin =>
      let w3 :=
        add_events
          (writes_of ck (snd (fst (run_rows (fst (iter_csv_lineas fin)) st zero_counters))))
          (with_state ck
             (fst (fst (run_rows (fst (iter_csv_lineas fin)) st zero_counters))) w2) in
      match snd (run_rows (fst (iter_csv_lineas fin)) st zero_counters) with
      | Raise e => (w3, Raise e)
      | Ok c =>
          match snd (iter_csv_lineas fin) with
          | Some e => (w3, Raise e)
          | None => (add_events [EvOk csv_path ck c] w3, Ok c)
          end
      end
  end end end end end end.
Proof.
  unfold export_csv_day_to_contract_last_allformat, bind, lift.
  destruct (infer_symbol_from_path csv_path forced_symbol) as [symbol|e]; [|reflexivity].
  destruct (infer_trade_date_from_filename csv_path) as [d|e]; [|reflexivity].
  destruct (front_contract_for_date d) as [[c_month c_year]|e]; [|reflexivity].
  cbv zeta.
  destruct (get_writer env _ out_dir w) as [w1 [fp|e]]; [|reflexivity].
  destruct (get_state _ w1) as [w2 [st|e]]; [|reflexivity].
  destruct (open_read env csv_path) as [fin|e]; [|reflexivity].
  destruct (iter_csv_lineas fin) as [rows stop]. cbn [fst snd].
  destruct (run_rows rows st zero_counters) as [[st' ticks] r]. cbn [fst snd].
  unfold put_state. rewrite write_all_eq.
  destruct r as [c|e]; [|reflexivity].
  destruct stop as [e|]; [reflexivity|].
  unfold emit, ret, add_events. reflexivity.
Qed.

(* ====================================================================== *)
(** * What a run depends on *)
(* ====================================================================== *)

Lemma export_env (env1 env2 : Env) (csv_path out_dir : path)
    (forced_symbol : option pystr) (w : world) :
  open_read env1 csv_path = open_read env2 csv_path ->
  (forall f, open_append env1 f = open_append env2 f) ->
  export_csv_day_to_contract_last_allformat env1 csv_path out_dir forced_symbol w
  = export_csv_day_to_contract_last_allformat env2 csv_path out_dir forced_symbol w.
Proof.
  intros Hread Happend. rewrite !export_eq, Hread.
  assert (forall ck, get_writer env1 ck out_dir w = get_writer env2 ck out_dir w) as Hw.
  { intros ck. unfold get_writer. now rewrite Happend. }
  destruct (infer_symbol_from_path csv_path forced_symbol); [|reflexivity].
  destruct (infer_trade_date_from_filename csv_path); [|reflexivity].
  destruct (front_contract_for_date a0) as [[c_month c_year]|]; [|reflexivity].
  cbv zeta. now rewrite Hw.
Qed.

Lemma main_loop_env (env1 env2 : Env) (out_dir : path) (forced_symbol : option pystr)
    (csv_paths : list path) :
  (forall p, In p csv_paths -> open_read env1 p = open_read env2 p) ->
  (forall f, open_append env1 f = open_append env2 f) ->
  forall t w,
    main_loop env1 csv_paths out_dir forced_symbol t w
    = main_loop env2 csv_paths out_dir forced_symbol t w.
Proof.
  intros Hread Happend.
  induction csv_paths as [|p rest IH]; intros t w; cbn [main_loop]; [reflexivity|].
  rewrite (export_env env1 env2 p out_dir forced_symbol w)
    by (auto; apply Hread; now left).
  destruct (export_csv_day_to_contract_last_allformat env2 p out_dir forced_symbol w)
    as [w' [c|e]]; apply IH; intros q Hq; apply Hread; now right.
Qed.

(** C8: a run starts from empty writers and its whole trace, so also
    every text written to every contract file, is a function of the
    ordered day files, the output directory and the symbol override, and
    of what the file system answers for those day files and for the
    opening of the output files: two runs that differ in nothing else
    leave identical traces. *)
Theorem C8_runs_are_deterministic (env1 env2 : Env) (csv_paths : list path)
    (out_dir : path) (forced_symbol : option pystr) :
  (forall p, In p csv_paths -> open_read env1 p = open_read env2 p) ->
  (forall f, open_append env1 f = open_append env2 f) ->
  main env1 csv_paths out_dir forced_symbol = main env2 csv_paths out_dir forced_symbol.
Proof.
  intros Hread Happend. unfold main.
  destruct csv_paths as [|p rest]; [reflexivity|].
  now rewrite (main_loop_env env1 env2 out_dir forced_symbol (p :: rest) Hread Happend).
Qed.

Lemma C8_runs_are_deterministic_witness :
  main Scenario.env [Scenario.csv_path true [py "data"]] Scenario.out_dir None
  = main Scenario.env_other [Scenario.csv_path true [py "data"]] Scenario.out_dir None.
Proof.
  apply C8_runs_are_deterministic.
  - intros p [<-|[]]. reflexivity.
  - intros f. reflexivity.
Defined.

(* ====================================================================== *)
(** * Failures of one file and the release of the handles *)
(* ====================================================================== *)

Lemma store_absent {V : Type} (ck : ContractKey) (v : V) (d : list (ContractKey * V)) :
  lookup ck d = None -> store ck v d = d ++ [(ck, v)].
Proof.
  induction d as [|[k v'] d IH]; cbn [lookup store app]; [reflexivity|].
  destruct (ContractKey_eqb ck k); [discriminate|].
  intros H. now rewrite IH.
Qed.

Lemma opened_app (a b : list event) : opened (a ++ b) = opened a ++ opened b.
Proof. unfold opened. apply flat_map_app. Qed.

Lemma file_outcomes_app (a b : list event) :
  file_outcomes (a ++ b) = file_outcomes a ++ file_outcomes b.
Proof. unfold file_outcomes. apply flat_map_app. Qed.

Lemma writes_of_quiet (ck : ContractKey) (ts : list tick) :
  opened (writes_of ck ts) = []
  /\ file_outcomes (writes_of ck ts) = []
  /\ forallb is_file_event (writes_of ck ts) = true.
Proof. induction ts as [|t ts (H1 & H2 & H3)]; cbn; auto. Qed.

Lemma file_step_refl (w : world) : file_step w w [].
Proof. unfold file_step. rewrite app_nil_r. auto. Qed.

Lemma file_step_trans (w1 w2 w3 : world) (e1 e2 : list event) :
  file_step w1 w2 e1 -> file_step w2 w3 e2 -> file_step w1 w3 (e1 ++ e2).
Proof.
  intros (T1 & H1 & F1) (T2 & H2 & F2). unfold file_step.
  rewrite T2, T1, app_assoc, forallb_app, F1, F2. auto.
Qed.

Lemma get_writer_step (env : Env) (ck : ContractKey) (out_dir : path)
    (w w' : world) (r : res path) :
  get_writer env ck out_dir w = (w', r) ->
  exists evs, file_step w w' evs /\ file_outcomes evs = [].
Proof.
  unfold get_writer.
  destruct (lookup ck (handles (writers w))) as [fp|] eqn:El.
  - intros H. injection H as <- <-. exists []. split; [apply file_step_refl|reflexivity].
  - destruct (open_append env (outfile ck out_dir)) as [e|].
    + intros H. injection H as <- <-. exists [].
      split; [apply file_step_refl|reflexivity].
    + intros H. injection H as <- <-. exists [EvOpen ck (outfile ck out_dir)].
      split; [|reflexivity]. unfold file_step, handles_opened. cbn [trace writers handles].
      split; [reflexivity|]. split; [|reflexivity].
      intros Hinv. rewrite (store_absent _ _ _ El), map_app, opened_app, Hinv.
      reflexivity.
Qed.

Lemma get_state_step (ck : ContractKey) (w w' : world) (r : res bbo) :
  get_state ck w = (w', r) -> file_step w w' [].
Proof.
  rewrite get_state_eq. destruct (lookup ck (state (writers w))).
  - intros H. injection H as <- <-. apply file_step_refl.
  - intros H. injection H as <- <-. unfold file_step, with_state, handles_opened.
    cbn [trace writers handles]. rewrite app_nil_r. auto.
Qed.

Lemma add_events_step (ck : ContractKey) (st : bbo) (w : world) (evs : list event) :
  opened evs = [] -> forallb is_file_event evs = true ->
  file_step w (add_events evs w) evs
  /\ file_step w (add_events evs (with_state ck st w)) evs.
Proof.
  intros Ho Hf. unfold file_step, add_events, with_state, handles_opened.
  cbn [trace writers handles]. rewrite opened_app, Ho, app_nil_r. auto.
Qed.

(** The processing of one file appends events of that file only, with
    one reported outcome when it returns and none when it raises. *)
Lemma export_step (env : Env) (csv_path out_dir : path) (forced_symbol : option pystr)
    (w w' : world) (r : res counters) :
  export_csv_day_to_contract_last_allformat env csv_path out_dir forced_symbol w
  = (w', r) ->
  exists evs,
    file_step w w' evs
    /\ file_outcomes evs = match r with Ok _ => [csv_path] | Raise _ => [] end.
Proof.
  rewrite export_eq.
  destruct (infer_symbol_from_path csv_path forced_symbol) as [symbol|e].
  2:{ intros H. injection H as <- <-. exists []. split; [apply file_step_refl|reflexivity]. }
  destruct (infer_trade_date_from_filename csv_path) as [d|e].
  2:{ intros H. injection H as <- <-. exists []. split; [apply file_step_refl|reflexivity]. }
  destruct (front_contract_for_date d) as [[c_month c_year]|e].
  2:{ intros H. injection H as <- <-. exists []. split; [apply file_step_refl|reflexivity]. }
  cbv zeta.
  set (ck := {| symbol := symbol; month := c_month; year := c_year |}).
  destruct (get_writer env ck out_dir w) as [w1 [fp|e]] eqn:Ew;
    apply get_writer_step in Ew as (e1 & S1 & O1).
  2:{ intros H. injection H as <- <-. exists e1. auto. }
  destruct (get_state ck w1) as [w2 [st|e]] eqn:Es; apply get_state_step in Es.
  2:{ intros H. injection H as <- <-. exists (e1 ++ []).
      split; [eapply file_step_trans; eauto|]. now rewrite app_nil_r. }
  pose proof (file_step_trans _ _ _ _ _ S1 Es) as S2. rewrite app_nil_r in S2.
  destruct (open_read env csv_path) as [fin|e].
  2:{ intros H. injection H as <- <-. exists e1. auto. }
  set (rr := run_rows (fst (iter_csv_lineas fin)) st zero_counters).
  destruct (writes_of_quiet ck (snd (fst rr))) as (Wo & Wf & We).
  destruct (add_events_step ck (fst (fst rr)) w2 _ Wo We) as [_ S3].
  pose proof (file_step_trans _ _ _ _ _ S2 S3) as S4.
  destruct (snd rr) as [c|e].
  2:{ intros H. injection H as <- <-. eexists. split; [exact S4|].
      now rewrite file_outcomes_app, O1, Wf. }
  destruct (snd (iter_csv_lineas fin)) as [e|].
  { intros H. injection H as <- <-. eexists. split; [exact S4|].
    now rewrite file_outcomes_app, O1, Wf. }
  intros H. injection H as <- <-.
  exists ((e1 ++ writes_of ck (snd (fst rr))) ++ [EvOk csv_path ck c]).
  split.
  - eapply file_step_trans; [exact S4|].
    apply (add_events_step ck empty_bbo); reflexivity.
  - now rewrite !file_outcomes_app, O1, Wf.
Qed.

Lemma main_loop_step (env : Env) (out_dir : path) (forced_symbol : option pystr)
    (csv_paths : list path) :
  forall (t t' : totals) (w w' : world),
    main_loop env csv_paths out_dir forced_symbol t w = (w', t') ->
    exists evs,
      file_step w w' evs
      /\ file_outcomes evs = csv_paths
      /\ total_archivos t' = (total_archivos t + List.length csv_paths)%nat.
Proof.
  induction csv_paths as [|p rest IH]; intros t t' w w'; cbn [main_loop].
  - intros H. injection H as <- <-. exists [].
    split; [apply file_step_refl|]. split; [reflexivity|]. cbn. lia.
  - destruct (export_csv_day_to_contract_last_allformat env p out_dir forced_symbol w)
      as [w1 [c|e]] eqn:Ee; apply export_step in Ee as (e1 & S1 & O1).
    + intros H. apply IH in H as (e2 & S2 & O2 & T2).
      exists (e1 ++ e2). split; [eapply file_step_trans; eauto|].
      split; [now rewrite file_outcomes_app, O1, O2|].
      rewrite T2. cbn. lia.
    + intros H. apply IH in H as (e2 & S2 & O2 & T2).
      exists ((e1 ++ [EvWarn p e]) ++ e2). split.
      * eapply file_step_trans; [|exact S2].
        eapply file_step_trans; [exact S1|].
        apply (add_events_step {| symbol := []; month := 0; year := 0 |} empty_bbo);
          reflexivity.
      * split; [now rewrite !file_outcomes_app, O1, O2|].
        rewrite T2. cbn. lia.
Qed.

Lemma release_all_handles (hs : list (ContractKey * path)) :
  flat_map (fun h => [EvFlush (fst h); EvClose (fst h)]) hs
  = release_all (map fst hs).
Proof.
  unfold release_all. induction hs as [|h hs IH]; cbn; [reflexivity|].
  now rewrite IH.
Qed.

(** C7: when the processing of a file raises, whatever the exception, the
    loop records it and goes on with the next file; a failed symbol
    inference, a bad file name and a day file that cannot be opened all
    make the processing raise.  A run over a non-empty sequence reports
    one outcome per file, in order, and then flushes and closes the
    handle of every contract opened during the run, before the summary;
    the dicts of the writers are empty afterwards.  A run over no file
    opens nothing. *)
Theorem C7_failures_isolated_handles_released (env : Env) (out_dir : path)
    (forced_symbol : option pystr) :
  (forall csv_path rest t w w' e,
      export_csv_day_to_contract_last_allformat env csv_path out_dir forced_symbol w
      = (w', Raise e) ->
      main_loop env (csv_path :: rest) out_dir forced_symbol t w
      = main_loop env rest out_dir forced_symbol (count_file t)
                  (add_events [EvWarn csv_path e] w'))
  /\ (forall csv_path w e,
      infer_symbol_from_path csv_path forced_symbol = Raise e
      \/ infer_trade_date_from_filename csv_path = Raise e ->
      exists e',
        export_csv_day_to_contract_last_allformat env csv_path out_dir forced_symbol w
        = (w, Raise e'))
  /\ (forall csv_path w e,
      open_read env csv_path = Raise e ->
      exists w' e',
        export_csv_day_to_contract_last_allformat env csv_path out_dir forced_symbol w
        = (w', Raise e'))
  /\ (forall csv_paths,
      csv_paths <> [] ->
      exists body t,
        trace (main env csv_paths out_dir forced_symbol)
        = body ++ release_all (opened body) ++ [EvSummary t]
        /\ file_outcomes body = csv_paths
        /\ forallb is_file_event body = true
        /\ total_archivos t = List.length csv_paths
        /\ writers (main env csv_paths out_dir forced_symbol) = new_ContractWriters)
  /\ main env [] out_dir forced_symbol
     = {| writers := new_ContractWriters; trace := [EvInfo] |}.
Proof.
  split; [|split; [|split; [|split]]]; [| | | |reflexivity].
  - intros p rest t w w' e H. cbn [main_loop]. rewrite H. reflexivity.
  - intros p w e H. rewrite export_eq.
    destruct (infer_symbol_from_path p forced_symbol) as [symbol|e1]; [|eauto].
    destruct H as [H|H]; [discriminate|]. rewrite H. eauto.
  - intros p w e H. rewrite export_eq, H.
    destruct (infer_symbol_from_path p forced_symbol) as [symbol|e1]; [|eauto].
    destruct (infer_trade_date_from_filename p) as [d|e1]; [|eauto].
    destruct (front_contract_for_date d) as [[c_month c_year]|e1]; [|eauto].
    cbv zeta. destruct (get_writer env _ out_dir w) as [w1 [fp|e1]]; [|eauto].
    destruct (get_state _ w1) as [w2 [st|e1]]; eauto.
  - intros csv_paths Hne. unfold main.
    destruct csv_paths as [|p rest]; [congruence|].
    destruct (main_loop env (p :: rest) out_dir forced_symbol zero_totals
                {| writers := new_ContractWriters; trace := [] |})
      as [w t] eqn:El.
    apply main_loop_step in El as (evs & (T & Hinv & Hf) & Ho & Ht).
    cbn [trace writers] in T. exists evs, t. unfold close. cbn [trace writers].
    rewrite T, release_all_handles, Hinv by reflexivity.
    rewrite T, <- app_assoc. auto.
Qed.

Lemma C7_failures_isolated_handles_released_witness :
  exists body t,
    trace (main Scenario.env Scenario.four_files Scenario.out_dir None)
    = body ++ release_all (opened body) ++ [EvSummary t]
    /\ file_outcomes body = Scenario.four_files
    /\ forallb is_file_event body = true
    /\ total_archivos t = 4%nat
    /\ writers (main Scenario.env Scenario.four_files Scenario.out_dir None)
       = new_ContractWriters.
Proof.
  destruct (C7_failures_isolated_handles_released Scenario.env Scenario.out_dir None)
    as (_ & _ & _ & H & _).
  apply (H Scenario.four_files). discriminate.
Defined.

(** The run over the four files: three warnings, then the day file is
    processed on the handle the third file had opened, and the handle is
    released. *)
Example run_four_files :
  trace (main Scenario.env Scenario.four_files Scenario.out_dir None)
  = [EvWarn Scenario.bad_name ValueError;
     EvWarn Scenario.no_symbol ValueError;
     EvOpen Scenario.ck (outfile Scenario.ck Scenario.out_dir);
     EvWarn Scenario.missing OSError;
     EvWrite Scenario.ck Scenario.written_line;
     EvOk (Scenario.csv_path true [py "data"]) Scenario.ck Scenario.file_counters;
     EvFlush Scenario.ck;
     EvClose Scenario.ck;
     EvSummary {| total_archivos := 4; sum_lineas := 3; total_validas := 3;
                  total_l1 := 3; total_trades_emitidos := 1; total_clamps := 1 |}].
Proof. by_compute. Qed.

(* ====================================================================== *)
(** * The scenario of three lines *)
(* ====================================================================== *)

Lemma name_csv_path (root : bool) (dirs : list pystr) :
  name (Scenario.csv_path root dirs) = Scenario.file
  /\ name (parent (Scenario.csv_path root dirs)) = Scenario.folder.
Proof.
  unfold name, parent, Scenario.csv_path. cbn [parts].
  replace (dirs ++ [Scenario.folder; Scenario.file])
    with ((dirs ++ [Scenario.folder]) ++ [Scenario.file])
    by now rewrite <- app_assoc.
  rewrite removelast_last, !last_last. auto.
Qed.

(** C2, as stated, fails: the trade at 5000.50 is above the ask 5000.25,
    so the line written carries the ask clamped to 5000.50, not the line
    expected; the clamp-ask flag is set and one clamp is counted. *)
Lemma C2_scenario_ask_clamped :
  written (trace (main Scenario.env [Scenario.csv_path true [py "data"]]
                       Scenario.out_dir None))
  = [(py "ES 03-24.Last.txt", Scenario.written_line)]
  /\ Scenario.written_line <> Scenario.expected_line
  /\ clamp_bbo_with_last (py "5000.50") (py "5000.00") (py "5000.25")
     = Ok (py "5000.00", py "5000.50", false, true)
  /\ In (EvOk (Scenario.csv_path true [py "data"]) Scenario.ck Scenario.file_counters)
        (trace (main Scenario.env [Scenario.csv_path true [py "data"]]
                     Scenario.out_dir None))
  /\ clamps_aplicados Scenario.file_counters = 1%nat.
Proof.
  split; [by_compute|]. split; [intros H; vm_compute in H; discriminate|].
  split; [by_compute|]. split; [|reflexivity].
  vm_compute. right. right. left. reflexivity.
Qed.

(** C2, amended: processing the single file [20240101.csv] inside folder
    [ES_T2_202401] whose three lines are the bid at 5000.00, the ask at
    5000.25 and the trade at 5000.50 opens [ES 03-24.Last.txt] in the
    output directory, writes the one line
    [20240101 093000 3234560;5000.50;5000.00;5000.50;3] and a newline to
    it, reports 3 lines, 3 valid, 3 Level-1, 1 trade written and 1 clamp,
    and closes the file; the clamp leaves the bid, replaces the ask by
    the trade price and sets the clamp-ask flag only. *)
Theorem C2_scenario_trace (env : Env) (root : bool) (dirs : list pystr) (out_dir : path) :
  open_read env (Scenario.csv_path root dirs) = Ok Scenario.content ->
  open_append env (outfile Scenario.ck out_dir) = None ->
  main env [Scenario.csv_path root dirs] out_dir None
  = {| writers := new_ContractWriters;
       trace := [EvOpen Scenario.ck (outfile Scenario.ck out_dir);
                 EvWrite Scenario.ck Scenario.written_line;
                 EvOk (Scenario.csv_path root dirs) Scenario.ck Scenario.file_counters;
                 EvFlush Scenario.ck;
                 EvClose Scenario.ck;
                 EvSummary Scenario.run_totals] |}
  /\ outfile_name Scenario.ck = py "ES 03-24.Last.txt"
  /\ clamp_bbo_with_last (py "5000.50") (py "5000.00") (py "5000.25")
     = Ok (py "5000.00", py "5000.50", false, true).
Proof.
  intros Hread Happend. split; [|split; by_compute].
  destruct (name_csv_path root dirs) as [Hname Hparent].
  assert (infer_symbol_from_path (Scenario.csv_path root dirs) None = Ok (py "ES"))
    as Hsym.
  { unfold infer_symbol_from_path. rewrite Hparent. by_compute. }
  assert (infer_trade_date_from_filename (Scenario.csv_path root dirs)
          = Ok (PyDate.Date 2024 1 1)) as Hdate.
  { unfold infer_trade_date_from_filename. rewrite Hname. by_compute. }
  assert (front_contract_for_date (PyDate.Date 2024 1 1) = Ok (3, 2024)) as Hfront
    by by_compute.
  assert (run_rows (fst (iter_csv_lineas Scenario.content)) empty_bbo zero_counters
          = ({| st_last := Some (py "5000.50"); st_bid := Some (py "5000.00");
                st_ask := Some (py "5000.25") |},
             [{| t_fecha := py "20240101"; t_hora := py "093000";
                 t_frac7 := py "3234560"; t_price := py "5000.50";
                 t_bid := py "5000.00"; t_ask := py "5000.50";
                 t_volume := py "3" |}],
             Ok Scenario.file_counters)) as Hrun by by_compute.
  assert (snd (iter_csv_lineas Scenario.content) = None) as Hstop by by_compute.
  unfold main. cbn [main_loop].
  rewrite export_eq, Hsym, Hdate, Hfront. cbv zeta.
  fold Scenario.ck.
  unfold get_writer, new_ContractWriters.
  cbn [writers handles state trace lookup store app]. rewrite Happend.
  rewrite get_state_eq. cbn [writers handles state trace lookup store app].
  rewrite Hread, Hrun, Hstop. cbn [fst snd].
  reflexivity.
Qed.

Lemma C2_scenario_trace_witness :
  written (trace (main Scenario.env [Scenario.csv_path true [py "data"]]
                       Scenario.out_dir None))
  = [(py "ES 03-24.Last.txt", Scenario.written_line)].
Proof.
  rewrite (proj1 (C2_scenario_trace Scenario.env true [py "data"] Scenario.out_dir
                    eq_refl eq_refl)).
  reflexivity.
Defined.

(* ====================================================================== *)
(** * The loop over the rows: counters, state and provenance *)
(* ====================================================================== *)

(** The state after the body, whether it returns or raises. *)
Lemma loop_body_state (campos : row) (st : bbo) (c : counters) :
  fst (loop_body campos st c) = apply_event (l1_event campos) st.
Proof.
  unfold loop_body, l1_event, apply_event.
  destruct (parse_line_fields campos) as [[[[[ts lv] ty] p] v]|]; [|reflexivity].
  destruct (lv =? 1); cbn [negb]; [|reflexivity].
  destruct (ts20_to_nt_parts ts) as [[fecha hora] frac7].
  destruct (ty =? TYPE_BID); [reflexivity|].
  destruct (ty =? TYPE_ASK); [reflexivity|].
  destruct (ty =? TYPE_LAST); [|reflexivity].
  cbn [st_bid st_ask set_last].
  destruct (st_bid st); [|reflexivity]. destruct (st_ask st); [|reflexivity].
  destruct (clamp_bbo_with_last p p0 p1) as [[[[bo ao] cb] ca]|]; reflexivity.
Qed.

(** The counters after the body returns. *)
Lemma loop_body_counters (campos : row) (st st' : bbo) (c c' : counters)
    (t : option tick) :
  loop_body campos st c = (st', Ok (c', t)) ->
  total_lineas c' = S (total_lineas c)
  /\ lineas_validas c'
     = (lineas_validas c + if is_some (parse_line_fields campos) then 1 else 0)%nat
  /\ l1_total c' = (l1_total c + if is_some (l1_event campos) then 1 else 0)%nat
  /\ l1_trades_emitidos c' = (l1_trades_emitidos c + List.length (opt_list t))%nat
  /\ (clamps_aplicados c <= clamps_aplicados c'
      <= clamps_aplicados c + List.length (opt_list t))%nat.
Proof.
  unfold loop_body, l1_event.
  destruct (parse_line_fields campos) as [[[[[ts lv] ty] p] v]|]; cbn [is_some].
  2:{ intros H. injection H as <- <- <-. cbn. lia. }
  destruct (lv =? 1); cbn [negb is_some].
  2:{ intros H. injection H as <- <- <-. cbn. lia. }
  destruct (ts20_to_nt_parts ts) as [[fecha hora] frac7].
  destruct (ty =? TYPE_BID). { intros H. injection H as <- <- <-. cbn. lia. }
  destruct (ty =? TYPE_ASK). { intros H. injection H as <- <- <-. cbn. lia. }
  destruct (ty =? TYPE_LAST).
  2:{ intros H. injection H as <- <- <-. cbn. lia. }
  cbn [st_bid st_ask set_last].
  destruct (st_bid st) as [bid|].
  2:{ intros H. injection H as <- <- <-. cbn. lia. }
  destruct (st_ask st) as [ask|].
  2:{ intros H. injection H as <- <- <-. cbn. lia. }
  destruct (clamp_bbo_with_last p bid ask) as [[[[bo ao] cb] ca]|]; [|discriminate].
  intros H. injection H as <- <- <-.
  destruct (cb || ca); cbn; lia.
Qed.

Lemma run_rows_counters (rows : list row) :
  forall (st st' : bbo) (c c' : counters) (ts : list tick),
    run_rows rows st c = (st', ts, Ok c') ->
    total_lineas c' = (total_lineas c + List.length rows)%nat
    /\ lineas_validas c' = (lineas_validas c + count_valid rows)%nat
    /\ l1_total c' = (l1_total c + count_l1 rows)%nat
    /\ l1_trades_emitidos c' = (l1_trades_emitidos c + List.length ts)%nat
    /\ (clamps_aplicados c <= clamps_aplicados c'
        <= clamps_aplicados c + List.length ts)%nat.
Proof.
  unfold count_valid, count_l1.
  induction rows as [|campos rest IH]; intros st st' c c' ts; cbn [run_rows].
  - intros H. injection H as <- <- <-. cbn. lia.
  - destruct (loop_body campos st c) as [st1 [[c1 t]|e]] eqn:Eb; [|discriminate].
    destruct (run_rows rest st1 c1) as [[st2 ts2] r] eqn:Er.
    intros H. injection H as <- <- ->.
    apply loop_body_counters in Eb as (B1 & B2 & B3 & B4 & B5).
    apply IH in Er as (R1 & R2 & R3 & R4 & R5).
    cbn [filter List.length].
    destruct (is_some (parse_line_fields campos));
      destruct (is_some (l1_event campos));
      rewrite ?length_app; cbn [List.length]; lia.
Qed.

Lemma count_l1_le_valid (rows : list row) :
  (count_l1 rows <= count_valid rows <= List.length rows)%nat.
Proof.
  unfold count_l1, count_valid.
  induction rows as [|campos rest IH]; cbn [filter List.length]; [lia|].
  unfold l1_event at 1.
  destruct (parse_line_fields campos) as [[[[[ts lv] ty] p] v]|]; cbn [is_some].
  - destruct (lv =? 1); cbn [is_some List.length]; lia.
  - lia.
Qed.

(** A trade is written only for a Level-1 row. *)
Lemma loop_body_tick_l1 (campos : row) (st st' : bbo) (c c' : counters) (t : tick) :
  loop_body campos st c = (st', Ok (c', Some t)) ->
  is_some (l1_event campos) = true.
Proof.
  intros H. apply loop_body_emits in H.
  destruct H as (ts & p & v & _ & _ & _ & _ & _ & _ & Hp & _).
  unfold l1_event. now rewrite Hp.
Qed.

Lemma run_rows_ticks_le_l1 (rows : list row) :
  forall (st : bbo) (c : counters),
    (List.length (snd (fst (run_rows rows st c))) <= count_l1 rows)%nat.
Proof.
  unfold count_l1.
  induction rows as [|campos rest IH]; intros st c; cbn [run_rows]; [cbn; lia|].
  destruct (loop_body campos st c) as [st1 [[c1 t]|e]] eqn:Eb; [|cbn; lia].
  specialize (IH st1 c1).
  destruct (run_rows rest st1 c1) as [[st2 ts2] r]. cbn [fst snd] in *.
  cbn [filter]. destruct t as [t|]; cbn [opt_list app List.length].
  - rewrite (loop_body_tick_l1 _ _ _ _ _ _ Eb). cbn [List.length]. lia.
  - destruct (is_some (l1_event campos)); cbn [List.length]; lia.
Qed.

(** X1: when the loop over the rows of a file returns, its counters are
    the number of rows, the number of rows the parser decodes, the
    number of Level-1 rows among them and the number of ticks written;
    they are ordered clamps <= trades <= Level-1 <= valid <= lines. *)
Theorem X1_counters_count (rows : list row) (st st' : bbo) (ts : list tick)
    (c : counters) :
  run_rows rows st zero_counters = (st', ts, Ok c) ->
  total_lineas c = List.length rows
  /\ lineas_validas c = count_valid rows
  /\ l1_total c = count_l1 rows
  /\ l1_trades_emitidos c = List.length ts
  /\ (clamps_aplicados c <= l1_trades_emitidos c <= l1_total c)%nat
  /\ (l1_total c <= lineas_validas c <= total_lineas c)%nat.
Proof.
  intros H.
  pose proof (run_rows_ticks_le_l1 rows st zero_counters) as Hle.
  rewrite H in Hle. cbn [fst snd] in Hle.
  apply run_rows_counters in H as (H1 & H2 & H3 & H4 & H5). cbn in *.
  pose proof (count_l1_le_valid rows). lia.
Qed.

Lemma X1_counters_count_witness :
  let rows := [[py "20240101093000123456"; py "1"; py "0"; py "5000.00"; py "10"];
               [py "x"; py "y"];
               [py "20240101093000123457"; py "2"; py "0"; py "1"; py "1";
                py "0"; py "3"]] in
  let st' := {| st_last := None; st_bid := Some (py "5000.00"); st_ask := None |} in
  let c := {| total_lineas := 3; lineas_validas := 2; l1_total := 1;
              l1_trades_emitidos := 0; clamps_aplicados := 0 |} in
  run_rows rows empty_bbo zero_counters = (st', [], Ok c)
  /\ total_lineas c = List.length rows
  /\ lineas_validas c = count_valid rows
  /\ l1_total c = count_l1 rows.
Proof.
  intros rows st' c.
  assert (run_rows rows empty_bbo zero_counters = (st', [], Ok c)) as H by by_compute.
  split; [exact H|].
  destruct (X1_counters_count rows empty_bbo st' [] c H) as (H1 & H2 & H3 & _).
  split; [exact H1|]. split; [exact H2|exact H3].
Defined.

(** The state after the loop, whether it returns or raises, when every
    row was processed. *)
Lemma run_rows_state (rows : list row) :
  forall (st st' : bbo) (c c' : counters) (ts : list tick),
    run_rows rows st c = (st', ts, Ok c') ->
    st' = fold_left (fun s campos => apply_event (l1_event campos) s) rows st.
Proof.
  induction rows as [|campos rest IH]; intros st st' c c' ts; cbn [run_rows fold_left].
  - intros H. now injection H as <- <- <-.
  - pose proof (loop_body_state campos st c) as Hs.
    destruct (loop_body campos st c) as [st1 [[c1 t]|e]]; [|discriminate].
    cbn [fst] in Hs. subst st1.
    destruct (run_rows rest _ c1) as [[st2 ts2] r] eqn:Er.
    intros H. injection H as <- <- ->. now apply IH in Er.
Qed.

Lemma fold_apply_event (rows : list row) :
  forall st,
    let st' := fold_left (fun s campos => apply_event (l1_event campos) s) rows st in
    st_bid st' = last_price_of TYPE_BID rows (st_bid st)
    /\ st_ask st' = last_price_of TYPE_ASK rows (st_ask st)
    /\ st_last st' = last_price_of TYPE_LAST rows (st_last st).
Proof.
  induction rows as [|campos rest IH]; intros st; cbn [fold_left last_price_of].
  - auto.
  - destruct (IH (apply_event (l1_event campos) st)) as (Hb & Ha & Hl).
    cbv zeta in *. rewrite Hb, Ha, Hl. clear.
    unfold apply_event. destruct (l1_event campos) as [[t p]|]; [|auto].
    unfold TYPE_BID, TYPE_ASK, TYPE_LAST.
    destruct (Z.eqb_spec t 0) as [->|H0]; [cbn; auto|].
    destruct (Z.eqb_spec t 1) as [->|H1]; [cbn; auto|].
    destruct (Z.eqb_spec t 2) as [->|H2]; cbn; auto.
Qed.

(** The loop never unsets a field of the state. *)
Lemma apply_event_keeps (ev : option (Z * pystr)) (st : bbo) :
  (st_bid st <> None -> st_bid (apply_event ev st) <> None)
  /\ (st_ask st <> None -> st_ask (apply_event ev st) <> None)
  /\ (st_last st <> None -> st_last (apply_event ev st) <> None).
Proof.
  unfold apply_event. destruct ev as [[t p]|]; [|auto].
  destruct (t =? TYPE_BID); [cbn; repeat split; auto; discriminate|].
  destruct (t =? TYPE_ASK); [cbn; repeat split; auto; discriminate|].
  destruct (t =? TYPE_LAST); cbn; repeat split; auto; discriminate.
Qed.

Lemma run_rows_keeps (rows : list row) :
  forall (st : bbo) (c : counters),
    let st' := fst (fst (run_rows rows st c)) in
    (st_bid st <> None -> st_bid st' <> None)
    /\ (st_ask st <> None -> st_ask st' <> None)
    /\ (st_last st <> None -> st_last st' <> None).
Proof.
  induction rows as [|campos rest IH]; intros st c; cbn [run_rows]; [cbn; auto|].
  pose proof (loop_body_state campos st c) as Hs.
  destruct (apply_event_keeps (l1_event campos) st) as (Kb & Ka & Kl).
  destruct (loop_body campos st c) as [st1 [[c1 t]|e]]; cbn [fst] in Hs; subst st1.
  - specialize (IH (apply_event (l1_event campos) st) c1).
    destruct (run_rows rest _ c1) as [[st2 ts2] r]. cbn [fst snd] in *.
    destruct IH as (Ib & Ia & Il). auto.
  - cbn [fst]. auto.
Qed.

(** X2: when the loop over the rows returns, the stored bid is the price
    of the last Level-1 bid row, or the bid stored before if there is
    none, whatever trades were written in between; likewise the ask and
    the last price.  Whether the loop returns or raises, a field that was
    set is still set afterwards: the state is never reset. *)
Theorem X2_state_is_last_known (rows : list row) (st : bbo) (c : counters) :
  (forall st' ts c',
      run_rows rows st c = (st', ts, Ok c') ->
      st_bid st' = last_price_of TYPE_BID rows (st_bid st)
      /\ st_ask st' = last_price_of TYPE_ASK rows (st_ask st)
      /\ st_last st' = last_price_of TYPE_LAST rows (st_last st))
  /\ (st_bid st <> None -> st_bid (fst (fst (run_rows rows st c))) <> None)
  /\ (st_ask st <> None -> st_ask (fst (fst (run_rows rows st c))) <> None)
  /\ (st_last st <> None -> st_last (fst (fst (run_rows rows st c))) <> None).
Proof.
  split.
  - intros st' ts c' H. apply run_rows_state in H. subst st'.
    apply fold_apply_event.
  - apply run_rows_keeps.
Qed.

Lemma X2_state_is_last_known_witness :
  let rows := [[py "20240101093000123456"; py "1"; py "0"; py "5000.00"; py "10"];
               [py "20240101093000123457"; py "1"; py "2"; py "4999.75"; py "1"];
               [py "20240101093000123458"; py "1"; py "0"; py "5000.25"; py "10"]] in
  let st' := {| st_last := Some (py "4999.75"); st_bid := Some (py "5000.25");
                st_ask := None |} in
  let c := {| total_lineas := 3; lineas_validas := 3; l1_total := 3;
              l1_trades_emitidos := 0; clamps_aplicados := 0 |} in
  run_rows rows empty_bbo zero_counters = (st', [], Ok c)
  /\ st_bid st' = last_price_of TYPE_BID rows None
  /\ st_ask st' = last_price_of TYPE_ASK rows None
  /\ st_last st' = last_price_of TYPE_LAST rows None.
Proof.
  intros rows st' c.
  assert (run_rows rows empty_bbo zero_counters = (st', [], Ok c)) as H by by_compute.
  split; [exact H|].
  exact (proj1 (X2_state_is_last_known rows empty_bbo zero_counters) st' [] c H).
Defined.

(* ====================================================================== *)
(** * The clamp: what it returns *)
(* ====================================================================== *)

Lemma dec_compare_nan (a b : decimal) :
  dec_compare a b = None <-> is_nan a || is_nan b = true.
Proof.
  destruct a, b; cbn; split; intros H; try discriminate; auto;
    destruct neg, neg0; discriminate.
Qed.

Lemma dec_gt_true (a b : decimal) : dec_gt a b = Ok true -> ~ dec_le a b.
Proof.
  unfold dec_gt, dec_le.
  destruct (dec_compare a b) as [[ | | ]|]; intros H [E|E];
    discriminate H || discriminate E.
Qed.

Lemma dec_lt_true (a b : decimal) : dec_lt a b = Ok true -> ~ dec_le b a.
Proof.
  unfold dec_lt, dec_le. rewrite (dec_compare_antisym a b).
  destruct (dec_compare a b) as [[ | | ]|]; cbn; intros H [E|E];
    discriminate H || discriminate E.
Qed.

(** X3: whatever the clamp returns, each side is the text it was given
    or the text of the last price, with the flag telling which; when the
    three texts parse and none is a NaN, the bid is replaced exactly when
    it is above the last price and the ask exactly when it is below, so a
    last price inside the spread changes nothing. *)
Theorem X3_clamp_returns_inputs (last_str bid_str ask_str : pystr) :
  (forall bid_out ask_out cb ca,
      clamp_bbo_with_last last_str bid_str ask_str = Ok (bid_out, ask_out, cb, ca) ->
      bid_out = (if cb then last_str else bid_str)
      /\ ask_out = (if ca then last_str else ask_str))
  /\ (forall d_last d_bid d_ask,
        Decimal last_str = Some d_last ->
        Decimal bid_str = Some d_bid ->
        Decimal ask_str = Some d_ask ->
        is_nan d_last || is_nan d_bid || is_nan d_ask = false ->
        exists cb ca : bool,
          clamp_bbo_with_last last_str bid_str ask_str
          = Ok (if cb then last_str else bid_str,
                if ca then last_str else ask_str, cb, ca)
          /\ (cb = false <-> dec_le d_bid d_last)
          /\ (ca = false <-> dec_le d_last d_ask)).
Proof.
  split.
  - intros bo ao cb ca. unfold clamp_bbo_with_last.
    destruct (Decimal last_str) as [dl|];
      [|intros H; injection H as <- <- <- <-; auto].
    destruct (Decimal bid_str) as [db|];
      [|intros H; injection H as <- <- <- <-; auto].
    destruct (Decimal ask_str) as [da|];
      [|intros H; injection H as <- <- <- <-; auto].
    destruct (dec_gt db dl) as [[|]|]; cbn; [| |discriminate];
      (destruct (dec_lt da dl) as [[|]|]; cbn; [| |discriminate]);
      intros H; injection H as <- <- <- <-; auto.
  - intros dl db da Hl Hb Ha Hnan.
    apply orb_false_iff in Hnan as [Hnan Hna].
    apply orb_false_iff in Hnan as [Hnl Hnb].
    rewrite (clamp_bbo_with_last_parsed _ _ _ _ _ _ Hl Hb Ha).
    destruct (dec_gt db dl) as [bid_gt|e] eqn:Egt.
    2:{ exfalso. unfold dec_gt in Egt.
        destruct (dec_compare db dl) as [[ | | ]|] eqn:E; try discriminate.
        apply dec_compare_nan in E. rewrite Hnb, Hnl in E. discriminate. }
    destruct (dec_lt da dl) as [ask_lt|e] eqn:Elt.
    2:{ exfalso. unfold dec_lt in Elt.
        destruct (dec_compare da dl) as [[ | | ]|] eqn:E; try discriminate.
        apply dec_compare_nan in E. rewrite Hna, Hnl in E. discriminate. }
    exists bid_gt, ask_lt. cbn. split; [reflexivity|]. split.
    + destruct bid_gt.
      * split; [discriminate|]. intros H. now apply dec_gt_true in Egt.
      * split; [|reflexivity]. intros _. now apply dec_gt_false.
    + destruct ask_lt.
      * split; [discriminate|]. intros H. now apply dec_lt_true in Elt.
      * split; [|reflexivity]. intros _. now apply dec_lt_false.
Qed.

Lemma X3_clamp_returns_inputs_witness :
  exists cb ca : bool,
    clamp_bbo_with_last (py "5000.50") (py "5000.00") (py "5000.25")
    = Ok (if cb then py "5000.50" else py "5000.00",
          if ca then py "5000.50" else py "5000.25", cb, ca)
    /\ (cb = false <-> dec_le (DFin false 500000 (-2)) (DFin false 500050 (-2)))
    /\ (ca = false <-> dec_le (DFin false 500050 (-2)) (DFin false 500025 (-2))).
Proof.
  apply (proj2 (X3_clamp_returns_inputs (py "5000.50") (py "5000.00") (py "5000.25")));
    by_compute.
Defined.

(** The clamp copies its inputs. *)
Lemma clamp_bbo_with_last_copies (last_str bid_str ask_str bid_out ask_out : pystr)
    (cb ca : bool) :
  clamp_bbo_with_last last_str bid_str ask_str = Ok (bid_out, ask_out, cb, ca) ->
  (bid_out = last_str \/ bid_out = bid_str)
  /\ (ask_out = last_str \/ ask_out = ask_str).
Proof.
  unfold clamp_bbo_with_last.
  destruct (Decimal last_str) as [dl|];
    [|intros H; injection H as <- <- <- <-; auto].
  destruct (Decimal bid_str) as [db|];
    [|intros H; injection H as <- <- <- <-; auto].
  destruct (Decimal ask_str) as [da|];
    [|intros H; injection H as <- <- <- <-; auto].
  destruct (dec_gt db dl) as [[|]|]; cbn; [| |discriminate];
    (destruct (dec_lt da dl) as [[|]|]; cbn; [| |discriminate]);
    intros H; injection H as <- <- <- <-; auto.
Qed.

(** The clamp raises only [InvalidOperation], and only on a NaN. *)
Lemma clamp_bbo_with_last_raises (last_str bid_str ask_str : pystr) (e : exn) :
  clamp_bbo_with_last last_str bid_str ask_str = Raise e <->
  e = InvalidOperation
  /\ exists dl db da,
      Decimal last_str = Some dl /\ Decimal bid_str = Some db
      /\ Decimal ask_str = Some da
      /\ is_nan dl || is_nan db || is_nan da = true.
Proof.
  unfold clamp_bbo_with_last. split.
  - destruct (Decimal last_str) as [dl|]; [|discriminate].
    destruct (Decimal bid_str) as [db|]; [|discriminate].
    destruct (Decimal ask_str) as [da|]; [|discriminate].
    unfold dec_gt, dec_lt.
    destruct (dec_compare db dl) as [c1|] eqn:E1.
    + destruct (dec_compare da dl) as [c2|] eqn:E2.
      * destruct c1, c2; discriminate.
      * apply dec_compare_nan in E2.
        intros H. split; [destruct c1; cbn in H; congruence|].
        exists dl, db, da. repeat split; auto.
        destruct (is_nan dl), (is_nan db), (is_nan da); auto.
    + apply dec_compare_nan in E1.
      intros H. split; [cbn in H; congruence|].
      exists dl, db, da. repeat split; auto.
      destruct (is_nan dl), (is_nan db), (is_nan da); auto.
  - intros (-> & dl & db & da & -> & -> & -> & Hnan).
    unfold dec_gt, dec_lt.
    destruct (dec_compare db dl) as [c1|] eqn:E1; [|reflexivity].
    destruct (dec_compare da dl) as [c2|] eqn:E2; [|destruct c1; reflexivity].
    exfalso.
    assert (dec_compare db dl <> None) as N1 by congruence.
    assert (dec_compare da dl <> None) as N2 by congruence.
    rewrite dec_compare_nan in N1, N2.
    destruct (is_nan dl), (is_nan db), (is_nan da); cbn in *; congruence.
Qed.

(* ====================================================================== *)
(** * The ticks written: where their texts come from *)
(* ====================================================================== *)

Lemma l1_prices_cons (tipo : Z) (campos : row) (rest : list row) (out : pystr) :
  In out (l1_prices tipo rest) -> In out (l1_prices tipo (campos :: rest)).
Proof. intros H. unfold l1_prices. cbn [flat_map]. apply in_or_app. now right. Qed.

Lemma l1_prices_head (tipo : Z) (campos : row) (rest : list row) (p : pystr) :
  l1_event campos = Some (tipo, p) -> In p (l1_prices tipo (campos :: rest)).
Proof.
  intros H. unfold l1_prices. cbn [flat_map]. rewrite H, Z.eqb_refl.
  apply in_or_app. left. now left.
Qed.

Lemma apply_event_bid (campos : row) (rest : list row) (st : bbo) (out : pystr) :
  st_bid (apply_event (l1_event campos) st) = Some out ->
  In out (l1_prices TYPE_BID (campos :: rest)) \/ st_bid st = Some out.
Proof.
  unfold apply_event. destruct (l1_event campos) as [[t p]|] eqn:E; [|auto].
  destruct (Z.eqb_spec t TYPE_BID) as [->|].
  - cbn. intros H. injection H as <-. left. now apply l1_prices_head.
  - destruct (t =? TYPE_ASK); [cbn; auto|].
    destruct (t =? TYPE_LAST); cbn; auto.
Qed.

Lemma apply_event_ask (campos : row) (rest : list row) (st : bbo) (out : pystr) :
  st_ask (apply_event (l1_event campos) st) = Some out ->
  In out (l1_prices TYPE_ASK (campos :: rest)) \/ st_ask st = Some out.
Proof.
  unfold apply_event. destruct (l1_event campos) as [[t p]|] eqn:E; [|auto].
  destruct (Z.eqb_spec t TYPE_BID) as [->|]; [cbn; auto|].
  destruct (Z.eqb_spec t TYPE_ASK) as [->|].
  - cbn. intros H. injection H as <-. left. now apply l1_prices_head.
  - destruct (t =? TYPE_LAST); cbn; auto.
Qed.

(** X4: every tick the loop writes carries the price and the volume of a
    Level-1 trade row of the file, trimmed and otherwise unchanged; its
    bid is that same price text, the price text of a Level-1 bid row of
    the file, or the bid stored before the file, and likewise its ask:
    no text is computed or reformatted. *)
Theorem X4_ticks_copy_input_texts (rows : list row) :
  forall (st : bbo) (c : counters),
    Forall (fun t =>
              (exists campos ts,
                  In campos rows
                  /\ parse_line_fields campos
                     = Some (ts, 1, TYPE_LAST, t_price t, t_volume t)
                  /\ t_price t = strip (field campos 3)
                  /\ t_volume t = strip (field campos 4))
              /\ side_source TYPE_BID rows (st_bid st) (t_price t) (t_bid t)
              /\ side_source TYPE_ASK rows (st_ask st) (t_price t) (t_ask t))
           (snd (fst (run_rows rows st c))).
Proof.
  unfold side_source.
  induction rows as [|campos rest IH]; intros st c; cbn [run_rows]; [constructor|].
  pose proof (loop_body_state campos st c) as Hs.
  destruct (loop_body campos st c) as [st1 [[c1 t]|e]] eqn:Eb; [|constructor].
  cbn [fst] in Hs. specialize (IH st1 c1).
  destruct (run_rows rest st1 c1) as [[st2 ts2] r]. cbn [fst snd] in *.
  apply Forall_app. split.
  - destruct t as [t|]; [|constructor]. constructor; [|constructor].
    apply loop_body_emits in Eb.
    destruct Eb as (ts & p & v & bid & ask & bo & ao & cb & ca
                    & Hp & Hb & Ha & _ & Hc & <- & <- & <- & <- & _).
    apply clamp_bbo_with_last_copies in Hc as [Hbo Hao].
    split.
    + exists campos, ts. split; [now left|]. split; [exact Hp|].
      apply parse_line_fields_Some in Hp.
      destruct Hp as (_ & _ & _ & _ & _ & _ & Hp3 & Hp4). auto.
    + split.
      * destruct Hbo as [->| ->]; auto.
      * destruct Hao as [->| ->]; auto.
  - eapply Forall_impl; [|exact IH]. cbv beta.
    intros t' ((campos' & ts & Hin & Hp) & Hbid & Hask). split.
    + exists campos', ts. split; [now right|exact Hp].
    + subst st1. split.
      * destruct Hbid as [H|[H|H]]; auto.
        -- right. left. now apply l1_prices_cons.
        -- right. now apply apply_event_bid.
      * destruct Hask as [H|[H|H]]; auto.
        -- right. left. now apply l1_prices_cons.
        -- right. now apply apply_event_ask.
Qed.

(* ====================================================================== *)
(** * The timestamp of a tick *)
(* ====================================================================== *)

Lemma ts20_to_nt_parts_parts (ts20 : pystr) :
  List.length ts20 = 20%nat ->
  exists fecha hora micros6,
    ts20_to_nt_parts ts20 = (fecha, hora, micros6 ++ py "0")
    /\ ts20 = fecha ++ hora ++ micros6
    /\ List.length fecha = 8%nat /\ List.length hora = 6%nat
    /\ List.length micros6 = 6%nat.
Proof.
  intros H. unfold ts20_to_nt_parts, slice.
  change (8 - 0)%nat with 8%nat. change (14 - 8)%nat with 6%nat.
  change (20 - 14)%nat with 6%nat. change (skipn 0 ts20) with ts20.
  exists (firstn 8 ts20), (firstn 6 (skipn 8 ts20)), (firstn 6 (skipn 14 ts20)).
  split; [reflexivity|]. split.
  - rewrite <- (firstn_skipn 8 ts20) at 1. f_equal.
    rewrite <- (firstn_skipn 6 (skipn 8 ts20)) at 1. f_equal.
    rewrite skipn_skipn. change (6 + 8)%nat with 14%nat.
    symmetry. apply firstn_all2. rewrite length_skipn. lia.
  - rewrite !length_firstn, !length_skipn. lia.
Qed.

(** X5: the timestamp of every tick the loop writes is cut from the
    trimmed first field of a trade row of the file: the date is its first
    8 characters, the time the next 6, and the fraction its last 6
    followed by the character 0; the three parts are made of digits
    (in the sense of [str.isdigit]) and have 8, 6 and 7 characters. *)
Theorem X5_tick_timestamp_parts (rows : list row) (st : bbo) (c : counters) :
  Forall (fun t =>
            exists campos micros6,
              In campos rows
              /\ strip (field campos 0) = t_fecha t ++ t_hora t ++ micros6
              /\ t_frac7 t = micros6 ++ py "0"
              /\ List.length (t_fecha t) = 8%nat
              /\ List.length (t_hora t) = 6%nat
              /\ List.length (t_frac7 t) = 7%nat
              /\ isdigit (t_fecha t) = true /\ isdigit (t_hora t) = true
              /\ isdigit (t_frac7 t) = true)
         (snd (fst (run_rows rows st c))).
Proof.
  revert st c.
  induction rows as [|campos rest IH]; intros st c; cbn [run_rows]; [constructor|].
  destruct (loop_body campos st c) as [st1 [[c1 t]|e]] eqn:Eb; [|constructor].
  specialize (IH st1 c1).
  destruct (run_rows rest st1 c1) as [[st2 ts2] r]. cbn [fst snd] in *.
  apply Forall_app. split.
  - destruct t as [t|]; [|constructor]. constructor; [|constructor].
    apply loop_body_emits in Eb.
    destruct Eb as (ts & p & v & bid & ask & bo & ao & cb & ca
                    & Hp & _ & _ & _ & _ & _ & _ & _ & _ & Hts).
    apply parse_line_fields_Some in Hp.
    destruct Hp as (_ & Hts0 & H20 & Hd & _).
    destruct (ts20_to_nt_parts_parts ts H20) as (f & h & m & E & Hcat & Hf & Hh & Hm).
    rewrite E in Hts. injection Hts as -> -> ->.
    exists campos, m. split; [now left|]. split; [congruence|].
    split; [reflexivity|]. split; [exact Hf|]. split; [exact Hh|].
    split; [rewrite length_app, Hm; reflexivity|].
    assert (forallb isdigit_char ts = true) as Hall.
    { unfold isdigit in Hd. destruct ts; [discriminate|exact Hd]. }
    rewrite Hcat, !forallb_app in Hall.
    apply andb_true_iff in Hall as [Af Hall].
    apply andb_true_iff in Hall as [Ah Am].
    assert (forall s, (0 < List.length s)%nat ->
                      forallb isdigit_char s = true -> isdigit s = true) as Hdig.
    { intros s Hs Hall. destruct s; [cbn in Hs; lia|exact Hall]. }
    split; [apply Hdig; [lia|exact Af]|]. split; [apply Hdig; [lia|exact Ah]|].
    apply Hdig; [rewrite length_app; lia|].
    rewrite forallb_app, Am. by_compute.
  - eapply Forall_impl; [|exact IH]. cbv beta.
    intros t' (campos' & m & Hin & H). exists campos', m. split; [now right|exact H].
Qed.

(* ====================================================================== *)
(** * A NaN leaves the loop *)
(* ====================================================================== *)

Lemma loop_body_raises (campos : row) (st st' : bbo) (c : counters) (e : exn) :
  loop_body campos st c = (st', Raise e) <->
  e = InvalidOperation /\ nan_trade campos st
  /\ st' = apply_event (l1_event campos) st.
Proof.
  split.
  - intros H. pose proof (loop_body_state campos st c) as Hs.
    rewrite H in Hs. cbn [fst] in Hs. revert H. unfold loop_body, nan_trade.
    destruct (parse_line_fields campos) as [[[[[ts lv] ty] p] v]|]; [|discriminate].
    destruct (Z.eqb_spec lv 1) as [->|]; cbn [negb]; [|discriminate].
    destruct (ts20_to_nt_parts ts) as [[fecha hora] frac7].
    destruct (Z.eqb_spec ty TYPE_BID); [discriminate|].
    destruct (Z.eqb_spec ty TYPE_ASK); [discriminate|].
    destruct (Z.eqb_spec ty TYPE_LAST) as [->|]; [|discriminate].
    cbn [st_bid st_ask set_last].
    destruct (st_bid st) as [bid|]; [|discriminate].
    destruct (st_ask st) as [ask|]; [|discriminate].
    destruct (clamp_bbo_with_last p bid ask) as [[[[bo ao] cb] ca]|e'] eqn:Ec;
      [discriminate|].
    intros H. injection H as _ ->.
    apply clamp_bbo_with_last_raises in Ec as (-> & dl & db & da & Hl & Hb & Ha & Hn).
    split; [reflexivity|]. split; [|exact Hs].
    exists ts, p, v, bid, ask, dl, db, da. repeat split; auto.
  - intros (-> & (ts & p & v & bid & ask & dl & db & da
                  & Hp & Hb & Ha & Hdl & Hdb & Hda & Hn) & ->).
    assert (clamp_bbo_with_last p bid ask = Raise InvalidOperation) as Hc.
    { apply clamp_bbo_with_last_raises. split; [reflexivity|].
      exists dl, db, da. auto. }
    unfold loop_body, l1_event, apply_event. rewrite Hp.
    cbn [Z.eqb negb Pos.eqb TYPE_LAST TYPE_BID TYPE_ASK].
    destruct (ts20_to_nt_parts ts) as [[fecha hora] frac7].
    cbn [st_bid st_ask set_last]. rewrite Hb, Ha, Hc. reflexivity.
Qed.

(** X6: the loop over the rows leaves with an exception exactly when it
    meets a Level-1 trade, with bid and ask stored, whose price, bid and
    ask all parse as decimals and one of them is a NaN: the comparison
    of the clamp is outside its try block.  The exception is
    [InvalidOperation], the trade price is already stored as the last
    price, the ticks written before stay written and no later row is
    processed. *)
Theorem X6_nan_leaves_the_loop (rows : list row) (st st' : bbo) (c : counters)
    (ts : list tick) (e : exn) :
  run_rows rows st c = (st', ts, Raise e) <->
  exists before campos after st1 c1,
    rows = before ++ campos :: after
    /\ run_rows before st c = (st1, ts, Ok c1)
    /\ nan_trade campos st1
    /\ e = InvalidOperation
    /\ st' = apply_event (l1_event campos) st1.
Proof.
  revert st st' c ts.
  induction rows as [|campos rest IH]; intros st st' c ts; cbn [run_rows].
  - split; [discriminate|].
    intros (before & campos & after & _ & _ & H & _). now destruct before.
  - split.
    + destruct (loop_body campos st c) as [sa [[ca t]|e']] eqn:Eb.
      * destruct (run_rows rest sa ca) as [[sb tsb] r] eqn:Er.
        intros H. injection H as -> <- ->.
        apply IH in Er as (before & x & after & s1 & c1 & -> & Hrun & Hn & -> & ->).
        exists (campos :: before), x, after, s1, c1.
        split; [reflexivity|]. split; [|auto].
        cbn [run_rows]. rewrite Eb, Hrun. reflexivity.
      * intros H. injection H as -> <- ->.
        apply loop_body_raises in Eb as (-> & Hn & ->).
        exists [], campos, rest, st, c. cbn [run_rows app]. auto.
    + intros (before & x & after & s1 & c1 & Hrows & Hrun & Hn & -> & ->).
      destruct before as [|b before]; cbn [app] in Hrows; injection Hrows as -> ->.
      * cbn [run_rows] in Hrun. injection Hrun as <- <- <-.
        assert (loop_body x st c
                = (apply_event (l1_event x) st, Raise InvalidOperation)) as Hb
            by (apply loop_body_raises; auto).
        now rewrite Hb.
      * cbn [run_rows] in Hrun.
        destruct (loop_body b st c) as [sa [[ca t]|e']] eqn:Eb; [|discriminate].
        destruct (run_rows before sa ca) as [[sb tsb] r] eqn:Er.
        injection Hrun as -> <- ->.
        assert (run_rows (before ++ x :: after) sa ca
                = (apply_event (l1_event x) s1, tsb, Raise InvalidOperation)) as Hr.
        { apply IH. exists before, x, after, s1, c1. auto. }
        now rewrite Hr.
Qed.

Lemma X6_nan_leaves_the_loop_witness :
  let bid := [py "20240101093000123456"; py "1"; py "0"; py "5000.00"; py "10"] in
  let ask := [py "20240101093000123457"; py "1"; py "1"; py "5000.25"; py "10"] in
  let nan := [py "20240101093000123458"; py "1"; py "2"; py "NaN"; py "1"] in
  let trade := [py "20240101093000123459"; py "1"; py "2"; py "5000.00"; py "1"] in
  exists st',
    run_rows [bid; ask; nan; trade] empty_bbo zero_counters
    = (st', [], Raise InvalidOperation).
Proof.
  intros bid ask nan trade. eexists.
  apply (proj2 (X6_nan_leaves_the_loop [bid; ask; nan; trade] empty_bbo _
                  zero_counters [] InvalidOperation)).
  exists [bid; ask], nan, [trade]. do 2 eexists.
  split; [reflexivity|]. split; [by_compute|]. split; [|split; reflexivity].
  unfold nan_trade. do 8 eexists.
  split; [by_compute|]. split; [by_compute|]. split; [by_compute|].
  split; [by_compute|]. split; [by_compute|]. split; [by_compute|]. by_compute.
Defined.

(* ====================================================================== *)
(** * The front contract along the calendar *)
(* ====================================================================== *)

Section FrontContract.

Import PyDate.

Lemma ltb_same_year (y m1 d1 m2 d2 : Z) :
  ltb (Date y m1 d1) (Date y m2 d2) = true <-> m1 < m2 \/ (m1 = m2 /\ d1 < d2).
Proof.
  unfold ltb. cbn [year month day]. rewrite Z.ltb_irrefl, Z.eqb_refl. cbn [orb andb].
  destruct (Z.ltb_spec m1 m2); destruct (Z.eqb_spec m1 m2);
    destruct (Z.ltb_spec d1 d2); cbn; split; intros Hx; try discriminate;
    try reflexivity; lia.
Qed.

(** The front contract of a day of a year from 1 to 9999, whatever the
    month and day fields hold: the four roll days are the days
    [k3 + 7] .. [k12 + 7] of their months. *)
Lemma front_contract_for_date_days (y : Z) :
  1 <= y <= 9999 ->
  exists k3 k6 k9 k12,
    (1 <= k3 <= 7 /\ 1 <= k6 <= 7 /\ 1 <= k9 <= 7 /\ 1 <= k12 <= 7)
    /\ second_friday y 12 = Ok (Date y 12 (k12 + 7))
    /\ forall m d,
        front_contract_for_date (Date y m d) =
        Ok (if ltb (Date y m d) (Date y 3 (k3 + 7)) then (3, y)
            else if ltb (Date y m d) (Date y 6 (k6 + 7)) then (6, y)
            else if ltb (Date y m d) (Date y 9 (k9 + 7)) then (9, y)
            else if ltb (Date y m d) (Date y 12 (k12 + 7)) then (12, y)
            else (3, y + 1)).
Proof.
  intros Hy.
  destruct (second_friday_roll y 3 Hy) as (k3 & K3 & S3 & _);
    [unfold roll_month; auto|].
  destruct (second_friday_roll y 6 Hy) as (k6 & K6 & S6 & _);
    [unfold roll_month; auto|].
  destruct (second_friday_roll y 9 Hy) as (k9 & K9 & S9 & _);
    [unfold roll_month; auto|].
  destruct (second_friday_roll y 12 Hy) as (k12 & K12 & S12 & _);
    [unfold roll_month; auto|].
  exists k3, k6, k9, k12. split; [auto|]. split; [exact S12|].
  intros m d.
  exact (front_contract_for_date_rolls (Date y m d) _ _ _ _ S3 S6 S9 S12).
Qed.

(** The month index of the front contract of a day, by cases on the
    month of the day. *)
Lemma front_contract_for_date_index (y m d : Z) :
  1 <= y <= 9999 -> 1 <= m <= 12 ->
  exists c,
    front_contract_for_date (Date y m d) = Ok c
    /\ roll_month (fst c)
    /\ 0 <= month_index c - (12 * y + m) <= 3
    /\ (snd c = y \/ (snd c = y + 1 /\ fst c = 3 /\ m = 12 /\ 8 <= d))
    /\ exists r_dec,
        second_friday y 12 = Ok r_dec
        /\ (ltb (Date y m d) r_dec = true -> snd c = y)
        /\ (ltb (Date y m d) r_dec = false -> c = (3, y + 1)).
Proof.
  intros Hy Hm.
  destruct (front_contract_for_date_days y Hy)
    as (k3 & k6 & k9 & k12 & (K3 & K6 & K9 & K12) & S12 & H).
  rewrite H. eexists. split; [reflexivity|].
  cut (forall b, ltb (Date y m d) (Date y 12 (k12 + 7)) = b ->
         let c := (if ltb (Date y m d) (Date y 3 (k3 + 7)) then (3, y)
                   else if ltb (Date y m d) (Date y 6 (k6 + 7)) then (6, y)
                   else if ltb (Date y m d) (Date y 9 (k9 + 7)) then (9, y)
                   else if b then (12, y) else (3, y + 1)) in
         roll_month (fst c)
         /\ 0 <= month_index c - (12 * y + m) <= 3
         /\ (snd c = y \/ (snd c = y + 1 /\ fst c = 3 /\ m = 12 /\ 8 <= d))
         /\ (b = true -> snd c = y) /\ (b = false -> c = (3, y + 1))).
  { intros Hcut. specialize (Hcut _ eq_refl). cbv zeta in Hcut.
    destruct Hcut as (C1 & C2 & C3 & C4 & C5).
    split; [exact C1|]. split; [exact C2|]. split; [exact C3|].
    exists (Date y 12 (k12 + 7)). split; [exact S12|]. split; [exact C4|exact C5]. }
  intros b E12. cbv zeta.
  unfold roll_month, month_index.
  destruct (ltb (Date y m d) (Date y 3 (k3 + 7))) eqn:E3.
  { apply ltb_same_year in E3. cbn [fst snd].
    split; [lia|]. split; [lia|]. split; [lia|]. split; [auto|].
    intros ->. exfalso.
    assert (~ (m < 12 \/ (m = 12 /\ d < k12 + 7))) as N12
        by (intros Hc; apply (proj2 (ltb_same_year y _ _ _ _)) in Hc; congruence).
    lia. }
  destruct (ltb (Date y m d) (Date y 6 (k6 + 7))) eqn:E6.
  { apply ltb_same_year in E6. cbn [fst snd].
    assert (~ (m < 3 \/ (m = 3 /\ d < k3 + 7))) as N3
        by (intros Hc; apply (proj2 (ltb_same_year y _ _ _ _)) in Hc; congruence).
    split; [lia|]. split; [lia|]. split; [lia|]. split; [auto|].
    intros ->. exfalso.
    assert (~ (m < 12 \/ (m = 12 /\ d < k12 + 7))) as N12
        by (intros Hc; apply (proj2 (ltb_same_year y _ _ _ _)) in Hc; congruence).
    lia. }
  destruct (ltb (Date y m d) (Date y 9 (k9 + 7))) eqn:E9.
  { apply ltb_same_year in E9. cbn [fst snd].
    assert (~ (m < 6 \/ (m = 6 /\ d < k6 + 7))) as N6
        by (intros Hc; apply (proj2 (ltb_same_year y _ _ _ _)) in Hc; congruence).
    split; [lia|]. split; [lia|]. split; [lia|]. split; [auto|].
    intros ->. exfalso.
    assert (~ (m < 12 \/ (m = 12 /\ d < k12 + 7))) as N12
        by (intros Hc; apply (proj2 (ltb_same_year y _ _ _ _)) in Hc; congruence).
    lia. }
  assert (~ (m < 9 \/ (m = 9 /\ d < k9 + 7))) as N9
      by (intros Hc; apply (proj2 (ltb_same_year y _ _ _ _)) in Hc; congruence).
  destruct b.
  { apply ltb_same_year in E12. cbn [fst snd].
    split; [lia|]. split; [lia|]. split; [lia|]. split; [auto|discriminate]. }
  assert (~ (m < 12 \/ (m = 12 /\ d < k12 + 7))) as N12
      by (intros Hc; apply (proj2 (ltb_same_year y _ _ _ _)) in Hc; congruence).
  cbn [fst snd]. split; [lia|]. split; [lia|]. split; [lia|].
  split; [discriminate|reflexivity].
Qed.


Lemma valid_date_fields (d : date) :
  valid_date d -> 1 <= year d <= 9999 /\ 1 <= month d <= 12 /\ 1 <= day d <= 31.
Proof.
  unfold valid_date, valid_ymd, MINYEAR, MAXYEAR, _days_in_month.
  intros H. repeat (apply andb_prop in H as [H ?]).
  repeat match goal with
         | H : (_ <=? _) = true |- _ => apply Z.leb_le in H
         end.
  assert (1 <= month d <= 12) as Hm by lia.
  split; [lia|]. split; [lia|]. split; [lia|].
  destruct ((month d =? 2) && _is_leap (year d)); [lia|].
  assert (_DAYS_IN_MONTH (month d) <= 31); [|lia].
  assert (month d = 1 \/ month d = 2 \/ month d = 3 \/ month d = 4 \/ month d = 5
          \/ month d = 6 \/ month d = 7 \/ month d = 8 \/ month d = 9
          \/ month d = 10 \/ month d = 11 \/ month d = 12) as Hc by lia.
  repeat (destruct Hc as [->|Hc]; [cbv; discriminate|]). rewrite Hc. cbv; discriminate.
Qed.

End FrontContract.

(** X7: for every valid date the front contract exists, its month is
    March, June, September or December, and it is never behind the date
    and at most three months ahead of it, counting in months.  Before
    the roll day of December its year is the year of the date; from the
    roll day of December on it is March of the next year (year 10000
    for a date of December 9999: the pair is two integers, not a
    date). *)
Theorem X7_front_contract_is_near (d : PyDate.date) :
  PyDate.valid_date d ->
  exists c_month c_year r_dec,
    front_contract_for_date d = Ok (c_month, c_year)
    /\ roll_month c_month
    /\ 0 <= month_index (c_month, c_year)
            - month_index (PyDate.month d, PyDate.year d) <= 3
    /\ second_friday (PyDate.year d) 12 = Ok r_dec
    /\ (PyDate.ltb d r_dec = true -> c_year = PyDate.year d)
    /\ (PyDate.ltb d r_dec = false ->
        c_month = 3 /\ c_year = PyDate.year d + 1).
Proof.
  intros Hv. destruct (valid_date_fields d Hv) as (Hy & Hm & Hd).
  destruct d as [y m dd]. cbn [PyDate.year PyDate.month PyDate.day] in *.
  destruct (front_contract_for_date_index y m dd Hy Hm)
    as ([cm cy] & E & R & I & _ & r_dec & S12 & Hbefore & Hafter).
  exists cm, cy, r_dec. split; [exact E|]. split; [exact R|].
  unfold month_index in *. cbn [fst snd] in *. split; [lia|].
  split; [exact S12|]. split; [exact Hbefore|].
  intros Hge. specialize (Hafter Hge). injection Hafter as -> ->. auto.
Qed.

Lemma X7_front_contract_is_near_witness :
  exists c_month c_year r_dec,
    front_contract_for_date (PyDate.Date 9999 12 31) = Ok (c_month, c_year)
    /\ roll_month c_month
    /\ 0 <= month_index (c_month, c_year) - month_index (12, 9999) <= 3
    /\ second_friday 9999 12 = Ok r_dec
    /\ (PyDate.ltb (PyDate.Date 9999 12 31) r_dec = true -> c_year = 9999)
    /\ (PyDate.ltb (PyDate.Date 9999 12 31) r_dec = false ->
        c_month = 3 /\ c_year = 9999 + 1).
Proof.
  exact (X7_front_contract_is_near (PyDate.Date 9999 12 31) eq_refl).
Defined.

(** X8: the front contract never goes back: of two valid dates, the
    later one has the same or a later contract. *)
Theorem X8_front_contract_monotone (d1 d2 : PyDate.date) :
  PyDate.valid_date d1 -> PyDate.valid_date d2 -> date_le d1 d2 ->
  exists c1 c2,
    front_contract_for_date d1 = Ok c1
    /\ front_contract_for_date d2 = Ok c2
    /\ month_index c1 <= month_index c2.
Proof.
  intros V1 V2 Hle.
  destruct (valid_date_fields d1 V1) as (Hy1 & Hm1 & Hd1).
  destruct (valid_date_fields d2 V2) as (Hy2 & Hm2 & Hd2).
  destruct d1 as [y1 m1 dd1], d2 as [y2 m2 dd2].
  cbn [PyDate.year PyDate.month PyDate.day] in *.
  unfold date_le, PyDate.ltb in Hle. cbn [PyDate.year PyDate.month PyDate.day] in Hle.
  destruct (Z.eq_dec y1 y2) as [->|Hne].
  - destruct (front_contract_for_date_days y2 Hy2)
      as (k3 & k6 & k9 & k12 & (K3 & K6 & K9 & K12) & S12 & H).
    rewrite !H. do 2 eexists. split; [reflexivity|]. split; [reflexivity|].
    assert (m1 < m2 \/ (m1 = m2 /\ dd1 <= dd2)) as Hord.
    { rewrite Z.ltb_irrefl, Z.eqb_refl in Hle. cbn [orb andb] in Hle.
      destruct (Z.ltb_spec m2 m1); [discriminate|].
      destruct (Z.eqb_spec m2 m1); [|lia].
      destruct (Z.ltb_spec dd2 dd1); [discriminate|]. lia. }
    clear Hle H. unfold month_index.
    repeat match goal with
           | |- context [PyDate.ltb (PyDate.Date ?y ?a ?b) (PyDate.Date ?y ?c ?e)] =>
               let E := fresh "E" in
               destruct (PyDate.ltb (PyDate.Date y a b) (PyDate.Date y c e)) eqn:E;
               [apply ltb_same_year in E
               |assert (~ (a < c \/ (a = c /\ b < e)))
                  by (intros Hc; apply (proj2 (ltb_same_year y _ _ _ _)) in Hc; congruence); clear E]
           end; cbn [fst snd]; lia.
  - assert (y1 < y2) as Hlt.
    { destruct (Z.ltb_spec y2 y1); [discriminate|]. lia. }
    destruct (front_contract_for_date_index y1 m1 dd1 Hy1 Hm1) as (c1 & E1 & _ & I1 & _ & _).
    destruct (front_contract_for_date_index y2 m2 dd2 Hy2 Hm2) as (c2 & E2 & R2 & I2 & _ & _).
    exists c1, c2. split; [exact E1|]. split; [exact E2|].
    unfold month_index, roll_month in *. lia.
Qed.

Lemma X8_front_contract_monotone_witness :
  exists c1 c2,
    front_contract_for_date (PyDate.Date 2024 3 7) = Ok c1
    /\ front_contract_for_date (PyDate.Date 2024 3 8) = Ok c2
    /\ month_index c1 <= month_index c2.
Proof.
  exact (X8_front_contract_monotone (PyDate.Date 2024 3 7) (PyDate.Date 2024 3 8)
           eq_refl eq_refl eq_refl).
Defined.

(* ====================================================================== *)
(** * The name of a contract's file *)
(* ====================================================================== *)

Lemma str_eqb_eq (a b : pystr) : str_eqb a b = true <-> a = b.
Proof.
  revert b. induction a as [|x a IH]; intros [|y b]; cbn [str_eqb];
    try (split; [discriminate|discriminate]); [split; reflexivity|].
  unfold char_eqb. rewrite andb_true_iff, N.eqb_eq, IH.
  split; [intros [-> ->]; reflexivity|intros H; injection H; auto].
Qed.

Lemma app_same_length {A : Type} (a b x y : list A) :
  List.length a = List.length b -> a ++ x = b ++ y -> a = b /\ x = y.
Proof.
  revert b. induction a as [|u a IH]; intros [|v b]; cbn [List.length app];
    try discriminate; [auto|].
  intros Hl H. injection Hl as Hl. injection H as -> H.
  destruct (IH b Hl H) as [-> ->]. auto.
Qed.

Lemma format_02d_two_digits (n : Z) : 0 <= n <= 99 -> format_02d n = two_digits n.
Proof.
  intros H. apply str_eqb_eq. fold (check_two_digits n).
  assert (all_upto 100 (fun k => check_two_digits (k - 1)) = true) as Hall
      by by_compute.
  replace n with ((n + 1) - 1) by lia.
  apply (all_upto_spec _ _ Hall (n + 1)). lia.
Qed.

Lemma two_digits_inj (a b : Z) :
  0 <= a <= 99 -> 0 <= b <= 99 -> two_digits a = two_digits b -> a = b.
Proof.
  unfold two_digits. intros Ha Hb H.
  pose proof (f_equal (fun l => nth 0 l 0%N) H) as H1.
  pose proof (f_equal (fun l => nth 1 l 0%N) H) as H2.
  cbv beta in H1, H2. cbn [nth] in H1, H2.
  assert (0 <= a / 10 /\ 0 <= b / 10) as [? ?]
      by (split; apply Z.div_pos; lia).
  pose proof (Z.mod_pos_bound a 10). pose proof (Z.mod_pos_bound b 10).
  apply Z2N.inj in H1; [|lia|lia]. apply Z2N.inj in H2; [|lia|lia].
  pose proof (Z.div_mod a 10). pose proof (Z.div_mod b 10). lia.
Qed.

Lemma label_two_digits (ck : ContractKey) :
  0 <= month ck <= 99 ->
  label ck = two_digits (month ck) ++ py "-" ++ two_digits (year ck mod 100).
Proof.
  intros Hm. unfold label.
  rewrite (format_02d_two_digits (month ck)) by exact Hm.
  rewrite (format_02d_two_digits (year ck mod 100))
    by (pose proof (Z.mod_pos_bound (year ck) 100); lia).
  reflexivity.
Qed.

(** X9: for a contract month from 0 to 99, so for every month the
    program computes, the label is five characters, two digits of the
    month, a hyphen and the last two digits of the year, and the file
    name is the symbol, a space, the label and [.Last.txt].  Two
    contracts have the same file name exactly when they have the same
    symbol, the same month and years that differ by a multiple of 100:
    the dict of handles tells such contracts apart, the file does not. *)
Theorem X9_outfile_name_identifies_contract (a b : ContractKey) :
  0 <= month a <= 99 -> 0 <= month b <= 99 ->
  List.length (label a) = 5%nat
  /\ outfile_name a
     = symbol a ++ py " " ++ two_digits (month a) ++ py "-"
       ++ two_digits (year a mod 100) ++ py ".Last.txt"
  /\ (outfile_name a = outfile_name b <->
      symbol a = symbol b /\ month a = month b
      /\ year a mod 100 = year b mod 100).
Proof.
  intros Ha Hb.
  pose proof (label_two_digits a Ha) as La.
  pose proof (label_two_digits b Hb) as Lb.
  split; [rewrite La; reflexivity|].
  split; [unfold outfile_name; rewrite La; now rewrite <- !app_assoc|].
  unfold outfile_name. rewrite La, Lb. split.
  - intros H.
    assert (List.length (symbol a) = List.length (symbol b)) as Hlen.
    { apply (f_equal (@List.length _)) in H. rewrite !length_app in H.
      cbn [List.length two_digits] in H. lia. }
    apply app_same_length in H as [Hs H]; [|exact Hlen].
    split; [exact Hs|].
    pose proof (f_equal (fun l => firstn 2 (skipn 1 l)) H) as M.
    pose proof (f_equal (fun l => firstn 2 (skipn 4 l)) H) as Y.
    change (py " ") with [32%N] in M, Y. change (py "-") with [45%N] in M, Y.
    unfold two_digits in M, Y. cbv beta in M, Y. cbn [app firstn skipn] in M, Y.
    pose proof (Z.mod_pos_bound (year a) 100).
    pose proof (Z.mod_pos_bound (year b) 100).
    split; apply two_digits_inj; try lia; assumption.
  - intros (-> & -> & ->). reflexivity.
Qed.

Lemma X9_outfile_name_identifies_contract_witness :
  outfile_name {| symbol := py "ES"; month := 3; year := 2024 |}
  = outfile_name {| symbol := py "ES"; month := 3; year := 2124 |}.
Proof.
  apply (X9_outfile_name_identifies_contract
           {| symbol := py "ES"; month := 3; year := 2024 |}
           {| symbol := py "ES"; month := 3; year := 2124 |}).
  - cbn; lia.
  - cbn; lia.
  - split; [reflexivity|]. split; reflexivity.
Defined.

(* ====================================================================== *)
(** * Where a contract's file is *)
(* ====================================================================== *)

Lemma split_on_no_sep (s : pystr) :
  no_slash s = true -> split_on 47%N s = [s].
Proof.
  unfold split_on, no_slash. intros H.
  assert (fold_right (fun c '(cur, acc) =>
                        if (c =? 47)%N then ([], cur :: acc) else (c :: cur, acc))
                     ([], []) s = (s, [])) as ->; [|reflexivity].
  induction s as [|c s IH]; cbn [fold_right forallb] in *; [reflexivity|].
  apply andb_prop in H as [Hc Hs]. rewrite (IH Hs).
  destruct (c =? 47)%N; [discriminate|reflexivity].
Qed.

Lemma uint_to_str_no_slash (u : Decimal.uint) : no_slash (uint_to_str u) = true.
Proof. unfold no_slash. induction u; cbn [uint_to_str forallb]; auto. Qed.

Lemma no_slash_app (a b : pystr) : no_slash (a ++ b) = no_slash a && no_slash b.
Proof. apply forallb_app. Qed.

Lemma format_02d_no_slash (n : Z) : no_slash (format_02d n) = true.
Proof.
  unfold format_02d, zfill.
  assert (forall k, no_slash (repeat 48%N k) = true) as Hrep.
  { induction k; cbn; auto. }
  destruct (n <? 0).
  - change (no_slash ([45%N] ++ repeat 48%N (1 - List.length
             (uint_to_str (N.to_uint (Z.abs_N n))))
             ++ uint_to_str (N.to_uint (Z.abs_N n))) = true).
    now rewrite !no_slash_app, Hrep, uint_to_str_no_slash.
  - now rewrite no_slash_app, Hrep, uint_to_str_no_slash.
Qed.

Lemma outfile_name_no_slash (ck : ContractKey) :
  no_slash (symbol ck) = true -> no_slash (outfile_name ck) = true.
Proof.
  intros H. unfold outfile_name, label.
  rewrite !no_slash_app, H, !format_02d_no_slash. reflexivity.
Qed.

Lemma joinpath_name (p : path) (s : pystr) :
  no_slash s = true -> (2 <= List.length s)%nat ->
  joinpath p s = {| anchored := anchored p; parts := parts p ++ [s] |}.
Proof.
  intros Hs Hl. unfold joinpath. rewrite (split_on_no_sep s Hs). cbn [filter].
  assert (is_nil s || str_eqb s (py ".") = false) as ->.
  { destruct s as [|a [|b s]]; cbn in Hl; try lia.
    cbn. now rewrite andb_false_r. }
  cbn [negb]. destruct s as [|c s]; [reflexivity|].
  unfold no_slash in Hs. cbn [forallb] in Hs. apply andb_prop in Hs as [Hc _].
  destruct (N.eqb_spec c 47) as [->|Hne]; [discriminate|].
  destruct c as [|c]; [reflexivity|].
  repeat (destruct c as [c|c|]; try reflexivity). now contradiction Hne.
Qed.

Lemma folder_symbol_no_slash (dirname sym : pystr) :
  Regex.re_match _RE_FOLDER dirname = Some sym -> no_slash sym = true.
Proof.
  intros H. apply re_match__RE_FOLDER in H.
  destruct H as (t & d6 & nl & _ & _ & Hall & _).
  unfold no_slash. rewrite forallb_forall in *. intros c Hc.
  specialize (Hall c Hc). destruct (N.eqb_spec c 47) as [->|]; [discriminate|reflexivity].
Qed.

(** X10: the file of a contract whose symbol holds no slash is the
    entry named by the contract directly inside the output directory.
    A symbol inferred from the folder names never holds a slash, so
    without an override every output file is there; an override that
    starts with a slash makes the output directory irrelevant. *)
Theorem X10_outfile_inside_out_dir (ck : ContractKey) (out_dir : path) :
  (no_slash (symbol ck) = true ->
   outfile ck out_dir
   = {| anchored := anchored out_dir; parts := parts out_dir ++ [outfile_name ck] |}
   /\ parent (outfile ck out_dir) = out_dir
   /\ name (outfile ck out_dir) = outfile_name ck)
  /\ (forall csv_path,
         infer_symbol_from_path csv_path None = Ok (symbol ck) ->
         no_slash (symbol ck) = true)
  /\ (forall s other,
         symbol ck = 47%N :: s -> outfile ck out_dir = outfile ck other).
Proof.
  split; [|split].
  - intros Hs. unfold outfile.
    rewrite (joinpath_name out_dir (outfile_name ck)).
    + split; [reflexivity|]. unfold parent, name. cbn [anchored parts].
      rewrite removelast_last, last_last. now destruct out_dir.
    + now apply outfile_name_no_slash.
    + unfold outfile_name. rewrite !length_app. cbn [List.length py]. cbn. lia.
  - intros csv_path. unfold infer_symbol_from_path.
    destruct (Regex.re_match _RE_FOLDER (name (parent csv_path))) as [g|] eqn:E1.
    + intros H. injection H as <-. exact (folder_symbol_no_slash _ _ E1).
    + destruct (Regex.re_match _RE_FOLDER (name (parent (parent csv_path))))
        as [g|] eqn:E2; [|discriminate].
      intros H. injection H as <-. exact (folder_symbol_no_slash _ _ E2).
  - intros s other Hs. unfold outfile, joinpath, outfile_name. rewrite Hs.
    reflexivity.
Qed.

Lemma X10_outfile_inside_out_dir_witness :
  outfile {| symbol := py "ES"; month := 3; year := 2024 |}
          {| anchored := true; parts := [py "out"] |}
  = {| anchored := true; parts := [py "out"; py "ES 03-24.Last.txt"] |}.
Proof.
  destruct (proj1 (X10_outfile_inside_out_dir
                     {| symbol := py "ES"; month := 3; year := 2024 |}
                     {| anchored := true; parts := [py "out"] |}) eq_refl)
    as (H & _).
  rewrite H. by_compute.
Defined.

(* ====================================================================== *)
(** * The dicts of the writers *)
(* ====================================================================== *)

Lemma ContractKey_eqb_eq (a b : ContractKey) : ContractKey_eqb a b = true <-> a = b.
Proof.
  unfold ContractKey_eqb. rewrite !andb_true_iff, str_eqb_eq, !Z.eqb_eq.
  destruct a as [sa ma ya], b as [sb mb yb]; cbn [symbol month year].
  split; [intros [[-> ->] ->]; reflexivity|intros H; injection H; auto].
Qed.

Lemma ContractKey_eqb_refl (a : ContractKey) : ContractKey_eqb a a = true.
Proof. now apply ContractKey_eqb_eq. Qed.

Lemma ContractKey_eqb_neq (a b : ContractKey) : a <> b -> ContractKey_eqb a b = false.
Proof.
  intros H. destruct (ContractKey_eqb a b) eqn:E; [|reflexivity].
  now apply ContractKey_eqb_eq in E.
Qed.

Lemma lookup_store {V : Type} (ck : ContractKey) (v : V) (d : list (ContractKey * V)) :
  lookup ck (store ck v d) = Some v.
Proof.
  induction d as [|[k v'] d IH]; cbn [store lookup].
  - now rewrite ContractKey_eqb_refl.
  - destruct (ContractKey_eqb ck k) eqn:E; cbn [lookup]; rewrite E; auto.
Qed.

Lemma lookup_store_other {V : Type} (ck ck' : ContractKey) (v : V)
    (d : list (ContractKey * V)) :
  ck' <> ck -> lookup ck' (store ck v d) = lookup ck' d.
Proof.
  intros Hne. induction d as [|[k v'] d IH]; cbn [store lookup].
  - now rewrite (ContractKey_eqb_neq _ _ Hne).
  - destruct (ContractKey_eqb ck k) eqn:E; cbn [lookup].
    + apply ContractKey_eqb_eq in E. subst k.
      now rewrite (ContractKey_eqb_neq _ _ Hne).
    + now rewrite IH.
Qed.

Lemma key_mem_lookup {V : Type} (ck : ContractKey) (d : list (ContractKey * V)) :
  key_mem ck (map fst d) = match lookup ck d with Some _ => true | None => false end.
Proof.
  unfold key_mem. induction d as [|[k v] d IH]; cbn [map existsb lookup fst];
    [reflexivity|].
  destruct (ContractKey_eqb ck k); [reflexivity|exact IH].
Qed.

Lemma key_mem_In (ck : ContractKey) (l : list ContractKey) :
  key_mem ck l = true <-> In ck l.
Proof.
  unfold key_mem. rewrite existsb_exists. split.
  - intros (k & Hin & E). apply ContractKey_eqb_eq in E. now subst.
  - intros H. exists ck. split; [exact H|apply ContractKey_eqb_refl].
Qed.

Lemma key_remove_absent (ck : ContractKey) (l : list ContractKey) :
  ~ In ck l -> key_remove ck l = l.
Proof.
  unfold key_remove. induction l as [|k l IH]; cbn [filter]; [reflexivity|].
  intros H. rewrite ContractKey_eqb_neq by (intros ->; apply H; now left).
  cbn [negb]. rewrite IH; [reflexivity|]. intros Hin. apply H. now right.
Qed.

(* ====================================================================== *)
(** * The discipline of the contract files *)
(* ====================================================================== *)

Lemma handle_protocol_app (a b : list event) :
  forall open,
    handle_protocol open (a ++ b)
    = match handle_protocol open a with
      | Some open' => handle_protocol open' b
      | None => None
      end.
Proof.
  induction a as [|ev a IH]; intros open; cbn [app handle_protocol]; [reflexivity|].
  destruct ev; try apply IH; destruct (key_mem ck open); auto.
Qed.

Lemma handle_protocol_writes (ck : ContractKey) (ts : list tick)
    (open : list ContractKey) :
  key_mem ck open = true -> handle_protocol open (writes_of ck ts) = Some open.
Proof.
  intros H. induction ts as [|t ts IH]; cbn [writes_of map handle_protocol];
    [reflexivity|].
  rewrite H. exact IH.
Qed.

Lemma handle_protocol_release (keys : list ContractKey) :
  NoDup keys -> handle_protocol keys (release_all keys) = Some [].
Proof.
  unfold release_all. induction 1 as [|k keys Hk Hnd IH];
    cbn [flat_map app handle_protocol]; [reflexivity|].
  assert (key_mem k (k :: keys) = true) as -> by (apply key_mem_In; now left).
  unfold key_remove. cbn [filter]. rewrite ContractKey_eqb_refl. cbn [negb].
  fold (key_remove k keys). rewrite (key_remove_absent _ _ Hk). exact IH.
Qed.

Lemma get_writer_disciplined (env : Env) (ck : ContractKey) (out_dir : path)
    (w w' : world) (r : res path) :
  get_writer env ck out_dir w = (w', r) -> disciplined w ->
  disciplined w'
  /\ state (writers w') = state (writers w)
  /\ (forall fp, r = Ok fp -> key_mem ck (map fst (handles (writers w'))) = true).
Proof.
  unfold get_writer. intros H [Hp Hn].
  pose proof (key_mem_lookup ck (handles (writers w))) as Hmem.
  destruct (lookup ck (handles (writers w))) as [fp|] eqn:El.
  - injection H as <- <-. split; [split; assumption|]. split; [reflexivity|].
    intros _ _. exact Hmem.
  - destruct (open_append env (outfile ck out_dir)) as [e|].
    + injection H as <- <-. split; [split; assumption|]. split; [reflexivity|].
      intros fp Hfp. discriminate.
    + injection H as <- <-. unfold disciplined. cbn [writers handles state trace].
      rewrite (store_absent _ _ _ El), map_app. cbn [map fst].
      split; [split|split; [reflexivity|]].
      * rewrite handle_protocol_app, Hp. cbn [handle_protocol]. now rewrite Hmem.
      * apply NoDup_app; [exact Hn|repeat constructor; intros []|].
        intros k Hin [<-|[]]. apply key_mem_In in Hin. congruence.
      * intros _ _. apply key_mem_In, in_or_app. right. now left.
Qed.

Lemma export_disciplined (env : Env) (csv_path out_dir : path)
    (forced_symbol : option pystr) (w w' : world) (r : res counters) :
  export_csv_day_to_contract_last_allformat env csv_path out_dir forced_symbol w
  = (w', r) ->
  disciplined w -> disciplined w'.
Proof.
  rewrite export_eq.
  destruct (infer_symbol_from_path csv_path forced_symbol) as [symbol|e];
    [|intros H; now injection H as <- <-].
  destruct (infer_trade_date_from_filename csv_path) as [d|e];
    [|intros H; now injection H as <- <-].
  destruct (front_contract_for_date d) as [[c_month c_year]|e];
    [|intros H; now injection H as <- <-].
  cbv zeta.
  set (ck := {| symbol := symbol; month := c_month; year := c_year |}).
  destruct (get_writer env ck out_dir w) as [w1 [fp|e]] eqn:Ew.
  2:{ intros H. injection H as <- <-. intros Hd.
      exact (proj1 (get_writer_disciplined _ _ _ _ _ _ Ew Hd)). }
  intros H Hd.
  destruct (get_writer_disciplined _ _ _ _ _ _ Ew Hd) as ([Hp Hn] & _ & Hopen).
  specialize (Hopen fp eq_refl).
  revert H. rewrite get_state_eq.
  destruct (lookup ck (state (writers w1))) as [st|];
    (destruct (open_read env csv_path) as [fin|e];
     [|intros H; injection H as <- <-; split; assumption]);
    match goal with
    | |- context [run_rows ?rows ?st0 zero_counters] =>
        destruct (snd (run_rows rows st0 zero_counters)) as [c|e]
    end;
    try destruct (snd (iter_csv_lineas fin)) as [e|];
    intros H; injection H as <- <-;
    unfold disciplined, add_events, with_state; cbn [writers handles trace];
    (split; [|exact Hn]);
    rewrite !handle_protocol_app, Hp, handle_protocol_writes by exact Hopen;
    reflexivity.
Qed.

Lemma main_loop_disciplined (env : Env) (out_dir : path) (forced_symbol : option pystr)
    (csv_paths : list path) :
  forall (t t' : totals) (w w' : world),
    main_loop env csv_paths out_dir forced_symbol t w = (w', t') ->
    disciplined w -> disciplined w'.
Proof.
  induction csv_paths as [|p rest IH]; intros t t' w w'; cbn [main_loop].
  - intros H. now injection H as <- <-.
  - destruct (export_csv_day_to_contract_last_allformat env p out_dir forced_symbol w)
      as [w1 [c|e]] eqn:Ee; intros H Hd;
      pose proof (export_disciplined _ _ _ _ _ _ _ Ee Hd) as Hd1.
    + exact (IH _ _ _ _ H Hd1).
    + apply (IH _ _ _ _ H). destruct Hd1 as [Hp Hn].
      unfold disciplined. cbn [writers trace]. split; [|exact Hn].
      now rewrite handle_protocol_app, Hp.
Qed.

(** X11: along every run, whatever the day files hold and whatever the
    file system answers, the contract files are used with discipline: a
    file is opened only while the run does not hold it open, so at most
    once; every line is written to a file that is open; every file is
    flushed and closed while open; and when the run ends no file is left
    open. *)
Theorem X11_contract_files_discipline (env : Env) (csv_paths : list path)
    (out_dir : path) (forced_symbol : option pystr) :
  handle_protocol [] (trace (main env csv_paths out_dir forced_symbol)) = Some []
  /\ NoDup (opened (trace (main env csv_paths out_dir forced_symbol))).
Proof.
  unfold main. destruct csv_paths as [|p rest]; [split; [reflexivity|constructor]|].
  destruct (main_loop env (p :: rest) out_dir forced_symbol zero_totals
              {| writers := new_ContractWriters; trace := [] |}) as [w t] eqn:El.
  pose proof (main_loop_step _ _ _ _ _ _ _ _ El) as (evs & (T & Hinv & _) & _).
  assert (handles_opened w) as Ho by (apply Hinv; reflexivity).
  apply main_loop_disciplined in El as [Hp Hn]; [|split; [reflexivity|constructor]].
  unfold close. cbn [trace writers]. rewrite release_all_handles. split.
  - rewrite !handle_protocol_app, Hp, (handle_protocol_release _ Hn). reflexivity.
  - rewrite !opened_app. unfold handles_opened in Ho. rewrite <- Ho.
    assert (forall ks, opened (release_all ks) = []) as ->.
    { induction ks; cbn; auto. }
    change (opened [EvSummary t]) with (@nil ContractKey).
    rewrite !app_nil_r. exact Hn.
Qed.

(* ====================================================================== *)
(** * The state of a contract from one file to the next *)
(* ====================================================================== *)

Lemma contract_of_export (env : Env) (csv_path out_dir : path)
    (forced_symbol : option pystr) (w : world) :
  export_csv_day_to_contract_last_allformat env csv_path out_dir forced_symbol w =
  match contract_of csv_path forced_symbol with
  | Raise e => (w, Raise e)
  | Ok ck =>
  match get_writer env ck out_dir w with
  | (w1, Raise e) => (w1, Raise e)
  | (w1, Ok _) =>
  match open_read env csv_path with
  | Raise e => (with_state ck (state_of ck w) w1, Raise e)
  | Ok fin =>
      let rr := run_rows (fst (iter_csv_lineas fin)) (state_of ck w) zero_counters in
      let w3 := add_events (writes_of ck (snd (fst rr)))
                           (with_state ck (fst (fst rr)) w1) in
      match snd rr with
      | Raise e => (w3, Raise e)
      | Ok c =>
          match snd (iter_csv_lineas fin) with
          | Some e => (w3, Raise e)
          | None => (add_events [EvOk csv_path ck c] w3, Ok c)
          end
      end
  end end end.
Proof.
  rewrite export_eq. unfold contract_of.
  destruct (infer_symbol_from_path csv_path forced_symbol) as [symbol|e];
    cbn [rbind]; [|reflexivity].
  destruct (infer_trade_date_from_filename csv_path) as [d|e];
    cbn [rbind]; [|reflexivity].
  destruct (front_contract_for_date d) as [[c_month c_year]|e];
    cbn [rbind]; [|reflexivity].
  cbn [fst snd]. cbv zeta.
  set (ck := {| symbol := symbol; month := c_month; year := c_year |}).
  destruct (get_writer env ck out_dir w) as [w1 [fp|e]] eqn:Ew; [|reflexivity].
  assert (state (writers w1) = state (writers w)) as Hs.
  { revert Ew. unfold get_writer.
    destruct (lookup ck (handles (writers w))).
    - intros H. now injection H as <- _.
    - destruct (open_append env (outfile ck out_dir)); intros H;
        now injection H as <- _. }
  rewrite get_state_eq. unfold state_of. rewrite Hs.
  assert (forall st (d : list (ContractKey * bbo)),
             lookup ck d = Some st -> store ck st d = d) as Hsame.
  { intros st d0. induction d0 as [|[k v] d0 IH]; cbn [lookup store]; [discriminate|].
    destruct (ContractKey_eqb ck k) eqn:E.
    - intros H. now injection H as ->.
    - intros H. now rewrite IH. }
  assert (forall (st st' : bbo) (d : list (ContractKey * bbo)),
             store ck st' (store ck st d) = store ck st' d) as Htwice.
  { intros st st' d0. induction d0 as [|[k v] d0 IH]; cbn [store].
    - now rewrite ContractKey_eqb_refl.
    - destruct (ContractKey_eqb ck k) eqn:E; cbn [store]; rewrite E; [reflexivity|].
      now rewrite IH. }
  destruct (lookup ck (state (writers w))) as [st|] eqn:El.
  - destruct (open_read env csv_path) as [fin|e]; [reflexivity|].
    unfold with_state. rewrite Hs, (Hsame _ _ El). rewrite <- Hs. now destruct w1 as [[? ?] ?].
  - destruct (open_read env csv_path) as [fin|e]; [|reflexivity].
    unfold with_state, add_events. cbn [writers handles state trace].
    now rewrite Htwice.
Qed.

(** X12: within a run the state of a contract goes from one day file to
    the next: the processing of a file of contract [ck] starts the loop
    from the state stored for [ck], empty if there is none, and, once its
    output file and the day file are open, stores the state the loop
    ends with, also when the loop raises midway; the lines written are
    those of that loop.  The state of every other contract is left as
    it was, also by a file that fails. *)
Theorem X12_state_goes_from_file_to_file (env : Env) (csv_path out_dir : path)
    (forced_symbol : option pystr) (w : world) :
  let w' := fst (export_csv_day_to_contract_last_allformat
                   env csv_path out_dir forced_symbol w) in
  (forall ck', contract_of csv_path forced_symbol <> Ok ck' ->
               lookup ck' (state (writers w')) = lookup ck' (state (writers w)))
  /\ (forall ck fin,
         contract_of csv_path forced_symbol = Ok ck ->
         (lookup ck (handles (writers w)) <> None
          \/ open_append env (outfile ck out_dir) = None) ->
         open_read env csv_path = Ok fin ->
         let rr := run_rows (fst (iter_csv_lineas fin)) (state_of ck w)
                            zero_counters in
         lookup ck (state (writers w')) = Some (fst (fst rr))
         /\ written (trace w')
            = written (trace w)
              ++ map (fun t => (outfile_name ck, render t)) (snd (fst rr))).
Proof.
  cbv zeta. rewrite contract_of_export.
  assert (forall ck w1 r, get_writer env ck out_dir w = (w1, r) ->
             state (writers w1) = state (writers w)
             /\ written (trace w1) = written (trace w)) as Hgw.
  { intros ck w1 r. unfold get_writer.
    destruct (lookup ck (handles (writers w))).
    - intros H. now injection H as <- _.
    - destruct (open_append env (outfile ck out_dir)); intros H;
        injection H as <- _; [auto|].
      cbn [writers state trace]. split; [reflexivity|].
      unfold written. rewrite flat_map_app. cbn. now rewrite app_nil_r. }
  assert (forall ck ts, written (writes_of ck ts)
                        = map (fun t => (outfile_name ck, render t)) ts) as Hwr.
  { intros ck ts. induction ts as [|t ts IH]; cbn; [reflexivity|]. now rewrite <- IH. }
  split.
  - intros ck' Hne.
    destruct (contract_of csv_path forced_symbol) as [ck|e]; [|reflexivity].
    assert (ck' <> ck) as Hck by congruence.
    destruct (get_writer env ck out_dir w) as [w1 [fp|e]] eqn:Ew;
      destruct (Hgw _ _ _ Ew) as [Hs _]; cbn [fst]; [|now rewrite Hs].
    destruct (open_read env csv_path) as [fin|e].
    + cbv zeta.
      destruct (snd (run_rows (fst (iter_csv_lineas fin)) (state_of ck w) zero_counters));
        [destruct (snd (iter_csv_lineas fin))|];
        cbn [fst add_events with_state writers state];
        now rewrite (lookup_store_other _ _ _ _ Hck), Hs.
    + cbn [fst with_state writers state].
      now rewrite (lookup_store_other _ _ _ _ Hck), Hs.
  - intros ck fin -> Hopen ->.
    destruct (get_writer env ck out_dir w) as [w1 [fp|e]] eqn:Ew.
    2:{ exfalso. revert Ew. unfold get_writer.
        destruct (lookup ck (handles (writers w))); [discriminate|].
        destruct Hopen as [H|H]; [congruence|]. rewrite H. discriminate. }
    destruct (Hgw _ _ _ Ew) as [Hs Hw]. cbv zeta.
    destruct (snd (run_rows (fst (iter_csv_lineas fin)) (state_of ck w) zero_counters));
      [destruct (snd (iter_csv_lineas fin))|];
      cbn [fst add_events with_state writers state trace];
      rewrite lookup_store; (split; [reflexivity|]);
      unfold written; rewrite ?flat_map_app; fold (written (trace w1));
      fold (written (writes_of ck (snd (fst (run_rows (fst (iter_csv_lineas fin))
                                                       (state_of ck w) zero_counters)))));
      rewrite Hw, Hwr; cbn [flat_map app]; rewrite ?app_nil_r; reflexivity.
Qed.

Lemma X12_state_goes_from_file_to_file_witness :
  let p := Scenario.csv_path true [py "data"] in
  let w := {| writers := new_ContractWriters; trace := [] |} in
  let w' := fst (export_csv_day_to_contract_last_allformat
                   OpenQuoteScenario.env p Scenario.out_dir None w) in
  lookup Scenario.ck (state (writers w'))
  = Some {| st_last := None; st_bid := Some (py "5000.00");
            st_ask := Some (py "5000.25") |}
  /\ written (trace w') = [].
Proof.
  intros p w w'.
  destruct (proj2 (X12_state_goes_from_file_to_file OpenQuoteScenario.env p
                     Scenario.out_dir None w) Scenario.ck OpenQuoteScenario.content)
    as [H1 H2]; [by_compute|right; by_compute|by_compute|].
  fold w' in H1, H2. rewrite H1, H2. split; by_compute.
Defined.

(* ====================================================================== *)
(** * The summary of a run *)
(* ====================================================================== *)

Lemma ok_counters_app (a b : list event) :
  ok_counters (a ++ b) = ok_counters a ++ ok_counters b.
Proof. unfold ok_counters. apply flat_map_app. Qed.

Lemma warnings_app (a b : list event) : warnings (a ++ b) = warnings a ++ warnings b.
Proof. unfold warnings. apply flat_map_app. Qed.

Lemma written_app (a b : list event) : written (a ++ b) = written a ++ written b.
Proof. unfold written. apply flat_map_app. Qed.

Lemma sum_of_app (f : counters -> nat) (a b : list counters) :
  sum_of f (a ++ b) = (sum_of f a + sum_of f b)%nat.
Proof. unfold sum_of. induction a as [|c a IH]; cbn; [reflexivity|]. rewrite IH. lia. Qed.

Lemma writes_of_reports (ck : ContractKey) (ts : list tick) :
  ok_counters (writes_of ck ts) = [] /\ warnings (writes_of ck ts) = []
  /\ List.length (written (writes_of ck ts)) = List.length ts.
Proof. induction ts as [|t ts (H1 & H2 & H3)]; cbn; auto. Qed.

(** What the processing of one file reports and writes. *)
Lemma export_reports (env : Env) (csv_path out_dir : path) (forced_symbol : option pystr)
    (w w' : world) (r : res counters) :
  export_csv_day_to_contract_last_allformat env csv_path out_dir forced_symbol w
  = (w', r) ->
  exists evs,
    trace w' = trace w ++ evs
    /\ warnings evs = []
    /\ match r with
       | Ok c => ok_counters evs = [c]
                 /\ List.length (written evs) = l1_trades_emitidos c
       | Raise _ => ok_counters evs = []
       end.
Proof.
  rewrite contract_of_export.
  destruct (contract_of csv_path forced_symbol) as [ck|e].
  2:{ intros H. injection H as <- <-. exists []. now rewrite app_nil_r. }
  assert (exists e1, trace (fst (get_writer env ck out_dir w)) = trace w ++ e1
                     /\ warnings e1 = [] /\ ok_counters e1 = []
                     /\ written e1 = []) as (e1 & T1 & W1 & O1 & R1).
  { unfold get_writer. destruct (lookup ck (handles (writers w))).
    - exists []. now rewrite app_nil_r.
    - destruct (open_append env (outfile ck out_dir)).
      + exists []. now rewrite app_nil_r.
      + eexists. cbn [fst trace]. split; [reflexivity|]. auto. }
  destruct (get_writer env ck out_dir w) as [w1 [fp|e]]; cbn [fst] in T1.
  2:{ intros H. injection H as <- <-. exists e1. auto. }
  destruct (open_read env csv_path) as [fin|e].
  2:{ intros H. injection H as <- <-. exists e1. auto. }
  cbv zeta.
  destruct (run_rows (fst (iter_csv_lineas fin)) (state_of ck w) zero_counters)
    as [[st' ts] rc] eqn:Er. cbn [fst snd].
  destruct (writes_of_reports ck ts) as (O2 & W2 & R2).
  destruct rc as [c|e].
  2:{ intros H. injection H as <- <-. exists (e1 ++ writes_of ck ts).
      unfold add_events, with_state. cbn [trace].
      rewrite T1, app_assoc, warnings_app, ok_counters_app, W1, W2, O1, O2. auto. }
  destruct (snd (iter_csv_lineas fin)) as [e|].
  { intros H. injection H as <- <-. exists (e1 ++ writes_of ck ts).
    unfold add_events, with_state. cbn [trace].
    rewrite T1, app_assoc, warnings_app, ok_counters_app, W1, W2, O1, O2. auto. }
  intros H. injection H as <- <-.
  exists ((e1 ++ writes_of ck ts) ++ [EvOk csv_path ck c]).
  unfold add_events, with_state. cbn [trace].
  rewrite T1, !app_assoc, !warnings_app, !ok_counters_app, !written_app,
    W1, W2, O1, O2, R1.
  split; [reflexivity|]. split; [reflexivity|]. split; [reflexivity|].
  cbn [app written flat_map]. rewrite app_nil_r, R2.
  apply run_rows_counters in Er as (_ & _ & _ & E & _). cbn in E. lia.
Qed.

Lemma main_loop_reports (env : Env) (out_dir : path) (forced_symbol : option pystr)
    (csv_paths : list path) :
  forall (t t' : totals) (w w' : world),
    main_loop env csv_paths out_dir forced_symbol t w = (w', t') ->
    exists evs,
      trace w' = trace w ++ evs
      /\ (List.length (ok_counters evs) + List.length (warnings evs)
          = List.length csv_paths)%nat
      /\ total_archivos t' = (total_archivos t + List.length csv_paths)%nat
      /\ sum_lineas t' = (sum_lineas t + sum_of total_lineas (ok_counters evs))%nat
      /\ total_validas t'
         = (total_validas t + sum_of lineas_validas (ok_counters evs))%nat
      /\ total_l1 t' = (total_l1 t + sum_of l1_total (ok_counters evs))%nat
      /\ total_trades_emitidos t'
         = (total_trades_emitidos t
            + sum_of l1_trades_emitidos (ok_counters evs))%nat
      /\ total_clamps t'
         = (total_clamps t + sum_of clamps_aplicados (ok_counters evs))%nat
      /\ (sum_of l1_trades_emitidos (ok_counters evs)
          <= List.length (written evs))%nat
      /\ (warnings evs = [] ->
          sum_of l1_trades_emitidos (ok_counters evs) = List.length (written evs)).
Proof.
  induction csv_paths as [|p rest IH]; intros t t' w w'; cbn [main_loop].
  - intros H. injection H as <- <-. exists []. rewrite app_nil_r. cbn.
    repeat split; lia.
  - destruct (export_csv_day_to_contract_last_allformat env p out_dir forced_symbol w)
      as [w1 [c|e]] eqn:Ee; apply export_reports in Ee as (e1 & T1 & W1 & R1); intros H;
      apply IH in H as (e2 & T2 & N2 & A2 & L2 & V2 & I2 & E2 & C2 & Le2 & Eq2).
    + destruct R1 as [O1 Wr1].
      exists (e1 ++ e2). rewrite T2, T1, app_assoc.
      rewrite !ok_counters_app, !warnings_app, !written_app, !sum_of_app,
        !length_app, O1, W1.
      cbn [sum_of fold_right List.length app] in *.
      rewrite A2, L2, V2, I2, E2, C2. cbn [count_file add_counters total_archivos
        sum_lineas total_validas total_l1 total_trades_emitidos total_clamps].
      repeat split; try lia.
      intros Hw. specialize (Eq2 Hw). lia.
    + exists ((e1 ++ [EvWarn p e]) ++ e2). cbn [trace] in T2.
      rewrite T2, T1, !app_assoc.
      rewrite !ok_counters_app, !warnings_app, !written_app, !sum_of_app,
        !length_app, R1, W1.
      cbn [sum_of fold_right List.length app ok_counters warnings written flat_map] in *.
      rewrite A2, L2, V2, I2, E2, C2. cbn [count_file add_counters total_archivos
        sum_lineas total_validas total_l1 total_trades_emitidos total_clamps].
      repeat split; try lia.
      intros Hw. discriminate Hw.
Qed.

(** X13: the summary of a run over at least one file is its last event;
    it counts every day file, done or failed, and its other totals are
    the sums of the counters of the files reported as done.  The trades
    it counts are never more than the lines written, and as many when no
    file failed: the lines a file wrote before it failed are in the
    output but in no total. *)
Theorem X13_summary_totals (env : Env) (csv_paths : list path) (out_dir : path)
    (forced_symbol : option pystr) :
  csv_paths <> [] ->
  let tr := trace (main env csv_paths out_dir forced_symbol) in
  exists body t,
    tr = body ++ [EvSummary t]
    /\ total_archivos t = List.length csv_paths
    /\ (List.length (ok_counters tr) + List.length (warnings tr)
        = List.length csv_paths)%nat
    /\ sum_lineas t = sum_of total_lineas (ok_counters tr)
    /\ total_validas t = sum_of lineas_validas (ok_counters tr)
    /\ total_l1 t = sum_of l1_total (ok_counters tr)
    /\ total_trades_emitidos t = sum_of l1_trades_emitidos (ok_counters tr)
    /\ total_clamps t = sum_of clamps_aplicados (ok_counters tr)
    /\ (total_trades_emitidos t <= List.length (written tr))%nat
    /\ (warnings tr = [] -> total_trades_emitidos t = List.length (written tr)).
Proof.
  intros Hne. cbv zeta. unfold main.
  destruct csv_paths as [|p rest]; [congruence|].
  destruct (main_loop env (p :: rest) out_dir forced_symbol zero_totals
              {| writers := new_ContractWriters; trace := [] |}) as [w t] eqn:El.
  apply main_loop_reports in El
    as (evs & T & N & A & L & V & I & E & C & Le & Eq).
  cbn [trace app] in T. unfold close. cbn [trace writers].
  rewrite release_all_handles, T.
  exists (evs ++ release_all (map fst (handles (writers w)))), t.
  assert (forall ks, ok_counters (release_all ks) = [] /\ warnings (release_all ks) = []
                     /\ written (release_all ks) = []) as Hrel.
  { induction ks as [|k ks (H1 & H2 & H3)]; cbn; auto. }
  destruct (Hrel (map fst (handles (writers w)))) as (R1 & R2 & R3).
  rewrite !ok_counters_app, !warnings_app, !written_app, R1, R2, R3.
  cbn [ok_counters warnings written flat_map app]. rewrite !app_nil_r.
  cbn [zero_totals total_archivos sum_lineas total_validas total_l1
       total_trades_emitidos total_clamps] in *.
  split; [reflexivity|]. split; [lia|]. split; [lia|]. split; [lia|].
  split; [lia|]. split; [lia|]. split; [lia|]. split; [lia|]. split; [lia|].
  intros Hw. specialize (Eq Hw). lia.
Qed.

Lemma X13_summary_totals_witness :
  let tr := trace (main NanScenario.env [Scenario.csv_path true [py "data"]]
                        Scenario.out_dir None) in
  exists body t,
    tr = body ++ [EvSummary t]
    /\ total_archivos t = 1%nat
    /\ (total_trades_emitidos t <= List.length (written tr))%nat.
Proof.
  destruct (X13_summary_totals NanScenario.env [Scenario.csv_path true [py "data"]]
              Scenario.out_dir None)
    as (body & t & H1 & H2 & _ & _ & _ & _ & _ & _ & H9 & _); [discriminate|].
  exists body, t. split; [exact H1|]. split; [exact H2|exact H9].
Defined.

(** The day of the NaN scenario: the trade inside the spread is written,
    the NaN trade makes the file fail, and the summary counts no trade. *)
Example run_nan_scenario :
  trace (main NanScenario.env [Scenario.csv_path true [py "data"]]
              Scenario.out_dir None)
  = [EvOpen Scenario.ck (outfile Scenario.ck Scenario.out_dir);
     EvWrite Scenario.ck
             (py "20240101 093000 3234560;5000.10;5000.00;5000.25;3" ++ [10%N]);
     EvWarn (Scenario.csv_path true [py "data"]) InvalidOperation;
     EvFlush Scenario.ck;
     EvClose Scenario.ck;
     EvSummary {| total_archivos := 1; sum_lineas := 0; total_validas := 0;
                  total_l1 := 0; total_trades_emitidos := 0; total_clamps := 0 |}].
Proof. by_compute. Qed.

(* ====================================================================== *)
(** * The roll day *)
(* ====================================================================== *)

(** X14: in a roll month of a year from 1 to 9999, [second_friday]
    returns a day of that month and year between the 8th and the 14th
    that is a Friday, and the only Friday among those seven days; for a
    year outside that range it raises [ValueError] if the year fits a
    C [int] and [OverflowError] if it does not. *)
Theorem X14_second_friday_is_the_friday (y m : Z) :
  roll_month m ->
  (1 <= y <= 9999 ->
   exists r,
     second_friday y m = Ok r
     /\ PyDate.year r = y /\ PyDate.month r = m /\ 8 <= PyDate.day r <= 14
     /\ PyDate.weekday r = 4
     /\ forall j, 8 <= j <= 14 -> PyDate.weekday (PyDate.Date y m j) = 4 ->
                  j = PyDate.day r)
  /\ (~ 1 <= y <= 9999 ->
      second_friday y m
      = Raise (if PyDate.c_int y then ValueError else OverflowError)).
Proof.
  intros Hm. split.
  - intros Hy.
    destruct (second_friday_roll y m Hy Hm) as (k & Hk & Hs & (k' & Hk' & Hw & Hmin & _ & E) & _).
    assert (k' = k) as -> by (injection E; lia).
    exists (PyDate.Date y m (k + 7)). cbn [PyDate.year PyDate.month PyDate.day].
    split; [exact Hs|]. split; [reflexivity|]. split; [reflexivity|]. split; [lia|].
    rewrite weekday_day in Hw.
    assert (forall j, PyDate.weekday (PyDate.Date y m (j + 7))
                      = PyDate.weekday (PyDate.Date y m j)) as Hweek.
    { intros j. rewrite !weekday_day.
      replace (PyDate.toordinal (PyDate.Date y m 1) + 6 + (j + 7 - 1))
        with (PyDate.toordinal (PyDate.Date y m 1) + 6 + (j - 1) + 1 * 7) by lia.
      apply Z.mod_add. lia. }
    split; [rewrite Hweek, weekday_day; exact Hw|].
    intros j Hj Hwj.
    replace j with ((j - 7) + 7) in Hwj by lia. rewrite Hweek in Hwj.
    destruct (Z.lt_trichotomy (j - 7) k) as [Hlt|[Heq|Hgt]]; [|lia|].
    + exfalso. apply (Hmin (j - 7)); [lia|exact Hwj].
    + exfalso. rewrite weekday_day in Hwj.
      set (a := PyDate.toordinal (PyDate.Date y m 1) + 6) in *.
      pose proof (Z.div_mod (a + (k - 1)) 7 ltac:(lia)).
      pose proof (Z.div_mod (a + (j - 7 - 1)) 7 ltac:(lia)).
      lia.
  - intros Hy. unfold second_friday, PyDate.new_date.
    assert (PyDate.c_int m = true /\ PyDate.c_int 1 = true) as [-> ->].
    { destruct Hm as [->|[->|[->| ->]]]; split; reflexivity. }
    rewrite !andb_true_r.
    destruct (PyDate.c_int y) eqn:Ec; cbn [negb]; [|reflexivity].
    unfold PyDate.valid_ymd, PyDate.MINYEAR, PyDate.MAXYEAR.
    assert ((1 <=? y) && (y <=? 9999) = false) as ->; [|reflexivity].
    destruct (Z.leb_spec 1 y); destruct (Z.leb_spec y 9999); cbn; auto. lia.
Qed.

Lemma X14_second_friday_is_the_friday_witness :
  (exists r,
      second_friday 2024 3 = Ok r
      /\ PyDate.year r = 2024 /\ PyDate.month r = 3 /\ 8 <= PyDate.day r <= 14
      /\ PyDate.weekday r = 4
      /\ forall j, 8 <= j <= 14 -> PyDate.weekday (PyDate.Date 2024 3 j) = 4 ->
                   j = PyDate.day r)
  /\ second_friday 10000 3 = Raise ValueError
  /\ second_friday 2147483648 3 = Raise OverflowError.
Proof.
  split; [|split].
  - apply (X14_second_friday_is_the_friday 2024 3).
    + unfold roll_month. auto.
    + lia.
  - apply (proj2 (X14_second_friday_is_the_friday 10000 3 (or_introl eq_refl))). lia.
  - apply (proj2 (X14_second_friday_is_the_friday 2147483648 3 (or_introl eq_refl))).
    lia.
Defined.

(* ====================================================================== *)
(** * The trading day in the file name *)
(* ====================================================================== *)

Section FileDate.

Import Regex.

Lemma isdecimal_find (c : char) :
  isdecimal c = true ->
  exists r, find (in_range c) decimal_ranges = Some r
            /\ In r decimal_ranges /\ in_range c r = true.
Proof.
  unfold isdecimal, in_ranges. intros H.
  destruct (find (in_range c) decimal_ranges) as [r|] eqn:E.
  - exists r. split; [reflexivity|]. apply find_some in E. exact E.
  - exfalso. apply existsb_exists in H as (r & Hin & Hr).
    apply (find_none _ _ E) in Hin. congruence.
Qed.

Lemma decimal_ranges_ok : forallb decimal_range_ok decimal_ranges = true.
Proof. by_compute. Qed.

(** A decimal digit: its value is below ten, it is no space, and below
    128 it is the ASCII digit of its value. *)
Lemma isdecimal_facts (c : char) :
  isdecimal c = true ->
  (digit_val c < 10)%N
  /\ todecimal c = Some (digit_val c)
  /\ isspace c = false
  /\ ((c < 128)%N -> c = (48 + digit_val c)%N).
Proof.
  intros H. destruct (isdecimal_find c H) as (r & Ef & Hin & Hr).
  pose proof decimal_ranges_ok as Hok. rewrite forallb_forall in Hok.
  specialize (Hok r Hin). unfold decimal_range_ok in Hok.
  apply andb_prop in Hok as [Hshape Hsp].
  unfold in_range in Hr. apply andb_prop in Hr as [Hlo Hhi].
  apply N.leb_le in Hlo, Hhi.
  unfold digit_val, todecimal. rewrite Ef.
  split; [apply N.mod_lt; discriminate|]. split; [reflexivity|]. split.
  - unfold isspace, in_ranges.
    destruct (existsb (in_range c) space_ranges) eqn:E; [|reflexivity].
    exfalso. apply existsb_exists in E as (sp & Hsin & Hs).
    rewrite forallb_forall in Hsp. specialize (Hsp sp Hsin).
    unfold in_range in Hs. apply andb_prop in Hs as [Hs1 Hs2].
    apply N.leb_le in Hs1, Hs2.
    apply orb_prop in Hsp as [Hd|Hd]; apply N.ltb_lt in Hd; lia.
  - intros Hc. apply orb_prop in Hshape as [Ha|Ha].
    + apply andb_prop in Ha as [A1 A2]. apply N.eqb_eq in A1, A2.
      rewrite A1 in *. rewrite A2 in *.
      rewrite N.mod_small by lia. lia.
    + apply N.leb_le in Ha. lia.
Qed.

Lemma to_ascii_decimals (s : pystr) :
  forallb isdecimal s = true ->
  to_ascii s = map (fun c => (48 + digit_val c)%N) s.
Proof.
  intros H. unfold to_ascii.
  destruct (forallb (fun c => (c <? 128)%N) s) eqn:E.
  - induction s as [|c s IH]; [reflexivity|]. cbn [forallb map] in *.
    apply andb_prop in H as [Hc Hs]. apply andb_prop in E as [Ec Es].
    apply N.ltb_lt in Ec.
    destruct (isdecimal_facts c Hc) as (_ & _ & _ & Hv).
    rewrite <- (Hv Ec). f_equal. now apply IH.
  - clear E. induction s as [|c s IH]; [reflexivity|]. cbn [forallb map transform] in *.
    apply andb_prop in H as [Hc Hs].
    destruct (isdecimal_facts c Hc) as (_ & Ht & Hsp & Hv).
    destruct (N.ltb_spec c 127).
    + rewrite <- (Hv ltac:(lia)). f_equal. now apply IH.
    + rewrite Hsp, Ht. f_equal. now apply IH.
Qed.

Lemma scan_digits_decimals (s : pystr) :
  forall acc,
    Forall (fun d => (d < 10)%N) (map digit_val s) ->
    scan_digits false acc (map (fun c => (48 + digit_val c)%N) s)
    = Some (acc ++ map digit_val s, []).
Proof.
  induction s as [|c s IH]; intros acc H; cbn [map scan_digits].
  - now rewrite app_nil_r.
  - cbn [map] in H. inversion H as [|? ? Hd Hs]; subst.
    assert (is_ascii_digit (48 + digit_val c)%N = true) as ->.
    { unfold is_ascii_digit. apply andb_true_intro.
      split; apply N.leb_le; lia. }
    replace (48 + digit_val c - 48)%N with (digit_val c) by lia.
    rewrite IH by exact Hs. now rewrite <- app_assoc.
Qed.

(** [int()] on a text that starts with an ASCII digit: no space is
    skipped and no sign is read. *)
Lemma py_int_digit_first (s rest : pystr) (x : char) :
  to_ascii s = x :: rest -> is_ascii_digit x = true ->
  py_int s =
  match scan_digits false [] (x :: rest) with
  | None => None
  | Some (ds, rest') =>
      match ds with
      | [] => None
      | _ =>
          if Nat.ltb max_str_digits (List.length ds) then None
          else match skip_c_space rest' with
               | [] => Some (Z.of_N (digits_value ds))
               | _ => None
               end
      end
  end.
Proof.
  intros Ha Hx. unfold py_int. rewrite Ha.
  unfold is_ascii_digit in Hx. apply andb_prop in Hx as [H1 H2].
  apply N.leb_le in H1, H2.
  assert (x = 48 \/ x = 49 \/ x = 50 \/ x = 51 \/ x = 52 \/ x = 53 \/ x = 54
          \/ x = 55 \/ x = 56 \/ x = 57)%N as Hcase by lia.
  clear H1 H2 Ha.
  repeat destruct Hcase as [Hcase|Hcase]; subst x; reflexivity.
Qed.

(** [int()] on a text of decimal digits of any script. *)
Lemma py_int_decimals (s : pystr) :
  s <> [] -> forallb isdecimal s = true -> (List.length s <= 4300)%nat ->
  py_int s = Some (number_of s).
Proof.
  intros Hne Hall Hlen.
  assert (Forall (fun d => (d < 10)%N) (map digit_val s)) as Hds.
  { apply Forall_map. rewrite forallb_forall in Hall. apply Forall_forall.
    intros c Hc. now apply isdecimal_facts, Hall. }
  pose proof (scan_digits_decimals s [] Hds) as Hscan.
  pose proof (to_ascii_decimals s Hall) as Ha.
  destruct s as [|c s]; [congruence|]. clear Hne.
  cbn [map] in Ha, Hscan, Hds. inversion Hds as [|? ? Hd _]; subst.
  rewrite (py_int_digit_first _ _ _ Ha).
  2:{ unfold is_ascii_digit. apply andb_true_intro. split; apply N.leb_le; lia. }
  match goal with
  | |- context [scan_digits false [] ?l] =>
      assert (scan_digits false [] l
              = Some ([] ++ digit_val c :: map digit_val s, [])) as -> by exact Hscan
  end.
  cbn [app]. unfold max_str_digits, number_of.
  assert (Nat.ltb 4300 (List.length (digit_val c :: map digit_val s)) = false) as ->.
  { apply Nat.ltb_ge. cbn [List.length] in *. now rewrite length_map. }
  reflexivity.
Qed.

(** The matches of the file name pattern. *)
Lemma in__RE_FILE_DATE (filename g r : pystr) :
  In (g, r) (_RE_FILE_DATE filename) <->
  filename = g ++ py ".csv" ++ r
  /\ List.length g = 8%nat /\ forallb isdecimal g = true
  /\ (r = [] \/ r = [10%N]).
Proof.
  unfold _RE_FILE_DATE. rewrite in_mbind. split.
  - intros (g' & r1 & Hg & H). apply in_times in Hg as (Hl & Hd & ->).
    apply in_mbind in H as ([] & r2 & H2 & H). apply in_lit in H2 as ->.
    apply in_mbind in H as ([] & r3 & H3 & H). apply in_eol in H3 as [-> Hnl].
    apply in_mret in H as [-> ->]. auto.
  - intros (-> & Hl & Hd & Hnl).
    exists g, (py ".csv" ++ r). split; [apply in_times; auto|].
    apply in_mbind. exists tt, r. split; [now apply in_lit|].
    apply in_mbind. exists tt, r. split; [now apply in_eol|].
    now apply in_mret.
Qed.

Lemma re_match__RE_FILE_DATE (filename g : pystr) :
  re_match _RE_FILE_DATE filename = Some g <-> file_date_pattern filename g.
Proof.
  split.
  - intros H. apply re_match_Some in H as [r H].
    apply in__RE_FILE_DATE in H. exists r. exact H.
  - intros (nl & H).
    assert (In (g, nl) (_RE_FILE_DATE filename)) as Hin by now apply in__RE_FILE_DATE.
    apply (re_match_unique _ _ _ _ Hin).
    intros g' r' Hin'. apply in__RE_FILE_DATE in Hin' as (E' & Hl' & _).
    destruct H as (E & Hl & _). rewrite E in E'.
    apply app_same_length in E' as [E' _]; [now symmetry|congruence].
Qed.

Lemma slice_decimals (a b : nat) (g : pystr) :
  (a < b <= List.length g)%nat -> (b <= 4300)%nat -> forallb isdecimal g = true ->
  slice a b g <> [] /\ forallb isdecimal (slice a b g) = true
  /\ (List.length (slice a b g) <= 4300)%nat.
Proof.
  intros Hab Hb Hall. unfold slice.
  assert (List.length (firstn (b - a) (skipn a g)) = (b - a)%nat) as Hl.
  { rewrite length_firstn, length_skipn. lia. }
  split; [|split].
  - intros E. rewrite E in Hl. cbn in Hl. lia.
  - rewrite <- (firstn_skipn a g), forallb_app in Hall.
    apply andb_prop in Hall as [_ Hall].
    rewrite <- (firstn_skipn (b - a) (skipn a g)), forallb_app in Hall.
    now apply andb_prop in Hall as [Hall _].
  - lia.
Qed.

Lemma digits_value_bound (ds : list N) :
  forall v,
    Forall (fun d => (d < 10)%N) ds ->
    (fold_left (fun v d => 10 * v + d) ds v
     < (v + 1) * 10 ^ N.of_nat (List.length ds))%N.
Proof.
  induction ds as [|d ds IH]; intros v H; cbn [fold_left List.length].
  - cbn. lia.
  - inversion H as [|? ? Hd Hds]; subst. specialize (IH (10 * v + d)%N Hds).
    rewrite Nat2N.inj_succ, N.pow_succ_r'. nia.
Qed.

(** The number written by at most four decimal digits fits a C [int]. *)
Lemma number_of_c_int (s : pystr) :
  forallb isdecimal s = true -> (List.length s <= 4)%nat ->
  PyDate.c_int (number_of s) = true.
Proof.
  intros Hall Hlen.
  assert (Forall (fun d => (d < 10)%N) (map digit_val s)) as Hds.
  { apply Forall_map. rewrite forallb_forall in Hall. apply Forall_forall.
    intros c Hc. now apply isdecimal_facts, Hall. }
  pose proof (digits_value_bound _ 0%N Hds) as Hb. rewrite length_map in Hb.
  fold (digits_value (map digit_val s)) in Hb.
  assert (10 ^ N.of_nat (List.length s) <= 10 ^ 4)%N as Hp
      by (apply N.pow_le_mono_r; lia).
  change (10 ^ 4)%N with 10000%N in Hp.
  unfold PyDate.c_int, number_of. apply andb_true_intro. split; apply Z.leb_le; lia.
Qed.

Lemma infer_trade_date_from_filename_matched (csv_path : path) (g : pystr) :
  file_date_pattern (name csv_path) g ->
  infer_trade_date_from_filename csv_path
  = if PyDate.valid_ymd (number_of (slice 0 4 g)) (number_of (slice 4 6 g))
                        (number_of (slice 6 8 g))
    then Ok (PyDate.Date (number_of (slice 0 4 g)) (number_of (slice 4 6 g))
                         (number_of (slice 6 8 g)))
    else Raise ValueError.
Proof.
  intros Hp. pose proof Hp as (nl & _ & Hl & Hd & _).
  apply re_match__RE_FILE_DATE in Hp.
  unfold infer_trade_date_from_filename. rewrite Hp.
  destruct (slice_decimals 0 4 g ltac:(lia) ltac:(lia) Hd) as (N1 & D1 & L1).
  destruct (slice_decimals 4 6 g ltac:(lia) ltac:(lia) Hd) as (N2 & D2 & L2).
  destruct (slice_decimals 6 8 g ltac:(lia) ltac:(lia) Hd) as (N3 & D3 & L3).
  rewrite (py_int_decimals _ N1 D1 L1), (py_int_decimals _ N2 D2 L2),
    (py_int_decimals _ N3 D3 L3).
  cbn [or_raise rbind]. unfold PyDate.new_date.
  assert (forall a b, (a < b <= 8)%nat -> (b - a <= 4)%nat ->
                      (List.length (slice a b g) <= 4)%nat) as Hs.
  { intros a b Hab Hba. unfold slice. rewrite length_firstn. lia. }
  rewrite !number_of_c_int by (auto; apply Hs; lia).
  reflexivity.
Qed.

End FileDate.

(** X15: the trading day of a day file is read from its name exactly
    when the name is eight decimal digits, of any script, followed by
    [.csv] and at most one final newline, and the numbers written by the
    first four, the next two and the last two digits are the year, month
    and day of a date of the calendar; the result is that date.  In
    every other case the function raises [ValueError], and nothing else. *)
Theorem X15_trade_date_from_filename (csv_path : path) :
  (forall d,
      infer_trade_date_from_filename csv_path = Ok d <->
      exists g,
        file_date_pattern (name csv_path) g
        /\ d = PyDate.Date (number_of (slice 0 4 g)) (number_of (slice 4 6 g))
                           (number_of (slice 6 8 g))
        /\ PyDate.valid_date d)
  /\ (forall e, infer_trade_date_from_filename csv_path = Raise e -> e = ValueError).
Proof.
  destruct (Regex.re_match _RE_FILE_DATE (name csv_path)) as [g|] eqn:E.
  - apply re_match__RE_FILE_DATE in E.
    rewrite (infer_trade_date_from_filename_matched csv_path g E).
    unfold PyDate.valid_date. split.
    + intros d. split.
      * destruct (PyDate.valid_ymd _ _ _) eqn:V; [|discriminate].
        intros H. injection H as <-. exists g. auto.
      * intros (g' & Hg' & -> & Hv).
        apply re_match__RE_FILE_DATE in E, Hg'.
        assert (g' = g) as -> by congruence.
        cbn [PyDate.year PyDate.month PyDate.day] in Hv. now rewrite Hv.
    + intros e. destruct (PyDate.valid_ymd _ _ _); [discriminate|]. congruence.
  - unfold infer_trade_date_from_filename. rewrite E. split.
    + intros d. split; [discriminate|].
      intros (g & Hg & _). apply re_match__RE_FILE_DATE in Hg. congruence.
    + intros e H. congruence.
Qed.

Lemma X15_trade_date_from_filename_witness :
  infer_trade_date_from_filename
    {| anchored := false;
       parts := [[1634; 1632; 1634; 1636; 1632; 1633; 1632; 1633; 46; 99; 115; 118]%N] |}
  = Ok (PyDate.Date 2024 1 1).
Proof.
  apply (proj1 (X15_trade_date_from_filename _)).
  exists [1634; 1632; 1634; 1636; 1632; 1633; 1632; 1633]%N.
  split; [|split; [by_compute|reflexivity]].
  exists []. split; [reflexivity|]. split; [reflexivity|]. split; [by_compute|now left].
Defined.

(* ====================================================================== *)
(** * The rows of a day file written in plain lines *)
(* ====================================================================== *)

Section PlainLines.

Import Csv.

Lemma process_line_feed (a b : pystr) :
  forall r, process_line r (a ++ b) = (r' <- feed r a ;; process_line r' b)%res.
Proof.
  induction a as [|c a IH]; intros r; cbn [app process_line feed rbind]; [reflexivity|].
  destruct (parse_process_char r (Some c)) as [r'|e]; cbn [rbind]; [apply IH|reflexivity].
Qed.

Lemma feed_app (a b : pystr) :
  forall r, feed r (a ++ b) = (r' <- feed r a ;; feed r' b)%res.
Proof.
  induction a as [|c a IH]; intros r; cbn [app feed rbind]; [reflexivity|].
  destruct (parse_process_char r (Some c)) as [r'|e]; cbn [rbind]; [apply IH|reflexivity].
Qed.

Lemma plain_char_cases (c : char) :
  plain_char c = true ->
  is_newline c = false /\ (c =? quotechar)%N = false /\ (c =? delimiter)%N = false.
Proof.
  unfold plain_char, is_newline, quotechar, delimiter. intros H.
  apply negb_true_iff in H. repeat (apply orb_false_iff in H as [H ?]).
  repeat split; auto. apply orb_false_iff. auto.
Qed.

Lemma parse_add_char_ok (r : reader) (c : char) :
  (N.of_nat (List.length (field r)) < field_limit)%N ->
  parse_add_char r c
  = Ok {| state := state r; fields := fields r; field := field r ++ [c] |}.
Proof.
  intros H. unfold parse_add_char. apply N.leb_gt in H. now rewrite H.
Qed.

(** One plain character goes to the field being read. *)
Lemma feed_plain_char (done : list pystr) (cur : pystr) (c : char) :
  plain_char c = true ->
  (N.of_nat (List.length cur) < field_limit)%N ->
  parse_process_char (mid done cur) (Some c) = Ok (mid done (cur ++ [c])).
Proof.
  intros Hc Hl. destruct (plain_char_cases c Hc) as (Hn & Hq & Hd).
  assert (mid done (cur ++ [c])
          = {| state := IN_FIELD; fields := done; field := cur ++ [c] |}) as ->.
  { unfold mid. now destruct cur. }
  unfold mid, parse_process_char. cbn [state].
  destruct cur as [|x cur]; cbn [is_nil].
  - destruct done as [|d done]; cbn [is_nil]; rewrite ?Hn; unfold start_field;
      rewrite Hn, Hq, Hd, parse_add_char_ok by exact Hl; reflexivity.
  - rewrite Hn, Hd, parse_add_char_ok by exact Hl. reflexivity.
Qed.

Lemma feed_plain (f : pystr) :
  forall done cur,
    forallb plain_char f = true ->
    (N.of_nat (List.length (cur ++ f)) <= field_limit)%N ->
    feed (mid done cur) f = Ok (mid done (cur ++ f)).
Proof.
  induction f as [|c f IH]; intros done cur Hp Hl; cbn [feed].
  - now rewrite app_nil_r.
  - cbn [forallb] in Hp. apply andb_prop in Hp as [Hc Hp].
    rewrite length_app in Hl. cbn [List.length] in Hl.
    rewrite feed_plain_char by (auto; lia). cbn [rbind].
    rewrite IH; [now rewrite <- app_assoc|exact Hp|].
    rewrite !length_app. cbn [List.length]. lia.
Qed.

(** The delimiter ends the field being read. *)
Lemma feed_delimiter (done : list pystr) (cur : pystr) :
  parse_process_char (mid done cur) (Some delimiter) = Ok (mid (done ++ [cur]) []).
Proof.
  assert (mid (done ++ [cur]) []
          = {| state := START_FIELD; fields := done ++ [cur]; field := [] |}) as ->.
  { unfold mid. cbn [is_nil]. now destruct done. }
  unfold mid, parse_process_char. cbn [state].
  destruct cur as [|x cur]; cbn [is_nil]; [destruct done; cbn [is_nil]|]; reflexivity.
Qed.

Lemma plain_field_parts (f : pystr) :
  plain_field f = true ->
  forallb plain_char f = true /\ (N.of_nat (List.length f) <= field_limit)%N.
Proof.
  unfold plain_field. intros H. apply andb_prop in H as [H1 H2].
  apply N.leb_le in H2. auto.
Qed.

(** The fields of a record, joined, leave the reader after all of them
    but the last, with the last being read. *)
Lemma feed_join_fields (fs : list pystr) :
  forall done,
    fs <> [] -> forallb plain_field fs = true ->
    feed (mid done []) (join_fields fs)
    = Ok (mid (done ++ removelast fs) (last fs [])).
Proof.
  induction fs as [|f fs IH]; intros done Hne Hp; [congruence|].
  cbn [forallb] in Hp. apply andb_prop in Hp as [Hf Hp].
  apply plain_field_parts in Hf as [Hf Hl].
  destruct fs as [|g fs].
  - cbn [join_fields removelast last]. rewrite app_nil_r.
    now rewrite feed_plain by auto.
  - change (join_fields (f :: g :: fs))
      with (f ++ [delimiter] ++ join_fields (g :: fs)).
    rewrite !feed_app, feed_plain by auto. cbn [rbind app feed].
    rewrite feed_delimiter. cbn [rbind].
    rewrite IH by (auto; discriminate).
    change (removelast (f :: g :: fs)) with (f :: removelast (g :: fs)).
    change (last (f :: g :: fs) []) with (last (g :: fs) []).
    now rewrite <- app_assoc.
Qed.

(** The end of a line in plain text. *)
Lemma process_line_end (done : list pystr) (cur : pystr) (crlf : bool) :
  (r' <- feed (mid done cur) (line_end crlf) ;; process_line r' [])%res
  = Ok {| state := START_RECORD;
          fields := if is_nil done && is_nil cur then [] else done ++ [cur];
          field := [] |}.
Proof.
  unfold mid.
  destruct cur as [|x cur]; destruct done as [|d done]; destruct crlf; reflexivity.
Qed.

Lemma removelast_last_eq (fs : list pystr) :
  fs <> [] -> removelast fs ++ [last fs []] = fs.
Proof. intros H. symmetry. now apply app_removelast_last. Qed.

(** One plain line gives one row: its fields, or no field at all when
    the line is blank. *)
Lemma process_line_plain (fs : list pystr) (crlf : bool) :
  fs <> [] -> forallb plain_field fs = true ->
  process_line parse_reset (join_fields fs ++ line_end crlf)
  = Ok {| state := START_RECORD;
          fields := if is_blank fs then [] else fs;
          field := [] |}.
Proof.
  intros Hne Hp. change parse_reset with (mid [] []).
  rewrite process_line_feed, (feed_join_fields fs [] Hne Hp). cbn [rbind app].
  replace (process_line (mid (removelast fs) (last fs [])) (line_end crlf))
    with (r' <- feed (mid (removelast fs) (last fs [])) (line_end crlf) ;;
          process_line r' [])%res.
  2:{ rewrite <- (app_nil_r (line_end crlf)) at 2. now rewrite process_line_feed. }
  rewrite process_line_end, (removelast_last_eq fs Hne). f_equal. f_equal.
  destruct fs as [|f [|g fs]]; [congruence| |].
  - cbn [removelast last is_nil andb is_blank]. now destruct f.
  - cbn [is_blank]. change (removelast (f :: g :: fs)) with (f :: removelast (g :: fs)).
    cbn [is_nil andb]. now destruct f.
Qed.

Lemma join_fields_no_newline (fs : list pystr) :
  forallb plain_field fs = true ->
  forallb (fun c => negb (is_newline c)) (join_fields fs) = true.
Proof.
  induction fs as [|f fs IH]; intros Hp; [reflexivity|].
  cbn [forallb] in Hp. apply andb_prop in Hp as [Hf Hp].
  apply plain_field_parts in Hf as [Hf _].
  assert (forallb (fun c => negb (is_newline c)) f = true) as Hfn.
  { rewrite forallb_forall in *. intros c Hc.
    destruct (plain_char_cases c (Hf c Hc)) as (-> & _). reflexivity. }
  destruct fs as [|g fs]; [exact Hfn|].
  change (join_fields (f :: g :: fs)) with (f ++ [delimiter] ++ join_fields (g :: fs)).
  rewrite !forallb_app, Hfn, (IH Hp). reflexivity.
Qed.

(** The lines of a text that starts with a plain line. *)
Lemma readlines_plain (p : pystr) (crlf : bool) (rest : pystr) :
  forall cur,
    forallb (fun c => negb (is_newline c)) p = true ->
    readlines cur (p ++ line_end crlf ++ rest)
    = (cur ++ p ++ line_end crlf) :: readlines [] rest.
Proof.
  induction p as [|c p IH]; intros cur Hp.
  - destruct crlf; reflexivity.
  - cbn [forallb] in Hp. apply andb_prop in Hp as [Hc Hp].
    unfold is_newline in Hc. apply negb_true_iff, orb_false_iff in Hc as [H10 H13].
    cbn [app readlines]. rewrite H10, H13, IH by exact Hp.
    now rewrite <- !app_assoc.
Qed.

(** The lines of a text of plain records. *)
Lemma readlines_text_of (recs : list (list pystr * bool)) :
  Forall (fun rc => fst rc <> [] /\ forallb plain_field (fst rc) = true) recs ->
  readlines [] (text_of recs)
  = map (fun rc => join_fields (fst rc) ++ line_end (snd rc)) recs.
Proof.
  induction 1 as [|[fs crlf] recs [Hne Hp] _ IH]; [reflexivity|].
  cbn [text_of flat_map fst snd map] in *. fold (text_of recs).
  rewrite <- app_assoc,
    (readlines_plain _ crlf (text_of recs) [] (join_fields_no_newline fs Hp)).
  cbn [app]. now rewrite IH.
Qed.

(** Every line of such a text is terminated, so all of them are
    delivered, also when reading stops with an error afterwards. *)
Lemma lines_delivered_text_of (failed : bool) (recs : list (list pystr * bool)) :
  Forall (fun rc => fst rc <> [] /\ forallb plain_field (fst rc) = true) recs ->
  lines_delivered failed (text_of recs) = readlines [] (text_of recs).
Proof.
  intros H. unfold lines_delivered. cbv zeta. rewrite (readlines_text_of recs H).
  destruct failed; [|reflexivity]. cbn [andb].
  destruct recs as [|rc recs]; [reflexivity|].
  match goal with
  | |- context [ends_with_lf ?t] => set (x := t)
  end.
  assert (exists rc', x = join_fields (fst rc') ++ line_end (snd rc')) as (rc' & E).
  { subst x. clear H. revert rc. induction recs as [|r2 recs IH]; intros rc.
    - exists rc. reflexivity.
    - destruct (IH r2) as (rc' & E). exists rc'. rewrite <- E. reflexivity. }
  clearbody x. subst x.
  assert (ends_with_lf (join_fields (fst rc') ++ line_end (snd rc')) = true) as ->;
    [|reflexivity].
  unfold ends_with_lf. rewrite rev_app_distr. now destruct (snd rc').
Qed.

Lemma records_plain (failed : bool) (recs : list (list pystr * bool)) :
  Forall (fun rc => fst rc <> [] /\ forallb plain_field (fst rc) = true) recs ->
  records failed parse_reset
          (map (fun rc => join_fields (fst rc) ++ line_end (snd rc)) recs)
  = (map (fun fs => if is_blank fs then [] else fs) (map fst recs), None).
Proof.
  induction 1 as [|[fs crlf] recs [Hne Hp] _ IH].
  - now destruct failed.
  - cbn [map fst snd records] in *.
    rewrite (process_line_plain fs crlf Hne Hp).
    cbn [state is_start_record fields]. now rewrite IH.
Qed.

End PlainLines.

(** X16: a day file written in plain lines is read back as written.
    When every record is at least one field, no field holds a
    semicolon, a double quote, a line feed or a carriage return or is
    longer than the field size limit, and every record is on a line of
    its own that ends with LF or CR LF, [iter_csv_lineas] yields
    exactly the records, in order, except the blank lines, and ends
    with the read error of the file, if any. *)
Theorem X16_plain_lines_read_back (recs : list (list pystr * bool))
    (err : option exn) :
  Forall (fun rc => fst rc <> [] /\ forallb plain_field (fst rc) = true) recs ->
  iter_csv_lineas {| text := text_of recs; read_error := err |}
  = (filter (fun fs => negb (is_blank fs)) (map fst recs), err).
Proof.
  intros H. unfold iter_csv_lineas, Csv.reader_rows. cbn [text read_error]. cbv zeta.
  rewrite (lines_delivered_text_of _ recs H), (readlines_text_of recs H),
    (records_plain _ recs H).
  f_equal. induction recs as [|[fs crlf] recs IH]; [reflexivity|].
  inversion H as [|? ? [Hne _] Hrest]; subst. cbn [fst] in Hne.
  cbn [map fst filter].
  rewrite (IH Hrest).
  destruct fs as [|f [|g fs]]; [congruence| |]; destruct f; reflexivity.
Qed.

Lemma X16_plain_lines_read_back_witness :
  iter_csv_lineas
    {| text := py "a;b" ++ [10%N] ++ [13%N; 10%N] ++ py ";" ++ [10%N];
       read_error := None |}
  = ([[py "a"; py "b"]; [[]; []]], None).
Proof.
  refine (X16_plain_lines_read_back
            [([py "a"; py "b"], false); ([[]], true); ([[]; []], false)] None _).
  repeat constructor; discriminate.
Defined.

(* ====================================================================== *)
(** * White space around the fields *)
(* ====================================================================== *)

Lemma lstrip_spaces (a s : pystr) :
  forallb isspace a = true -> lstrip (a ++ s) = lstrip s.
Proof.
  induction a as [|c a IH]; cbn [forallb app lstrip]; [reflexivity|].
  intros H. apply andb_prop in H as [Hc Ha]. rewrite Hc. now apply IH.
Qed.

Lemma lstrip_app (s b : pystr) :
  lstrip (s ++ b) = if is_nil (lstrip s) then lstrip b else lstrip s ++ b.
Proof.
  induction s as [|c s IH]; cbn [app lstrip].
  - cbn [is_nil]. reflexivity.
  - destruct (isspace c); [exact IH|reflexivity].
Qed.

Lemma lstrip_all_spaces (b : pystr) : forallb isspace b = true -> lstrip b = [].
Proof.
  intros H. rewrite <- (app_nil_r b). now rewrite lstrip_spaces.
Qed.

Lemma forallb_rev {A : Type} (p : A -> bool) (l : list A) :
  forallb p (rev l) = forallb p l.
Proof.
  induction l as [|x l IH]; [reflexivity|].
  cbn [rev forallb]. rewrite forallb_app, IH. cbn [forallb].
  rewrite andb_true_r. apply andb_comm.
Qed.

Lemma rstrip_spaces (s b : pystr) :
  forallb isspace b = true -> rstrip (s ++ b) = rstrip s.
Proof.
  intros H. unfold rstrip. rewrite rev_app_distr, lstrip_spaces; [reflexivity|].
  now rewrite forallb_rev.
Qed.

(** Padding a text with white space does not change what [strip] gives. *)
Lemma strip_padding (a s b : pystr) :
  forallb isspace a = true -> forallb isspace b = true ->
  strip (a ++ s ++ b) = strip s.
Proof.
  intros Ha Hb. unfold strip. rewrite (lstrip_spaces a _ Ha), lstrip_app.
  destruct (lstrip s) as [|c t] eqn:E; cbn [is_nil].
  - now rewrite (lstrip_all_spaces b Hb).
  - now apply rstrip_spaces.
Qed.

Lemma lstrip_split (s : pystr) :
  exists a, s = a ++ lstrip s /\ forallb isspace a = true.
Proof.
  induction s as [|c s (a & E & Ha)]; [exists []; auto|].
  cbn [lstrip]. destruct (isspace c) eqn:Ec.
  - exists (c :: a). cbn [app forallb]. rewrite Ec, Ha. split; [now f_equal|reflexivity].
  - exists []. auto.
Qed.

(** A text is what [strip] gives of it, between two runs of white space. *)
Lemma strip_split (s : pystr) :
  exists a b, s = a ++ strip s ++ b
              /\ forallb isspace a = true /\ forallb isspace b = true.
Proof.
  destruct (lstrip_split s) as (a & Ea & Ha).
  destruct (lstrip_split (rev (lstrip s))) as (b & Eb & Hb).
  exists a, (rev b). split; [|split; [exact Ha|now rewrite forallb_rev]].
  unfold strip, rstrip. rewrite <- rev_app_distr, <- Eb, rev_involutive. exact Ea.
Qed.

Lemma strip_idempotent (s : pystr) : strip (strip s) = strip s.
Proof.
  destruct (strip_split s) as (a & b & E & Ha & Hb).
  rewrite E at 2. symmetry. now apply strip_padding.
Qed.

(** X17: white space around the timestamp, the price and the volume of
    a row changes nothing of what [parse_line_fields] returns, whatever
    the other fields are, and the timestamp, price and volume it
    returns are trimmed: [strip] leaves them as they are. *)
Theorem X17_parse_ignores_padding :
  (forall a0 b0 a3 b3 a4 b4 f0 f1 f2 f3 f4 more,
      forallb isspace (a0 ++ b0 ++ a3 ++ b3 ++ a4 ++ b4) = true ->
      parse_line_fields
        ((a0 ++ f0 ++ b0) :: f1 :: f2 :: (a3 ++ f3 ++ b3) :: (a4 ++ f4 ++ b4) :: more)
      = parse_line_fields (f0 :: f1 :: f2 :: f3 :: f4 :: more))
  /\ (forall campos ts lv ty p v,
         parse_line_fields campos = Some (ts, lv, ty, p, v) ->
         strip ts = ts /\ strip p = p /\ strip v = v).
Proof.
  split.
  - intros a0 b0 a3 b3 a4 b4 f0 f1 f2 f3 f4 more H.
    rewrite !forallb_app in H.
    repeat (apply andb_prop in H as [? H]).
    unfold parse_line_fields, field. cbn [List.length nth].
    now rewrite !strip_padding by assumption.
  - intros campos ts lv ty p v H. apply parse_line_fields_Some in H.
    destruct H as (_ & -> & _ & _ & _ & _ & -> & ->).
    now rewrite !strip_idempotent.
Qed.

Lemma X17_parse_ignores_padding_witness :
  parse_line_fields [py " 20240101093000123456"; py "1"; py "2";
                     [9%N; 12288%N] ++ py "5000.50" ++ py "  "; py "3 "]
  = parse_line_fields [py "20240101093000123456"; py "1"; py "2";
                       py "5000.50"; py "3"].
Proof.
  refine (proj1 X17_parse_ignores_padding (py " ") [] [9%N; 12288%N] (py "  ")
            [] (py " ") (py "20240101093000123456") (py "1") (py "2")
            (py "5000.50") (py "3") [] _).
  by_compute.
Defined.

(* ====================================================================== *)
(** * What a failing file leaves behind *)
(* ====================================================================== *)




(* ====================================================================== *)
(** * The rows of a file whose reading stops with an error *)
(* ====================================================================== *)

Section ReadError.

Import Csv.






End ReadError.


(** The day of the open quote: the trade, whose record is still being
    read when the error comes, is not yielded; it would be if the file
    ended there. *)
Example open_record_dropped_on_error :
  iter_csv_lineas OpenQuoteScenario.content
  = ([[py "20240101093000123456"; py "1"; py "0"; py "5000.00"; py "10"];
      [py "20240101093000223456"; py "1"; py "1"; py "5000.25"; py "7"]],
     Some UnicodeDecodeError)
  /\ List.length
       (fst (iter_csv_lineas {| text := OpenQuoteScenario.decoded;
                                read_error := None |})) = 3%nat.
Proof. split; by_compute. Qed.
